(** * NVCP Toggle: a shallow embedding of [native_nvcp_toggle.c]

    The program toggles digital vibrance, hue and the gamma ramp of an
    NVIDIA display.  This development embeds the functions of the C file
    and proves properties of them.

    Conventions of the embedding.

    - A C [int] (and the driver's [NvS32]) is a [Z] in the 32-bit signed
      range; every arithmetic operator wraps its mathematical result
      into that range ([Int.wrap]).  C leaves signed overflow undefined;
      wrap-around is what the two's-complement targets of this Windows
      program compute.  Division truncates toward zero ([Z.quot]).
    - A C [double] is a real number.  Every floating-point operation is
      the exact operation followed by a rounding operator [rnd], which is
      a parameter of the model ([fadd], [fsub], [fmul], [fdiv]); each
      operation is rounded on its own.  The properties proved below name
      the facts about [rnd] they rest on: monotonicity, exactness on
      small half-integers, a relative error of at most 2^-52.  The
      rounding of binary64, [binary64], is defined on the reals and is
      proved to have the three of them.  The model has no infinities and
      no NaN.
      Decimal literals that binary64 represents exactly (0.0, 0.5, 1.0,
      2.0, 100.0, 255.0, 65535.0) are written as the reals they denote;
      the others (0.1, 0.02, 0.60, 0.65, 1.43) are rounded by [rnd].
      The conversion of an [int] to [double] is exact.
    - The C library functions [pow], [atoi] and [atof] are parameters;
      the properties that depend on [pow] name the fact they rest on, and
      a correctly rounded power function, [pow64], has it.
    - A [WORD] is a [Z] in [0, 65535]; a gamma ramp [WORD ramp[3][256]]
      is a store indexed by channel and sample.
    - Calls that act on the outside world are recorded as a list of
      events; what the outside world answers is a record, [World]. *)

From Stdlib Require Import ZArith List Bool Lia Lra Psatz Reals.
From Stdlib Require Import String Ascii DecimalString.
Import ListNotations.

Local Open Scope Z_scope.

(* ===================================================================== *)
(** * Part I: definitions *)
(* ===================================================================== *)

(** ** 32-bit signed integers *)

Module Int.

Definition min_signed : Z := - 2147483648.
Definition max_signed : Z := 2147483647.

Definition in_range (z : Z) : Prop := min_signed <= z <= max_signed.

(** Reduction of a mathematical result into the 32-bit signed range. *)
Definition wrap (z : Z) : Z := (z + 2147483648) mod 4294967296 - 2147483648.

Definition add (a b : Z) : Z := wrap (a + b).
Definition sub (a b : Z) : Z := wrap (a - b).
Definition mul (a b : Z) : Z := wrap (a * b).
(** C's [/] on [int]: truncation toward zero. *)
Definition div (a b : Z) : Z := wrap (Z.quot a b).
(** C's [abs]. *)
Definition abs (a : Z) : Z := wrap (Z.abs a).

End Int.

(** ** Vibrance unit conversion (lines 316-334) *)

(** [PercentToDVC]: NVCP percentage (50-100) to the raw DVC level. *)
Definition PercentToDVC (percent dvcMax : Z) : Z :=
  if percent <=? 50 then 0
  else if percent >=? 100 then dvcMax
  else Int.div (Int.mul (Int.sub percent 50) dvcMax) 50.

(** [DVCToPercent]: raw DVC level to the NVCP percentage. *)
Definition DVCToPercent (dvcValue dvcMax : Z) : Z :=
  if dvcMax =? 0 then 50
  else Int.add 50 (Int.div (Int.mul dvcValue 50) dvcMax).

(** ** Doubles *)

Local Open Scope R_scope.

(** C's comparisons on [double]. *)
Definition flt (x y : R) : bool := if Rlt_dec x y then true else false.
Definition fgt (x y : R) : bool := flt y x.
Definition fne (x y : R) : bool := if Req_dec_T x y then false else true.

(** The two clamps of lines 135-136. *)
Definition clamp01 (x : R) : R :=
  let x := if flt x 0 then 0 else x in
  if fgt x 1 then 1 else x.

(** The clamp of lines 144-146. *)
Definition clamp1 (x : R) : R := if fgt x 1 then 1 else x.

(** [(double)i] for an [int] [i]: exact. *)
Definition double_of_int (i : Z) : R := IZR i.

(** Conversion of a [double] to an integer type truncates toward zero. *)
Definition Ztrunc (x : R) : Z := if Rlt_dec x 0 then Zceil x else Zfloor x.

(** [(WORD)x]: truncation, then the low 16 bits. *)
Definition WORD_of_double (x : R) : Z := (Ztrunc x mod 65536)%Z.

(** ** Handles *)

(** A device context; [0] is [NULL]. *)
Definition HDC : Type := Z.
Definition NvDisplayHandle : Type := Z.

(** ** Gamma ramps *)

(** [WORD ramp[3][256]], indexed by channel (0 red, 1 green, 2 blue) and
    sample. *)
Definition Ramp : Type := Z -> Z -> Z.

(** [ramp[c][i] = v;] *)
Definition ramp_set (ramp : Ramp) (c i v : Z) : Ramp :=
  fun c' i' => if ((c' =? c) && (i' =? i))%Z then v else ramp c' i'.

(** [for (int i = 0; i < n; i++) body], threading the state [s]. *)
Definition for_loop {S : Type} (n : nat) (body : S -> Z -> S) (s : S) : S :=
  fold_left body (map Z.of_nat (seq 0 n)) s.

(** The indices [0 .. n-1] of a loop that may return early. *)
Definition indices (n : nat) : list Z := map Z.of_nat (seq 0 n).

(** The cells of a ramp hold 16-bit words. *)
Definition WORD_ramp (ramp : Ramp) : Prop :=
  forall c i : Z, (0 <= ramp c i <= 65535)%Z.

(** Default values (lines 68-73). *)
Definition DEFAULT_VIBRANCE_PCT : Z := 50.
Definition DEFAULT_HUE : Z := 0.
Definition DEFAULT_BRIGHTNESS : R := 0.5.
Definition DEFAULT_CONTRAST : R := 0.5.
Definition DEFAULT_GAMMA : R := 1.

Section Arithmetic.

(** Rounding of a real to a [double]. *)
Variable rnd : R -> R.
(** The C library's [pow]. *)
Variable pow : R -> R -> R.

Definition fadd (x y : R) : R := rnd (x + y).
Definition fsub (x y : R) : R := rnd (x - y).
Definition fmul (x y : R) : R := rnd (x * y).
Definition fdiv (x y : R) : R := rnd (x / y).

(** One iteration of the loop of [BuildGammaRamp] (lines 122-151). *)
Definition BuildGammaRamp_body
    (brightness contrast gamma redAdj greenAdj blueAdj : R)
    (ramp : Ramp) (i : Z) : Ramp :=
  let value := fdiv (double_of_int i) 255 in
  let value := if fne gamma 1 then pow value (fdiv 1 gamma) else value in
  let value :=
    fadd (fadd (fmul (fsub value 0.5) (fmul contrast 2)) 0.5)
         (fsub brightness 0.5) in
  let value := if flt value 0 then 0 else value in
  let value := if fgt value 1 then 1 else value in
  let r := fmul value redAdj in
  let g := fmul value greenAdj in
  let b := fmul value blueAdj in
  let r := if fgt r 1 then 1 else r in
  let g := if fgt g 1 then 1 else g in
  let b := if fgt b 1 then 1 else b in
  let ramp := ramp_set ramp 0 i (WORD_of_double (fadd (fmul r 65535) 0.5)) in
  let ramp := ramp_set ramp 1 i (WORD_of_double (fadd (fmul g 65535) 0.5)) in
  ramp_set ramp 2 i (WORD_of_double (fadd (fmul b 65535) 0.5)).

(** [BuildGammaRamp] (lines 114-153); [ramp] is the array's content on
    entry. *)
Definition BuildGammaRamp (ramp : Ramp) (brightness contrast gamma : R)
    (temperature : Z) : Ramp :=
  let tempFactor := fdiv (double_of_int temperature) 100 in
  let redAdj := fadd 1 (fmul tempFactor (rnd 0.1)) in
  let blueAdj := fsub 1 (fmul tempFactor (rnd 0.1)) in
  let greenAdj := fadd 1 (fmul tempFactor (rnd 0.02)) in
  for_loop 256
    (BuildGammaRamp_body brightness contrast gamma redAdj greenAdj blueAdj)
    ramp.

(** The statements of the loop body, grouped for the proofs: the base
    value after the clamp of lines 135-136, one channel after the clamp
    of lines 144-146, and the scaling of lines 149-151. *)
Definition base_value (brightness contrast gamma : R) (i : Z) : R :=
  let value := fdiv (double_of_int i) 255 in
  let value := if fne gamma 1 then pow value (fdiv 1 gamma) else value in
  let value :=
    fadd (fadd (fmul (fsub value 0.5) (fmul contrast 2)) 0.5)
         (fsub brightness 0.5) in
  let value := if flt value 0 then 0 else value in
  if fgt value 1 then 1 else value.

Definition channel_value (value adj : R) : R :=
  let r := fmul value adj in
  if fgt r 1 then 1 else r.

Definition scale16 (r : R) : R := fadd (fmul r 65535) 0.5.

(** The factor of channel [c] (lines 116-119). *)
Definition channel_adj (temperature : Z) (c : Z) : R :=
  let tempFactor := fdiv (double_of_int temperature) 100 in
  if (c =? 0)%Z then fadd 1 (fmul tempFactor (rnd 0.1))
  else if (c =? 1)%Z then fadd 1 (fmul tempFactor (rnd 0.02))
  else fsub 1 (fmul tempFactor (rnd 0.1)).

(** The [double] that is converted to the [WORD] stored at [ramp[c][i]]. *)
Definition sample_double (brightness contrast gamma : R) (temperature : Z)
    (c i : Z) : R :=
  scale16 (channel_value (base_value brightness contrast gamma i)
                         (channel_adj temperature c)).

(** The test of line 171. *)
Definition ramp_differs (currentRamp defaultRamp : Ramp) (c i : Z) : bool :=
  (Int.abs (Int.sub (currentRamp c i) (defaultRamp c i)) >? 256)%Z.

(** [HasDefaultGammaRamp] (lines 158-178).  [GetDeviceGammaRamp hdc] is
    the table the system call delivers ([None] when it fails), [uninit]
    the content of the local [defaultRamp] before it is built.  The two
    nested loops return [false] at the first cell that differs. *)
Definition HasDefaultGammaRamp (GetDeviceGammaRamp : HDC -> option Ramp)
    (uninit : Ramp) (hdc : HDC) : bool :=
  match GetDeviceGammaRamp hdc with
  | None => true
  | Some currentRamp =>
      let defaultRamp :=
        BuildGammaRamp uninit DEFAULT_BRIGHTNESS DEFAULT_CONTRAST
                       DEFAULT_GAMMA 0 in
      forallb
        (fun c =>
           forallb (fun i => negb (ramp_differs currentRamp defaultRamp c i))
                   (indices 256))
        (indices 3)
  end.

End Arithmetic.

Local Close Scope R_scope.

(** ** Reference notions used in the statements *)

Local Open Scope R_scope.

(** Rounding to the nearest integer, halves upward. *)
Definition round_half_up (x : R) : Z := Zfloor (x + 0.5).

(** The real power function with C's conventions at a zero base. *)
Definition real_pow (x y : R) : R :=
  if Rle_dec x 0 then (if Req_dec_T y 0 then 1 else 0) else Rpower x y.

(** *** Rounding to binary64

    Round to nearest, ties to even, with 53 significant bits and the
    least exponent of binary64.  There is no overflow: the exponent is
    not bounded above. *)

(** Powers of two. *)
Definition bpow (e : Z) : R := powerRZ 2 e.

(** Nearest integer, ties to even. *)
Definition rne (y : R) : Z :=
  let f := Zfloor y in
  if Rlt_dec (y - IZR f) (1 / 2) then f
  else if Rlt_dec (1 / 2) (y - IZR f) then (f + 1)%Z
  else if Z.even f then f else (f + 1)%Z.

(** The exponent [e] with [2^e <= x < 2^(e+1)], for [x > 0]. *)
Definition mag (x : R) : Z := Zfloor (ln x / ln 2).

(** The exponent of the last place of binary64 at [x > 0]: 53 significant
    bits, least exponent -1074. *)
Definition cexp (x : R) : Z := Z.max (mag x - 52) (-1074).

Definition rnd_pos (x : R) : R :=
  if Rle_dec x 0 then 0
  else IZR (rne (x / bpow (cexp x))) * bpow (cexp x).

Definition binary64 (x : R) : R :=
  if Rlt_dec x 0 then - rnd_pos (- x) else rnd_pos x.

(** A correctly rounded [pow]. *)
Definition pow64 (x y : R) : R := binary64 (real_pow x y).


(** The three channels. *)
Definition is_channel (c : Z) : Prop := c = 0%Z \/ c = 1%Z \/ c = 2%Z.

Local Close Scope R_scope.

(** ** The driver's undocumented entry points *)

Definition NvAPI_Status : Type := Z.
Definition NVAPI_OK : NvAPI_Status := 0.

(** DVC info structure (lines 26-31). *)
Record NV_GPU_DVC_INFO_V1 : Type := {
  dvc_version : Z;
  currentLevel : Z;
  minLevel : Z;
  maxLevel : Z
}.

(** [MAKE_NVAPI_VERSION(NV_GPU_DVC_INFO_V1, 1)]: the structure's size (16)
    with the version in the upper half-word. *)
Definition NV_GPU_DVC_INFO_VER1 : Z := Z.lor 16 (Z.shiftl 1 16).

(** HUE info structure (lines 36-40). *)
Record NV_GPU_HUE_INFO_V1 : Type := {
  hue_version : Z;
  currentAngle : Z;
  defaultAngle : Z
}.

Definition NV_GPU_HUE_INFO_VER1 : Z := Z.lor 12 (Z.shiftl 1 16).

(** The four global function pointers (lines 51-54); [None] is [NULL].  A
    getter receives the structure the caller prepared and returns the
    status together with the structure as the driver left it. *)
Record NvFuncs : Type := {
  pfnNvAPI_GPU_GetDVCInfo :
    option (NvDisplayHandle -> Z -> NV_GPU_DVC_INFO_V1 ->
            NvAPI_Status * NV_GPU_DVC_INFO_V1);
  pfnNvAPI_GPU_SetDVCLevel : option (NvDisplayHandle -> Z -> Z -> NvAPI_Status);
  pfnNvAPI_GPU_GetHUEInfo :
    option (NvDisplayHandle -> Z -> NV_GPU_HUE_INFO_V1 ->
            NvAPI_Status * NV_GPU_HUE_INFO_V1);
  pfnNvAPI_GPU_SetHUEAngle : option (NvDisplayHandle -> Z -> Z -> NvAPI_Status)
}.

(** The globals before [InitUndocumentedNvAPI] has run. *)
Definition null_funcs : NvFuncs :=
  {| pfnNvAPI_GPU_GetDVCInfo := None; pfnNvAPI_GPU_SetDVCLevel := None;
     pfnNvAPI_GPU_GetHUEInfo := None; pfnNvAPI_GPU_SetHUEAngle := None |}.

(** An [int*] argument: [None] is [NULL], [Some v] points to a cell that
    holds [v]. *)
Definition int_ptr : Type := option Z.

(** [if (p) *p = v;] *)
Definition store_if_nonnull (p : int_ptr) (v : Z) : int_ptr :=
  match p with
  | Some _ => Some v
  | None => None
  end.

(** [GetVibrance] (lines 183-198): the returned level and the cells behind
    [outMin] and [outMax] after the call. *)
Definition GetVibrance (fns : NvFuncs) (hDisplay : NvDisplayHandle)
    (outMin outMax : int_ptr) : Z * int_ptr * int_ptr :=
  match pfnNvAPI_GPU_GetDVCInfo fns with
  | None => (0, outMin, outMax)
  | Some getDVCInfo =>
      let dvcInfo :=
        {| dvc_version := NV_GPU_DVC_INFO_VER1;
           currentLevel := 0; minLevel := 0; maxLevel := 0 |} in
      let '(status, dvcInfo) := getDVCInfo hDisplay 0 dvcInfo in
      if negb (status =? NVAPI_OK) then (0, outMin, outMax)
      else (currentLevel dvcInfo,
            store_if_nonnull outMin (minLevel dvcInfo),
            store_if_nonnull outMax (maxLevel dvcInfo))
  end.

(** The DVC query fails: the function pointer is unresolved, or the driver
    answers with a status other than [NVAPI_OK]. *)
Definition DVC_query_fails (fns : NvFuncs) (hDisplay : NvDisplayHandle) : Prop :=
  match pfnNvAPI_GPU_GetDVCInfo fns with
  | None => True
  | Some getDVCInfo =>
      fst (getDVCInfo hDisplay 0
             {| dvc_version := NV_GPU_DVC_INFO_VER1;
                currentLevel := 0; minLevel := 0; maxLevel := 0 |})
      <> NVAPI_OK
  end.

(** [GetHue] (lines 213-225). *)
Definition GetHue (fns : NvFuncs) (hDisplay : NvDisplayHandle) : Z :=
  match pfnNvAPI_GPU_GetHUEInfo fns with
  | None => DEFAULT_HUE
  | Some getHUEInfo =>
      let hueInfo :=
        {| hue_version := NV_GPU_HUE_INFO_VER1;
           currentAngle := 0; defaultAngle := 0 |} in
      let '(status, hueInfo) := getHUEInfo hDisplay 0 hueInfo in
      if negb (status =? NVAPI_OK) then DEFAULT_HUE
      else currentAngle hueInfo
  end.

(** ** Observable effects *)

(** What the program prints: fixed texts, and the formatted lines with
    their arguments.  Line breaks and empty lines are not recorded. *)
Inductive Message : Type :=
| MsgText (text : string)
| MsgConfigError (filename : string)
| MsgInitError (errorStr : string)
| MsgDisplay (displayName : string)
| MsgCustomInts (vibrance hue temperature : Z)
| MsgCustomReals (brightness contrast gamma : R).

(** The calls that act on the outside world, in program order. *)
Inductive Event : Type :=
| Printf (m : Message)
| Getchar
| SetDVCLevel (hDisplay : NvDisplayHandle) (level : Z)
| SetHUEAngle (hDisplay : NvDisplayHandle) (angle : Z)
| SetDeviceGammaRamp (hdc : HDC) (ramp : Ramp)
| DeleteDC (hdc : HDC)
| NvAPI_Unload.

(** [SetVibrance] (lines 203-208). *)
Definition SetVibrance (fns : NvFuncs) (hDisplay : NvDisplayHandle)
    (level : Z) : bool * list Event :=
  match pfnNvAPI_GPU_SetDVCLevel fns with
  | None => (false, [])
  | Some setDVCLevel =>
      (setDVCLevel hDisplay 0 level =? NVAPI_OK, [SetDVCLevel hDisplay level])
  end.

(** [SetHue] (lines 230-235). *)
Definition SetHue (fns : NvFuncs) (hDisplay : NvDisplayHandle)
    (angle : Z) : bool * list Event :=
  match pfnNvAPI_GPU_SetHUEAngle fns with
  | None => (false, [])
  | Some setHUEAngle =>
      (setHUEAngle hDisplay 0 angle =? NVAPI_OK, [SetHUEAngle hDisplay angle])
  end.

(** ** Configuration *)

Record Config : Type := {
  toggleAllDisplays : bool;
  keyPressToExit : bool;
  vibrance : Z;
  hue : Z;
  brightness : R;
  contrast : R;
  gamma : R;
  temperature : Z
}.

Definition set_toggleAllDisplays (c : Config) (v : bool) : Config :=
  {| toggleAllDisplays := v; keyPressToExit := keyPressToExit c;
     vibrance := vibrance c; hue := hue c; brightness := brightness c;
     contrast := contrast c; gamma := gamma c; temperature := temperature c |}.
Definition set_keyPressToExit (c : Config) (v : bool) : Config :=
  {| toggleAllDisplays := toggleAllDisplays c; keyPressToExit := v;
     vibrance := vibrance c; hue := hue c; brightness := brightness c;
     contrast := contrast c; gamma := gamma c; temperature := temperature c |}.
Definition set_vibrance (c : Config) (v : Z) : Config :=
  {| toggleAllDisplays := toggleAllDisplays c;
     keyPressToExit := keyPressToExit c;
     vibrance := v; hue := hue c; brightness := brightness c;
     contrast := contrast c; gamma := gamma c; temperature := temperature c |}.
Definition set_hue (c : Config) (v : Z) : Config :=
  {| toggleAllDisplays := toggleAllDisplays c;
     keyPressToExit := keyPressToExit c;
     vibrance := vibrance c; hue := v; brightness := brightness c;
     contrast := contrast c; gamma := gamma c; temperature := temperature c |}.
Definition set_brightness (c : Config) (v : R) : Config :=
  {| toggleAllDisplays := toggleAllDisplays c;
     keyPressToExit := keyPressToExit c;
     vibrance := vibrance c; hue := hue c; brightness := v;
     contrast := contrast c; gamma := gamma c; temperature := temperature c |}.
Definition set_contrast (c : Config) (v : R) : Config :=
  {| toggleAllDisplays := toggleAllDisplays c;
     keyPressToExit := keyPressToExit c;
     vibrance := vibrance c; hue := hue c; brightness := brightness c;
     contrast := v; gamma := gamma c; temperature := temperature c |}.
Definition set_gamma (c : Config) (v : R) : Config :=
  {| toggleAllDisplays := toggleAllDisplays c;
     keyPressToExit := keyPressToExit c;
     vibrance := vibrance c; hue := hue c; brightness := brightness c;
     contrast := contrast c; gamma := v; temperature := temperature c |}.
Definition set_temperature (c : Config) (v : Z) : Config :=
  {| toggleAllDisplays := toggleAllDisplays c;
     keyPressToExit := keyPressToExit c;
     vibrance := vibrance c; hue := hue c; brightness := brightness c;
     contrast := contrast c; gamma := gamma c; temperature := v |}.

(** *** Scanning one line: [sscanf(line, "%63[^=]=%63s", key, value)] *)

Definition char_tab : ascii := ascii_of_nat 9.
Definition char_lf : ascii := ascii_of_nat 10.
Definition char_vt : ascii := ascii_of_nat 11.
Definition char_ff : ascii := ascii_of_nat 12.
Definition char_cr : ascii := ascii_of_nat 13.

(** C's [isspace] in the C locale. *)
Definition isspace (c : ascii) : bool :=
  Ascii.eqb c " " || Ascii.eqb c char_tab || Ascii.eqb c char_lf ||
  Ascii.eqb c char_vt || Ascii.eqb c char_ff || Ascii.eqb c char_cr.

(** [%n[^=]]: at most [n] characters other than ['=']; the scanned text and
    the rest of the input. *)
Fixpoint scan_not_equals (n : nat) (s : string) : string * string :=
  match n, s with
  | S n', String c s' =>
      if Ascii.eqb c "=" then (EmptyString, s)
      else let '(k, rest) := scan_not_equals n' s' in (String c k, rest)
  | _, _ => (EmptyString, s)
  end.

Fixpoint skip_space (s : string) : string :=
  match s with
  | String c s' => if isspace c then skip_space s' else s
  | EmptyString => s
  end.

(** [%ns] after the leading white space: at most [n] characters that are
    not white space. *)
Fixpoint scan_word (n : nat) (s : string) : string :=
  match n, s with
  | S n', String c s' =>
      if isspace c then EmptyString else String c (scan_word n' s')
  | _, _ => EmptyString
  end.

(** The two converted fields when [sscanf] returns 2, [None] otherwise. *)
Definition sscanf_key_value (line : string) : option (string * string) :=
  let '(key, rest) := scan_not_equals 63 line in
  match key, rest with
  | String _ _, String c rest' =>
      if Ascii.eqb c "=" then
        match scan_word 63 (skip_space rest') with
        | EmptyString => None
        | value => Some (key, value)
        end
      else None
  | _, _ => None
  end.

(** Lines 265-268: the pointer moves past leading spaces and tabs. *)
Fixpoint skip_blank (s : string) : string :=
  match s with
  | String c s' =>
      if Ascii.eqb c " " || Ascii.eqb c char_tab then skip_blank s' else s
  | EmptyString => s
  end.

(** The test of line 260 on [line[0]]. *)
Definition is_comment_or_empty (line : string) : bool :=
  match line with
  | String c _ =>
      Ascii.eqb c "#" || Ascii.eqb c char_lf || Ascii.eqb c char_cr
  | EmptyString => false
  end.

(** [strcmp(v, "true") == 0 || strcmp(v, "1") == 0] *)
Definition is_true (v : string) : bool :=
  String.eqb v "true" || String.eqb v "1".

(** ** The outside world *)

(** What the system and the driver answer during one run.  None of the
    queries below is preceded, in the program, by a call that changes its
    answer, so each is a function of its arguments. *)
Record World : Type := {
  (** [GetModuleFileNameA]: the path of the executable. *)
  exePath : string;
  (** [fopen(name, "r")] and then the lines [fgets] returns, [None] when
      the file cannot be opened. *)
  fopen : string -> option (list string);
  NvAPI_Initialize : NvAPI_Status;
  NvAPI_GetErrorMessage : NvAPI_Status -> string;
  (** Whether [LoadLibraryA] finds the driver library. *)
  LoadLibraryA_nvapi : bool;
  (** [GetProcAddress(hNvapi, "nvapi_QueryInterface")], [None] when it is
      missing; otherwise the four pointers it resolves. *)
  nvapi_QueryInterface : option NvFuncs;
  (** The handles [NvAPI_EnumNvidiaDisplayHandle] yields for the indices
      0, 1, ... before it first fails. *)
  nvidiaDisplays : list NvDisplayHandle;
  NvAPI_GetAssociatedNvidiaDisplayName : NvDisplayHandle -> option string;
  (** [CreateDCA("DISPLAY", device, NULL, NULL)]; [None] is a [NULL]
      device name. *)
  CreateDCA : option string -> HDC;
  (** [GetDC(NULL)]. *)
  GetDC_NULL : HDC;
  (** The devices [EnumDisplayDevicesA] lists: primary flag and name. *)
  displayDevices : list (bool * string);
  GetDeviceGammaRamp : HDC -> option Ramp;
  (** The content of a local ramp array before it is written. *)
  uninitRamp : Ramp
}.

(** [InitUndocumentedNvAPI] (lines 82-108): the result and the globals
    afterwards. *)
Definition InitUndocumentedNvAPI (w : World) : bool * NvFuncs * list Event :=
  if negb (LoadLibraryA_nvapi w) then
    (false, null_funcs, [Printf (MsgText "ERROR: Could not load nvapi dll")])
  else
    match nvapi_QueryInterface w with
    | None =>
        (false, null_funcs,
         [Printf (MsgText "ERROR: Could not find nvapi_QueryInterface")])
    | Some fns => (true, fns, [])
    end.

(** [GetGammaRampDC] (lines 300-314). *)
Definition GetGammaRampDC (w : World) : HDC :=
  let fix scan (devices : list (bool * string)) : HDC :=
    match devices with
    | [] => CreateDCA w None
    | (primary, name) :: rest =>
        if primary then
          let hdc := CreateDCA w (Some name) in
          if negb (hdc =? 0) then hdc else scan rest
        else scan rest
    end in
  scan (displayDevices w).

(** The text before the last occurrence of [c] in [s], when there is one
    ([strrchr] and the write of a terminator at that place). *)
Fixpoint before_last (c : ascii) (s : string) : option string :=
  match s with
  | EmptyString => None
  | String a s' =>
      match before_last c s' with
      | Some prefix => Some (String a prefix)
      | None => if Ascii.eqb a c then Some EmptyString else None
      end
  end.

(** [snprintf(buf, size, ...)] keeps at most [size - 1] characters. *)
Definition snprintf (size : nat) (text : string) : string :=
  substring 0 (size - 1) text.

Definition MAX_PATH : nat := 260.

(** Lines 389-399 of [main]. *)
Definition configPath (w : World) : string :=
  match before_last "\" (exePath w) with
  | Some dir => snprintf MAX_PATH (dir ++ "\native_nvcp_config.ini")
  | None => "native_nvcp_config.ini"
  end.

Section Program.

Variable rnd : R -> R.
Variable pow : R -> R -> R.
(** The C library's [atoi] and [atof]. *)
Variable atoi : string -> Z.
Variable atof : string -> R.

(** The values assigned at lines 248-255. *)
Definition builtin_defaults : Config :=
  {| toggleAllDisplays := false; keyPressToExit := true;
     vibrance := 80; hue := 7;
     brightness := rnd 0.60; contrast := rnd 0.65; gamma := rnd 1.43;
     temperature := 0 |}.

(** The body of the [while] loop of [LoadConfig] (lines 259-290). *)
Definition LoadConfig_line (config : Config) (line : string) : Config :=
  if is_comment_or_empty line then config
  else
    match sscanf_key_value line with
    | None => config
    | Some (key, value) =>
        let k := skip_blank key in
        let v := skip_blank value in
        if String.eqb k "toggleAllDisplays" then
          set_toggleAllDisplays config (is_true v)
        else if String.eqb k "keyPressToExit" then
          set_keyPressToExit config (is_true v)
        else if String.eqb k "vibrance" then set_vibrance config (atoi v)
        else if String.eqb k "hue" then set_hue config (atoi v)
        else if String.eqb k "brightness" then
          set_brightness config (atof v)
        else if String.eqb k "contrast" then set_contrast config (atof v)
        else if String.eqb k "gamma" then set_gamma config (atof v)
        else if String.eqb k "temperature" then
          let t := atoi v in
          let t := if t <? -100 then -100 else t in
          let t := if t >? 100 then 100 else t in
          set_temperature config t
        else config
    end.

(** [LoadConfig] (lines 240-295).  [config] is the caller's structure
    as it is on entry; the result is the returned flag, the structure on
    exit and what was printed. *)
Definition LoadConfig (w : World) (filename : string) (config : Config)
    : bool * Config * list Event :=
  match fopen w filename with
  | None => (false, config, [Printf (MsgConfigError filename)])
  | Some lines => (true, fold_left LoadConfig_line lines builtin_defaults, [])
  end.

(** The value of an [int] local whose address was passed as [p]. *)
Definition local_after (p : int_ptr) (before : Z) : Z :=
  match p with
  | Some v => v
  | None => before
  end.

(** Lines 340-345 of [ToggleDisplay]: the locals [dvcMin], [dvcMax],
    [currentVibranceRaw], [currentHue] and [defaultVibranceRaw]. *)
Record ToggleLocals : Type := {
  dvcMin : Z;
  dvcMax : Z;
  currentVibranceRaw : Z;
  currentHue : Z;
  defaultVibranceRaw : Z
}.

Definition ToggleDisplay_locals (fns : NvFuncs) (hNvDisplay : NvDisplayHandle)
    : ToggleLocals :=
  let dvcMin := 0 in
  let dvcMax := 63 in
  let '(currentVibranceRaw, pMin, pMax) :=
    GetVibrance fns hNvDisplay (Some dvcMin) (Some dvcMax) in
  let dvcMin := local_after pMin dvcMin in
  let dvcMax := local_after pMax dvcMax in
  let currentHue := GetHue fns hNvDisplay in
  {| dvcMin := dvcMin; dvcMax := dvcMax;
     currentVibranceRaw := currentVibranceRaw;
     currentHue := currentHue;
     defaultVibranceRaw := PercentToDVC DEFAULT_VIBRANCE_PCT dvcMax |}.

(** [ToggleDisplay] (lines 339-380). *)
Definition ToggleDisplay (w : World) (fns : NvFuncs)
    (hNvDisplay : NvDisplayHandle) (hdc : HDC) (config : Config)
    (displayName : string) : list Event :=
  let l := ToggleDisplay_locals fns hNvDisplay in
  let isDefault :=
    (Int.abs (Int.sub (currentVibranceRaw l) (defaultVibranceRaw l)) <=? 1)
    && (currentHue l =? DEFAULT_HUE)
    && HasDefaultGammaRamp rnd pow (GetDeviceGammaRamp w) (uninitRamp w) hdc in
  [Printf (MsgDisplay displayName)] ++
  if isDefault then
    let targetVibranceRaw := PercentToDVC (vibrance config) (dvcMax l) in
    [Printf (MsgText "Toggling Custom Settings:");
     Printf (MsgCustomInts (vibrance config) (hue config)
                           (temperature config));
     Printf (MsgCustomReals (brightness config) (contrast config)
                            (gamma config))] ++
    snd (SetVibrance fns hNvDisplay targetVibranceRaw) ++
    snd (SetHue fns hNvDisplay (hue config)) ++
    [SetDeviceGammaRamp hdc
       (BuildGammaRamp rnd pow (uninitRamp w) (brightness config)
          (contrast config) (gamma config) (temperature config))]
  else
    [Printf (MsgText "Resetting to default settings...")] ++
    snd (SetVibrance fns hNvDisplay (defaultVibranceRaw l)) ++
    snd (SetHue fns hNvDisplay DEFAULT_HUE) ++
    [SetDeviceGammaRamp hdc
       (BuildGammaRamp rnd pow (uninitRamp w) DEFAULT_BRIGHTNESS
          DEFAULT_CONTRAST DEFAULT_GAMMA 0)].

(** ["Press any key to exit..."] and the wait, when configured. *)
Definition wait_for_key (config : Config) : list Event :=
  if keyPressToExit config
  then [Printf (MsgText "Press any key to exit..."); Getchar]
  else [].

(** The loop of lines 429-447 over the enumerated displays, from index
    [i]. *)
Fixpoint toggle_all (w : World) (fns : NvFuncs) (config : Config)
    (i : nat) (displays : list NvDisplayHandle) : list Event :=
  match displays with
  | [] => []
  | hDisplay :: rest =>
      let displayName :=
        match NvAPI_GetAssociatedNvidiaDisplayName w hDisplay with
        | Some name => name
        | None =>
            snprintf 64 ("Display " ++
                         NilEmpty.string_of_uint (Nat.to_uint i))
        end in
      let hdc := CreateDCA w (Some displayName) in
      let hdc := if hdc =? 0 then GetDC_NULL w else hdc in
      ToggleDisplay w fns hDisplay hdc config displayName ++
      (if negb (hdc =? GetDC_NULL w) then [DeleteDC hdc] else []) ++
      toggle_all w fns config (S i) rest
  end.

(** [main] (lines 385-482).  [config] is the content of the local
    structure before [LoadConfig] is called; the result is the exit
    code and the effects in order. *)
Definition main (w : World) (config : Config) : Z * list Event :=
  let '(loaded, config, out1) := LoadConfig w (configPath w) config in
  let out2 :=
    if negb loaded
    then [Printf (MsgText "Using default configuration values.")]
    else [] in
  let status := NvAPI_Initialize w in
  if negb (status =? NVAPI_OK) then
    (1, out1 ++ out2 ++
        [Printf (MsgInitError (NvAPI_GetErrorMessage w status))] ++
        wait_for_key config)
  else
    let '(ok, fns, out3) := InitUndocumentedNvAPI w in
    let out4 :=
      if negb ok
      then [Printf (MsgText "WARNING: DVC/HUE control may not work")]
      else [] in
    if toggleAllDisplays config then
      (0, out1 ++ out2 ++ out3 ++ out4 ++
          [Printf (MsgText "Toggling all displays...")] ++
          toggle_all w fns config 0 (nvidiaDisplays w) ++
          [NvAPI_Unload] ++ wait_for_key config)
    else
      match nvidiaDisplays w with
      | [] =>
          (1, out1 ++ out2 ++ out3 ++ out4 ++
              [Printf (MsgText "Toggling primary display...");
               Printf (MsgText "ERROR: No NVIDIA display found");
               NvAPI_Unload] ++ wait_for_key config)
      | hDisplay :: _ =>
          let displayName :=
            match NvAPI_GetAssociatedNvidiaDisplayName w hDisplay with
            | Some name => name
            | None => "Primary Display"%string
            end in
          let hdc := GetGammaRampDC w in
          (0, out1 ++ out2 ++ out3 ++ out4 ++
              [Printf (MsgText "Toggling primary display...")] ++
              ToggleDisplay w fns hDisplay hdc config displayName ++
              [DeleteDC hdc; NvAPI_Unload] ++ wait_for_key config)
      end.

End Program.

(** ** Sample inputs *)

(** A driver whose DVC query answers [status] and reports the levels
    [cur], [lo], [hi]. *)
Definition sample_funcs (status cur lo hi : Z) : NvFuncs :=
  {| pfnNvAPI_GPU_GetDVCInfo :=
       Some (fun _ _ info =>
               (status,
                {| dvc_version := dvc_version info; currentLevel := cur;
                   minLevel := lo; maxLevel := hi |}));
     pfnNvAPI_GPU_SetDVCLevel := None;
     pfnNvAPI_GPU_GetHUEInfo := None;
     pfnNvAPI_GPU_SetHUEAngle := None |}.

(** A run in which the configuration file cannot be opened, the driver
    initialises, the display reports the neutral vibrance and hue, and the
    gamma table cannot be read. *)
Definition world_without_config : World :=
  {| exePath := "C:\tools\native_nvcp_toggle.exe";
     fopen := fun _ => None;
     NvAPI_Initialize := NVAPI_OK;
     NvAPI_GetErrorMessage := fun _ => "NVAPI_ERROR"%string;
     LoadLibraryA_nvapi := true;
     nvapi_QueryInterface :=
       Some {| pfnNvAPI_GPU_GetDVCInfo :=
                 Some (fun _ _ info =>
                         (NVAPI_OK,
                          {| dvc_version := dvc_version info;
                             currentLevel := 0; minLevel := 0;
                             maxLevel := 63 |}));
               pfnNvAPI_GPU_SetDVCLevel := Some (fun _ _ _ => NVAPI_OK);
               pfnNvAPI_GPU_GetHUEInfo :=
                 Some (fun _ _ info =>
                         (NVAPI_OK,
                          {| hue_version := hue_version info;
                             currentAngle := 0; defaultAngle := 0 |}));
               pfnNvAPI_GPU_SetHUEAngle := Some (fun _ _ _ => NVAPI_OK) |};
     nvidiaDisplays := [1];
     NvAPI_GetAssociatedNvidiaDisplayName := fun _ => Some "DISPLAY1"%string;
     CreateDCA := fun _ => 2;
     GetDC_NULL := 3;
     displayDevices := [(true, "DISPLAY1"%string)];
     GetDeviceGammaRamp := fun _ => None;
     uninitRamp := fun _ _ => 0 |}.

(** The lines [fgets] returns for a file that holds [vibrance=90], a
    comment and [hue=10], each ended by a line feed. *)
Definition sample_config_lines : list string :=
  [("vibrance=90" ++ String char_lf EmptyString)%string;
   ("#comment" ++ String char_lf EmptyString)%string;
   ("hue=10" ++ String char_lf EmptyString)%string].

(** A local [Config] whose memory happens to hold zero bytes. *)
Definition zeroed_config : Config :=
  {| toggleAllDisplays := false; keyPressToExit := false;
     vibrance := 0; hue := 0;
     brightness := 0; contrast := 0; gamma := 0; temperature := 0 |}.

(** ** Notions used in the further properties *)

(** The hue query fails: the function pointer is unresolved, or the driver
    answers with a status other than [NVAPI_OK]. *)
Definition HUE_query_fails (fns : NvFuncs) (hDisplay : NvDisplayHandle) : Prop :=
  match pfnNvAPI_GPU_GetHUEInfo fns with
  | None => True
  | Some getHUEInfo =>
      fst (getHUEInfo hDisplay 0
             {| hue_version := NV_GPU_HUE_INFO_VER1;
                currentAngle := 0; defaultAngle := 0 |})
      <> NVAPI_OK
  end.

(** Output to the console and the wait for a key, as opposed to calls of
    the driver and of the display system. *)
Definition is_console (e : Event) : bool :=
  match e with
  | Printf _ | Getchar => true
  | _ => false
  end.

(** The calls of the driver and of the display system in a trace. *)
Definition driver_calls (events : list Event) : list Event :=
  filter (fun e => negb (is_console e)) events.

(** The device contexts whose gamma ramp a trace writes, in order. *)
Definition gamma_writes (events : list Event) : list HDC :=
  flat_map (fun e => match e with
                     | SetDeviceGammaRamp hdc _ => [hdc]
                     | _ => []
                     end) events.

(** The displays whose vibrance level a trace sets, in order. *)
Definition vibrance_targets (events : list Event) : list NvDisplayHandle :=
  flat_map (fun e => match e with
                     | SetDVCLevel hDisplay _ => [hDisplay]
                     | _ => []
                     end) events.

(** The displays whose hue angle a trace sets, in order. *)
Definition hue_targets (events : list Event) : list NvDisplayHandle :=
  flat_map (fun e => match e with
                     | SetHUEAngle hDisplay _ => [hDisplay]
                     | _ => []
                     end) events.

(** Lines 430-439: the device context the loop over all displays uses
    for display number [i]: the one [CreateDCA] gives for the display's
    name, or for ["Display i"] when the name query fails, or the screen
    context when [CreateDCA] returns [NULL]. *)
Definition loop_DC (w : World) (i : nat) (hDisplay : NvDisplayHandle) : HDC :=
  let displayName :=
    match NvAPI_GetAssociatedNvidiaDisplayName w hDisplay with
    | Some name => name
    | None =>
        snprintf 64 ("Display " ++ NilEmpty.string_of_uint (Nat.to_uint i))
    end in
  let hdc := CreateDCA w (Some displayName) in
  if hdc =? 0 then GetDC_NULL w else hdc.

(** The contexts of the displays [displays], numbered from [i]. *)
Fixpoint loop_DCs (w : World) (i : nat) (displays : list NvDisplayHandle)
    : list HDC :=
  match displays with
  | [] => []
  | hDisplay :: rest => loop_DC w i hDisplay :: loop_DCs w (S i) rest
  end.

(** The device contexts a trace deletes, in order. *)
Definition deleted_DCs (events : list Event) : list HDC :=
  flat_map (fun e => match e with
                     | DeleteDC hdc => [hdc]
                     | _ => []
                     end) events.

(** What a display shows: the vibrance level, the hue angle and the gamma
    ramp last set. *)
Record DisplayState : Type := {
  shown_level : Z;
  shown_angle : Z;
  shown_ramp : Ramp
}.

(** The effect of one call on the display. *)
Definition apply_event (st : DisplayState) (e : Event) : DisplayState :=
  match e with
  | SetDVCLevel _ level =>
      {| shown_level := level; shown_angle := shown_angle st;
         shown_ramp := shown_ramp st |}
  | SetHUEAngle _ angle =>
      {| shown_level := shown_level st; shown_angle := angle;
         shown_ramp := shown_ramp st |}
  | SetDeviceGammaRamp _ ramp =>
      {| shown_level := shown_level st; shown_angle := shown_angle st;
         shown_ramp := ramp |}
  | _ => st
  end.

(** A driver whose four functions are resolved, whose queries succeed and
    report what the display shows, with the level range [0, dvcMax]. *)
Definition readback_funcs (dvcMax : Z) (st : DisplayState) : NvFuncs :=
  {| pfnNvAPI_GPU_GetDVCInfo :=
       Some (fun _ _ info =>
               (NVAPI_OK,
                {| dvc_version := dvc_version info;
                   currentLevel := shown_level st;
                   minLevel := 0; maxLevel := dvcMax |}));
     pfnNvAPI_GPU_SetDVCLevel := Some (fun _ _ _ => NVAPI_OK);
     pfnNvAPI_GPU_GetHUEInfo :=
       Some (fun _ _ info =>
               (NVAPI_OK,
                {| hue_version := hue_version info;
                   currentAngle := shown_angle st; defaultAngle := 0 |}));
     pfnNvAPI_GPU_SetHUEAngle := Some (fun _ _ _ => NVAPI_OK) |}.

(** The world [w] with a display system that reports the ramp the display
    shows. *)
Definition readback_world (w : World) (st : DisplayState) : World :=
  {| exePath := exePath w;
     fopen := fopen w;
     NvAPI_Initialize := NvAPI_Initialize w;
     NvAPI_GetErrorMessage := NvAPI_GetErrorMessage w;
     LoadLibraryA_nvapi := LoadLibraryA_nvapi w;
     nvapi_QueryInterface := nvapi_QueryInterface w;
     nvidiaDisplays := nvidiaDisplays w;
     NvAPI_GetAssociatedNvidiaDisplayName :=
       NvAPI_GetAssociatedNvidiaDisplayName w;
     CreateDCA := CreateDCA w;
     GetDC_NULL := GetDC_NULL w;
     displayDevices := displayDevices w;
     GetDeviceGammaRamp := fun _ => Some (shown_ramp st);
     uninitRamp := uninitRamp w |}.

(** One run of [ToggleDisplay] on a display in state [st], and the state
    it leaves. *)
Definition toggle_state (rnd : R -> R) (pow : R -> R -> R) (w : World)
    (dvcMax : Z) (hNvDisplay : NvDisplayHandle) (hdc : HDC) (config : Config)
    (displayName : string) (st : DisplayState) : DisplayState :=
  fold_left apply_event
    (ToggleDisplay rnd pow (readback_world w st) (readback_funcs dvcMax st)
                   hNvDisplay hdc config displayName)
    st.

(** The state of a display at the defaults: level 0, angle 0 and the
    table of the neutral parameters. *)
Definition default_state (rnd : R -> R) (pow : R -> R -> R) (ramp : Ramp)
    : DisplayState :=
  {| shown_level := 0; shown_angle := 0;
     shown_ramp := BuildGammaRamp rnd pow ramp DEFAULT_BRIGHTNESS
                     DEFAULT_CONTRAST DEFAULT_GAMMA 0 |}.

(** The state of a display with the settings of [config] applied. *)
Definition custom_state (rnd : R -> R) (pow : R -> R -> R) (ramp : Ramp)
    (dvcMax : Z) (config : Config) : DisplayState :=
  {| shown_level := PercentToDVC (vibrance config) dvcMax;
     shown_angle := hue config;
     shown_ramp := BuildGammaRamp rnd pow ramp (brightness config)
                     (contrast config) (gamma config) (temperature config) |}.

(** Every character of [s] satisfies [p]. *)
Fixpoint string_forall (p : ascii -> bool) (s : string) : bool :=
  match s with
  | EmptyString => true
  | String c s' => p c && string_forall p s'
  end.

(** [s] is empty or begins with a white-space character. *)
Definition ends_word (s : string) : bool :=
  match s with
  | EmptyString => true
  | String c _ => isspace c
  end.

(** A key that [%63[^=]] scans whole: not empty, no equals sign, at most
    63 characters. *)
Definition scannable_key (key : string) : bool :=
  negb (String.eqb key EmptyString)
  && string_forall (fun c => negb (Ascii.eqb c "=")) key
  && (String.length key <=? 63)%nat.

(** A value that [%63s] scans whole: not empty, no white space, at most 63
    characters. *)
Definition scannable_value (value : string) : bool :=
  negb (String.eqb value EmptyString)
  && string_forall (fun c => negb (isspace c)) value
  && (String.length value <=? 63)%nat.

(** The world [w] with a configuration file that holds [lines]. *)
Definition world_with_config (w : World) (lines : list string) : World :=
  {| exePath := exePath w;
     fopen := fun _ => Some lines;
     NvAPI_Initialize := NvAPI_Initialize w;
     NvAPI_GetErrorMessage := NvAPI_GetErrorMessage w;
     LoadLibraryA_nvapi := LoadLibraryA_nvapi w;
     nvapi_QueryInterface := nvapi_QueryInterface w;
     nvidiaDisplays := nvidiaDisplays w;
     NvAPI_GetAssociatedNvidiaDisplayName :=
       NvAPI_GetAssociatedNvidiaDisplayName w;
     CreateDCA := CreateDCA w;
     GetDC_NULL := GetDC_NULL w;
     displayDevices := displayDevices w;
     GetDeviceGammaRamp := GetDeviceGammaRamp w;
     uninitRamp := uninitRamp w |}.

(** The world [w] with a driver that does not initialise. *)
Definition world_without_driver (w : World) : World :=
  {| exePath := exePath w;
     fopen := fopen w;
     NvAPI_Initialize := -6;
     NvAPI_GetErrorMessage := NvAPI_GetErrorMessage w;
     LoadLibraryA_nvapi := LoadLibraryA_nvapi w;
     nvapi_QueryInterface := nvapi_QueryInterface w;
     nvidiaDisplays := nvidiaDisplays w;
     NvAPI_GetAssociatedNvidiaDisplayName :=
       NvAPI_GetAssociatedNvidiaDisplayName w;
     CreateDCA := CreateDCA w;
     GetDC_NULL := GetDC_NULL w;
     displayDevices := displayDevices w;
     GetDeviceGammaRamp := GetDeviceGammaRamp w;
     uninitRamp := uninitRamp w |}.


(** The world [w] with two displays: the first is named and has a device
    context of its own, the second has no name and no context. *)
Definition world_two_displays (w : World) : World :=
  {| exePath := exePath w;
     fopen := fopen w;
     NvAPI_Initialize := NvAPI_Initialize w;
     NvAPI_GetErrorMessage := NvAPI_GetErrorMessage w;
     LoadLibraryA_nvapi := LoadLibraryA_nvapi w;
     nvapi_QueryInterface := nvapi_QueryInterface w;
     nvidiaDisplays := [1; 2];
     NvAPI_GetAssociatedNvidiaDisplayName :=
       fun hDisplay => if hDisplay =? 1 then Some "DISPLAY1"%string else None;
     CreateDCA :=
       fun device =>
         match device with
         | Some name => if String.eqb name "DISPLAY1" then 5 else 0
         | None => 0
         end;
     GetDC_NULL := GetDC_NULL w;
     displayDevices := displayDevices w;
     GetDeviceGammaRamp := GetDeviceGammaRamp w;
     uninitRamp := uninitRamp w |}.

(** The world [w] with a driver library whose [nvapi_QueryInterface]
    resolves none of the four functions. *)
Definition world_unresolved (w : World) : World :=
  {| exePath := exePath w;
     fopen := fopen w;
     NvAPI_Initialize := NvAPI_Initialize w;
     NvAPI_GetErrorMessage := NvAPI_GetErrorMessage w;
     LoadLibraryA_nvapi := true;
     nvapi_QueryInterface := Some null_funcs;
     nvidiaDisplays := nvidiaDisplays w;
     NvAPI_GetAssociatedNvidiaDisplayName :=
       NvAPI_GetAssociatedNvidiaDisplayName w;
     CreateDCA := CreateDCA w;
     GetDC_NULL := GetDC_NULL w;
     displayDevices := displayDevices w;
     GetDeviceGammaRamp := GetDeviceGammaRamp w;
     uninitRamp := uninitRamp w |}.

(** A configuration file that asks for all displays. *)
Definition all_displays_lines : list string :=
  [("toggleAllDisplays=true" ++ String char_lf EmptyString)%string].

(** A configuration file with a temperature out of range. *)
Definition hot_lines : list string :=
  [("temperature=500" ++ String char_lf EmptyString)%string].

(** Stand-ins for [atoi] and [atof] on the sample files. *)
Definition atoi_500 (s : string) : Z := 500.
Definition atof_0 (s : string) : R := 0.

(** The keys [LoadConfig] knows (lines 270-284). *)
Definition known_keys : list string :=
  ["toggleAllDisplays"; "keyPressToExit"; "vibrance"; "hue"; "brightness";
   "contrast"; "gamma"; "temperature"]%string.

(** Membership of a string in a list. *)
Definition string_in (s : string) (l : list string) : bool :=
  existsb (String.eqb s) l.

(* ===================================================================== *)
(** * Part II: properties *)
(* ===================================================================== *)

(** ** 32-bit integers *)

Lemma Int_wrap_id (z : Z) : Int.in_range z -> Int.wrap z = z.
Proof.
  unfold Int.in_range, Int.min_signed, Int.max_signed, Int.wrap; intros H.
  rewrite Z.mod_small by lia. lia.
Qed.

Lemma Int_wrap_range (z : Z) : Int.in_range (Int.wrap z).
Proof.
  unfold Int.in_range, Int.min_signed, Int.max_signed, Int.wrap.
  pose proof (Z.mod_pos_bound (z + 2147483648) 4294967296 ltac:(lia)). lia.
Qed.

Lemma Int_mul_exact (a b : Z) : Int.in_range (a * b) -> Int.mul a b = a * b.
Proof. apply Int_wrap_id. Qed.

Lemma Int_add_exact (a b : Z) : Int.in_range (a + b) -> Int.add a b = a + b.
Proof. apply Int_wrap_id. Qed.

Lemma Int_sub_exact (a b : Z) : Int.in_range (a - b) -> Int.sub a b = a - b.
Proof. apply Int_wrap_id. Qed.

Lemma Int_div_exact (a b : Z) :
  Int.in_range (Z.quot a b) -> Int.div a b = Z.quot a b.
Proof. apply Int_wrap_id. Qed.

Lemma Int_abs_exact (a : Z) : Int.in_range (Z.abs a) -> Int.abs a = Z.abs a.
Proof. apply Int_wrap_id. Qed.

Ltac int_range := unfold Int.in_range, Int.min_signed, Int.max_signed.

(** ** Vibrance unit conversion *)

(** Without overflow, [DVCToPercent] is the formula of its comment. *)
Lemma DVCToPercent_exact (dvcValue dvcMax : Z) :
  0 < dvcMax <= 42949672 -> 0 <= dvcValue <= dvcMax ->
  DVCToPercent dvcValue dvcMax = 50 + (dvcValue * 50) / dvcMax.
Proof.
  intros HM Hv. unfold DVCToPercent.
  destruct (dvcMax =? 0) eqn:E; [lia|].
  assert (Hq : 0 <= (dvcValue * 50) / dvcMax <= 50).
  { split.
    - apply Z.div_pos; lia.
    - apply Z.div_le_upper_bound; lia. }
  rewrite Int_mul_exact by (int_range; lia).
  rewrite Int_div_exact by (int_range; rewrite Z.quot_div_nonneg by lia; lia).
  rewrite Z.quot_div_nonneg by lia.
  apply Int_add_exact. int_range; lia.
Qed.

(** Without overflow the full-scale level maps to 100. *)
Lemma DVCToPercent_full_scale (M : Z) :
  0 < M <= 42949672 -> DVCToPercent M M = 100.
Proof.
  intros HM. rewrite DVCToPercent_exact by lia.
  rewrite Z.mul_comm, Z.div_mul by lia. lia.
Qed.

(** C5, as stated, fails: at the full-scale level of a range whose maximum
    is 42949673 the product [dvcValue * 50] leaves the 32-bit range and
    [DVCToPercent] returns 1. *)
Lemma DVCToPercent_full_scale_overflow :
  0 < 42949673 /\ Int.in_range 42949673 /\
  DVCToPercent 42949673 42949673 = 1 /\
  DVCToPercent 42949673 42949673 <> 100.
Proof.
  split; [lia|]. split; [int_range; lia|].
  split; [vm_compute; reflexivity | vm_compute; discriminate].
Qed.

(** C5, amended: for every [M > 0], [PercentToDVC 50 M = 0],
    [PercentToDVC 100 M = M] and [DVCToPercent 0 M = 50]; and for every
    [M] with [0 < M <= 42949672] (the levels whose product with 50 fits a
    32-bit [int]), [DVCToPercent M M = 100]. *)
Theorem conversion_endpoints (M : Z) :
  0 < M ->
  PercentToDVC 50 M = 0 /\ PercentToDVC 100 M = M /\
  DVCToPercent 0 M = 50 /\
  (M <= 42949672 -> DVCToPercent M M = 100).
Proof.
  intros HM. split; [reflexivity|]. split; [reflexivity|]. split.
  - unfold DVCToPercent. destruct (M =? 0) eqn:E; [lia|].
    change (Int.mul 0 50) with 0. unfold Int.div. rewrite Z.quot_0_l by lia.
    reflexivity.
  - intros Hb. apply DVCToPercent_full_scale. lia.
Qed.

(** The usual range of the driver, 0 to 63, where all four equalities
    hold, and a maximum beyond the bound, where the first three do. *)
Lemma conversion_endpoints_witness :
  (0 < 63 /\ 63 <= 42949672 /\
   PercentToDVC 50 63 = 0 /\ PercentToDVC 100 63 = 63 /\
   DVCToPercent 0 63 = 50 /\ DVCToPercent 63 63 = 100) /\
  (0 < 2000000000 /\
   PercentToDVC 50 2000000000 = 0 /\
   PercentToDVC 100 2000000000 = 2000000000 /\
   DVCToPercent 0 2000000000 = 50).
Proof.
  assert (H63 : 0 < 63) by lia.
  assert (Hb : 63 <= 42949672) by lia.
  assert (Hbig : 0 < 2000000000) by lia.
  destruct (conversion_endpoints 63 H63) as (E1 & E2 & E3 & E4).
  destruct (conversion_endpoints 2000000000 Hbig) as (F1 & F2 & F3 & _).
  split.
  - split; [exact H63|]. split; [exact Hb|]. split; [exact E1|].
    split; [exact E2|]. split; [exact E3|]. exact (E4 Hb).
  - split; [exact Hbig|]. split; [exact F1|]. split; [exact F2|]. exact F3.
Defined.

(** The bound of the amended C5 is the largest possible: within the 32-bit
    range, the full-scale level maps to 100 only below it. *)
Lemma DVCToPercent_full_scale_iff (M : Z) :
  0 < M <= Int.max_signed ->
  (DVCToPercent M M = 100 <-> M <= 42949672).
Proof.
  intros HM. split.
  - intros H. destruct (Z_le_gt_dec M 42949672) as [|Hbig]; [assumption|].
    exfalso. unfold Int.max_signed in HM.
    unfold DVCToPercent in H. destruct (M =? 0) eqn:E; [lia|].
    pose proof (Int_wrap_range (M * 50)) as Hw. fold (Int.mul M 50) in Hw.
    set (p := Int.mul M 50) in *. unfold Int.in_range, Int.min_signed, Int.max_signed in Hw.
    assert (Hq : -50 < Z.quot p M < 50).
    { destruct (Z_le_gt_dec 0 p).
      - rewrite Z.quot_div_nonneg by lia. split.
        + pose proof (Z.div_pos p M ltac:(lia) ltac:(lia)). lia.
        + apply Z.div_lt_upper_bound; lia.
      - replace p with (- (- p)) by lia. rewrite Z.quot_opp_l by lia.
        rewrite Z.quot_div_nonneg by lia. split.
        + assert (- p / M < 50) by (apply Z.div_lt_upper_bound; lia). lia.
        + pose proof (Z.div_pos (- p) M ltac:(lia) ltac:(lia)). lia. }
    unfold Int.div in H. rewrite Int_wrap_id in H by (int_range; lia).
    unfold Int.add in H. rewrite Int_wrap_id in H by (int_range; lia). lia.
  - intros H. apply DVCToPercent_full_scale. lia.
Qed.

(** C6: for every [pct] in {50, 60, 70, 80, 90, 100} and a maximum of 63,
    converting to the raw level and back gives a percentage within 1 of
    [pct]. *)
Theorem round_trip_within_one :
  Forall (fun pct => Z.abs (DVCToPercent (PercentToDVC pct 63) 63 - pct) <= 1)
         [50; 60; 70; 80; 90; 100].
Proof. repeat constructor; vm_compute; discriminate. Qed.

(** The round trips of C6, value by value. *)
Lemma round_trip_values :
  map (fun pct => DVCToPercent (PercentToDVC pct 63) 63)
      [50; 60; 70; 80; 90; 100] = [50; 59; 69; 79; 89; 100].
Proof. vm_compute. reflexivity. Qed.

(** C9, as stated, fails: [DVCToPercent] does not clamp, so a raw level
    above the maximum maps above 100 and a negative one below 50; and for
    a large maximum the product [dvcValue * 50] wraps even for a level
    below the maximum. *)
Lemma DVCToPercent_not_clamped :
  0 < 63 /\ DVCToPercent 200 63 = 208 /\ DVCToPercent (-10) 63 = 43 /\
  ~ (50 <= DVCToPercent 200 63 <= 100) /\
  (0 <= 50000000 <= 100000000 /\ Int.in_range 100000000 /\
   DVCToPercent 50000000 100000000 = 33).
Proof.
  split; [lia|]. split; [vm_compute; reflexivity|].
  split; [vm_compute; reflexivity|]. split.
  - replace (DVCToPercent 200 63) with 208 by (vm_compute; reflexivity). lia.
  - split; [lia|]. split; [int_range; lia | vm_compute; reflexivity].
Qed.

(** [DVCToPercent] is the formula of its comment whenever the product
    [dvcValue * 50] fits a 32-bit [int], whatever the maximum. *)
Lemma DVCToPercent_exact_level (dvcValue dvcMax : Z) :
  0 < dvcMax -> 0 <= dvcValue <= dvcMax -> dvcValue <= 42949672 ->
  DVCToPercent dvcValue dvcMax = 50 + (dvcValue * 50) / dvcMax.
Proof.
  intros HM Hv Hb. unfold DVCToPercent.
  destruct (dvcMax =? 0) eqn:E; [lia|].
  assert (Hq : 0 <= (dvcValue * 50) / dvcMax <= 50).
  { split.
    - apply Z.div_pos; lia.
    - apply Z.div_le_upper_bound; lia. }
  rewrite Int_mul_exact by (int_range; lia).
  rewrite Int_div_exact by (int_range; rewrite Z.quot_div_nonneg by lia; lia).
  rewrite Z.quot_div_nonneg by lia.
  apply Int_add_exact. int_range; lia.
Qed.

(** C9, amended: for every [dvcMax], [PercentToDVC] maps every percentage
    at most 50 to 0 and every percentage at least 100 to [dvcMax]; for
    every [dvcMax > 0] and every raw level in [0, dvcMax] that is at most
    42949672 (so that its product with 50 fits a 32-bit [int]), the result
    of [DVCToPercent] lies in [50, 100]. *)
Theorem percent_domain_clamped (percent dvcValue dvcMax : Z) :
  (percent <= 50 -> PercentToDVC percent dvcMax = 0) /\
  (100 <= percent -> PercentToDVC percent dvcMax = dvcMax) /\
  (0 < dvcMax -> 0 <= dvcValue <= dvcMax -> dvcValue <= 42949672 ->
   50 <= DVCToPercent dvcValue dvcMax <= 100).
Proof.
  split; [|split].
  - intros H. unfold PercentToDVC. destruct (percent <=? 50) eqn:E; [reflexivity|lia].
  - intros H. unfold PercentToDVC.
    destruct (percent <=? 50) eqn:E; [lia|].
    destruct (percent >=? 100) eqn:E'; [reflexivity|lia].
  - intros HM Hv Hb. rewrite DVCToPercent_exact_level by assumption.
    assert (0 <= (dvcValue * 50) / dvcMax) by (apply Z.div_pos; lia).
    assert ((dvcValue * 50) / dvcMax <= 50) by (apply Z.div_le_upper_bound; lia).
    lia.
Qed.

(** A percentage below the scale, one above it, and a mid-range level of a
    maximum beyond 42949672. *)
Lemma percent_domain_clamped_witness :
  (40 <= 50 /\ PercentToDVC 40 100000000 = 0) /\
  (100 <= 120 /\ PercentToDVC 120 100000000 = 100000000) /\
  (0 < 100000000 /\ 0 <= 31 <= 100000000 /\ 31 <= 42949672 /\
   50 <= DVCToPercent 31 100000000 <= 100).
Proof.
  assert (H1 : 40 <= 50) by lia.
  assert (H2 : 100 <= 120) by lia.
  assert (HM : 0 < 100000000) by lia.
  assert (Hv : 0 <= 31 <= 100000000) by lia.
  assert (Hb : 31 <= 42949672) by lia.
  split; [|split].
  - split; [exact H1|].
    exact (proj1 (percent_domain_clamped 40 31 100000000) H1).
  - split; [exact H2|].
    exact (proj1 (proj2 (percent_domain_clamped 120 31 100000000)) H2).
  - split; [exact HM|]. split; [exact Hv|]. split; [exact Hb|].
    exact (proj2 (proj2 (percent_domain_clamped 40 31 100000000)) HM Hv Hb).
Defined.

(** ** The vibrance query *)

(** C10: when the DVC query fails (unresolved pointer or a status other
    than [NVAPI_OK]), [GetVibrance] returns 0 and leaves the cells behind
    [outMin] and [outMax] as they were, so [ToggleDisplay] goes on with
    [dvcMin = 0] and [dvcMax = 63]: the two outputs are written only when
    the query succeeds. *)
Theorem GetVibrance_failure_frame (fns : NvFuncs) (hDisplay : NvDisplayHandle)
    (outMin outMax : int_ptr) :
  DVC_query_fails fns hDisplay ->
  GetVibrance fns hDisplay outMin outMax = (0, outMin, outMax) /\
  dvcMin (ToggleDisplay_locals fns hDisplay) = 0 /\
  dvcMax (ToggleDisplay_locals fns hDisplay) = 63 /\
  currentVibranceRaw (ToggleDisplay_locals fns hDisplay) = 0 /\
  defaultVibranceRaw (ToggleDisplay_locals fns hDisplay) = PercentToDVC 50 63.
Proof.
  unfold DVC_query_fails, ToggleDisplay_locals, GetVibrance.
  destruct (pfnNvAPI_GPU_GetDVCInfo fns) as [getDVCInfo|]; intros Hfail.
  - destruct (getDVCInfo hDisplay 0 _) as [status info]; simpl in Hfail.
    destruct (status =? NVAPI_OK) eqn:E.
    + apply Z.eqb_eq in E. contradiction.
    + simpl. repeat split; reflexivity.
  - simpl. repeat split; reflexivity.
Qed.

(** A driver that answers the query with an error status. *)
Lemma GetVibrance_failure_frame_witness :
  DVC_query_fails (sample_funcs (-1) 40 5 100) 7 /\
  GetVibrance (sample_funcs (-1) 40 5 100) 7 (Some 0) (Some 63)
    = (0, Some 0, Some 63) /\
  dvcMin (ToggleDisplay_locals (sample_funcs (-1) 40 5 100) 7) = 0 /\
  dvcMax (ToggleDisplay_locals (sample_funcs (-1) 40 5 100) 7) = 63 /\
  currentVibranceRaw (ToggleDisplay_locals (sample_funcs (-1) 40 5 100) 7) = 0 /\
  defaultVibranceRaw (ToggleDisplay_locals (sample_funcs (-1) 40 5 100) 7)
    = PercentToDVC 50 63.
Proof.
  assert (H : DVC_query_fails (sample_funcs (-1) 40 5 100) 7)
    by (simpl; discriminate).
  split; [exact H|].
  exact (GetVibrance_failure_frame (sample_funcs (-1) 40 5 100) 7
           (Some 0) (Some 63) H).
Defined.

(** When the query succeeds, the level is returned and both cells are
    written through every pointer that is not [NULL]. *)
Lemma GetVibrance_success (fns : NvFuncs) (hDisplay : NvDisplayHandle)
    (outMin outMax : int_ptr) getDVCInfo info :
  pfnNvAPI_GPU_GetDVCInfo fns = Some getDVCInfo ->
  getDVCInfo hDisplay 0
    {| dvc_version := NV_GPU_DVC_INFO_VER1;
       currentLevel := 0; minLevel := 0; maxLevel := 0 |} = (NVAPI_OK, info) ->
  GetVibrance fns hDisplay outMin outMax =
    (currentLevel info, store_if_nonnull outMin (minLevel info),
     store_if_nonnull outMax (maxLevel info)).
Proof.
  intros Hp Hcall. unfold GetVibrance. rewrite Hp, Hcall. reflexivity.
Qed.

(** A successful query replaces the initial range of [ToggleDisplay]. *)
Lemma ToggleDisplay_locals_success :
  ToggleDisplay_locals (sample_funcs 0 40 5 100) 7 =
    {| dvcMin := 5; dvcMax := 100; currentVibranceRaw := 40;
       currentHue := 0; defaultVibranceRaw := 0 |}.
Proof. reflexivity. Qed.

(** ** Loading the configuration *)

Section LoadConfigFacts.

Variable rnd : R -> R.
Variable pow : R -> R -> R.
Variable atoi : string -> Z.
Variable atof : string -> R.

(** When the file cannot be opened, [LoadConfig] returns [false] and
    has not touched the caller's structure. *)
Lemma LoadConfig_unopened (w : World) (filename : string) (config : Config) :
  fopen w filename = None ->
  LoadConfig rnd atoi atof w filename config
    = (false, config, [Printf (MsgConfigError filename)]).
Proof. intros H. unfold LoadConfig. rewrite H. reflexivity. Qed.

(** When the file opens, the built-in values are assigned before the
    first line is read: an empty file yields them. *)
Lemma LoadConfig_empty_file (w : World) (filename : string) (config : Config) :
  fopen w filename = Some [] ->
  LoadConfig rnd atoi atof w filename config = (true, builtin_defaults rnd, []).
Proof. intros H. unfold LoadConfig. rewrite H. reflexivity. Qed.

(** Known keys overwrite the built-in values, comments are skipped and
    the other fields keep the built-in values. *)
Lemma LoadConfig_sample_lines :
  fold_left (LoadConfig_line atoi atof) sample_config_lines
            (builtin_defaults rnd)
  = set_hue (set_vibrance (builtin_defaults rnd) (atoi "90")) (atoi "10").
Proof. reflexivity. Qed.

(** A key followed by a space before the equals sign is not recognised:
    only leading blanks are skipped. *)
Lemma LoadConfig_line_trailing_blank (config : Config) :
  LoadConfig_line atoi atof config "hue =10" = config.
Proof. reflexivity. Qed.

(** C4 at a failing input: with no configuration file and a zeroed
    local structure, [main] announces the default configuration and
    then applies the content of that structure, vibrance level 0 and
    hue 0, and does not wait for a key; the built-in configuration has
    vibrance 80 (level 37 of 63), hue 7 and the wait. *)
Theorem main_without_config_file :
  main rnd pow atoi atof world_without_config zeroed_config =
    (0,
     [Printf (MsgConfigError "C:\tools\native_nvcp_config.ini");
      Printf (MsgText "Using default configuration values.");
      Printf (MsgText "Toggling primary display...");
      Printf (MsgDisplay "DISPLAY1");
      Printf (MsgText "Toggling Custom Settings:");
      Printf (MsgCustomInts 0 0 0);
      Printf (MsgCustomReals 0 0 0);
      SetDVCLevel 1 0;
      SetHUEAngle 1 0;
      SetDeviceGammaRamp 2
        (BuildGammaRamp rnd pow (fun _ _ => 0) 0 0 0 0);
      DeleteDC 2;
      NvAPI_Unload])
  /\ vibrance (builtin_defaults rnd) = 80
  /\ PercentToDVC (vibrance (builtin_defaults rnd)) 63 = 37
  /\ hue (builtin_defaults rnd) = 7
  /\ keyPressToExit (builtin_defaults rnd) = true.
Proof. repeat split; reflexivity. Qed.

End LoadConfigFacts.

(** ** The ramp store *)

Lemma ramp_set_same (ramp : Ramp) (c i v : Z) : ramp_set ramp c i v c i = v.
Proof. unfold ramp_set. rewrite !Z.eqb_refl. reflexivity. Qed.

Lemma ramp_set_other (ramp : Ramp) (c i v c' i' : Z) :
  c' <> c \/ i' <> i -> ramp_set ramp c i v c' i' = ramp c' i'.
Proof.
  intros H. unfold ramp_set.
  destruct (c' =? c) eqn:Ec; destruct (i' =? i) eqn:Ei; try reflexivity.
  apply Z.eqb_eq in Ec, Ei. lia.
Qed.

(** A loop that writes the three channels of sample [i] at iteration [i]
    leaves [f c i] in every cell it reaches and the others untouched. *)
Lemma for_loop_writes (f : Z -> Z -> Z) (n : nat) (ramp : Ramp) (c i : Z) :
  for_loop n
    (fun ramp i =>
       ramp_set (ramp_set (ramp_set ramp 0 i (f 0 i)) 1 i (f 1 i)) 2 i (f 2 i))
    ramp c i
  = if (0 <=? i) && (i <? Z.of_nat n) && ((c =? 0) || (c =? 1) || (c =? 2))
    then f c i else ramp c i.
Proof.
  unfold for_loop. induction n as [|n IH].
  - simpl. destruct (0 <=? i) eqn:E0; simpl; [|reflexivity].
    destruct (i <? 0) eqn:E1; [lia | reflexivity].
  - rewrite seq_S, map_app, fold_left_app. simpl fold_left at 1.
    simpl Nat.add.
    destruct (Z.eq_dec i (Z.of_nat n)) as [->|Hne].
    + replace (0 <=? Z.of_nat n) with true by (symmetry; apply Z.leb_le; lia).
      replace (Z.of_nat n <? Z.of_nat (S n)) with true
        by (symmetry; apply Z.ltb_lt; lia).
      simpl andb.
      destruct (Z.eq_dec c 2) as [->|H2]; [rewrite ramp_set_same; reflexivity|].
      rewrite ramp_set_other by lia.
      destruct (Z.eq_dec c 1) as [->|H1]; [rewrite ramp_set_same; reflexivity|].
      rewrite ramp_set_other by lia.
      destruct (Z.eq_dec c 0) as [->|H0]; [rewrite ramp_set_same; reflexivity|].
      rewrite ramp_set_other by lia.
      rewrite IH.
      replace (Z.of_nat n <? Z.of_nat n) with false
        by (symmetry; apply Z.ltb_ge; lia).
      rewrite andb_false_r. simpl.
      destruct (c =? 0) eqn:E0; [apply Z.eqb_eq in E0; lia|].
      destruct (c =? 1) eqn:E1; [apply Z.eqb_eq in E1; lia|].
      destruct (c =? 2) eqn:E2; [apply Z.eqb_eq in E2; lia|].
      reflexivity.
    + rewrite !ramp_set_other by lia. rewrite IH.
      replace (i <? Z.of_nat (S n)) with (i <? Z.of_nat n); [reflexivity|].
      destruct (i <? Z.of_nat n) eqn:E; symmetry.
      * apply Z.ltb_lt in E. apply Z.ltb_lt. lia.
      * apply Z.ltb_ge in E. apply Z.ltb_ge. lia.
Qed.

Section RampCells.

Variable rnd : R -> R.
Variable pow : R -> R -> R.

(** Every cell of the table holds the conversion of [sample_double]. *)
Lemma BuildGammaRamp_cell (ramp : Ramp) (brightness contrast gamma : R)
    (temperature c i : Z) :
  is_channel c -> 0 <= i < 256 ->
  BuildGammaRamp rnd pow ramp brightness contrast gamma temperature c i
  = WORD_of_double
      (sample_double rnd pow brightness contrast gamma temperature c i).
Proof.
  intros Hc Hi. unfold BuildGammaRamp.
  change (BuildGammaRamp_body rnd pow brightness contrast gamma _ _ _)
    with (fun (ramp : Ramp) (i : Z) =>
            ramp_set
              (ramp_set
                 (ramp_set ramp 0 i
                    (WORD_of_double
                       (sample_double rnd pow brightness contrast gamma
                                      temperature 0 i)))
                 1 i
                 (WORD_of_double
                    (sample_double rnd pow brightness contrast gamma
                                   temperature 1 i)))
              2 i
              (WORD_of_double
                 (sample_double rnd pow brightness contrast gamma
                                temperature 2 i))).
  rewrite (for_loop_writes
             (fun c i => WORD_of_double
                (sample_double rnd pow brightness contrast gamma
                               temperature c i))).
  replace (0 <=? i) with true by (symmetry; apply Z.leb_le; lia).
  replace (i <? Z.of_nat 256) with true by (symmetry; apply Z.ltb_lt; lia).
  destruct Hc as [->|[->| ->]]; reflexivity.
Qed.

(** Cells outside the table are not written. *)
Lemma BuildGammaRamp_frame (ramp : Ramp) (brightness contrast gamma : R)
    (temperature c i : Z) :
  ~ (is_channel c /\ 0 <= i < 256) ->
  BuildGammaRamp rnd pow ramp brightness contrast gamma temperature c i
  = ramp c i.
Proof.
  intros H. unfold BuildGammaRamp.
  change (BuildGammaRamp_body rnd pow brightness contrast gamma _ _ _)
    with (fun (ramp : Ramp) (i : Z) =>
            ramp_set
              (ramp_set
                 (ramp_set ramp 0 i
                    (WORD_of_double
                       (sample_double rnd pow brightness contrast gamma
                                      temperature 0 i)))
                 1 i
                 (WORD_of_double
                    (sample_double rnd pow brightness contrast gamma
                                   temperature 1 i)))
              2 i
              (WORD_of_double
                 (sample_double rnd pow brightness contrast gamma
                                temperature 2 i))).
  rewrite (for_loop_writes
             (fun c i => WORD_of_double
                (sample_double rnd pow brightness contrast gamma
                               temperature c i))).
  destruct (0 <=? i) eqn:E0; [|reflexivity].
  destruct (i <? Z.of_nat 256) eqn:E1; [|reflexivity].
  apply Z.leb_le in E0. apply Z.ltb_lt in E1.
  destruct (c =? 0) eqn:C0;
    [apply Z.eqb_eq in C0; exfalso; apply H; unfold is_channel; lia|].
  destruct (c =? 1) eqn:C1;
    [apply Z.eqb_eq in C1; exfalso; apply H; unfold is_channel; lia|].
  destruct (c =? 2) eqn:C2;
    [apply Z.eqb_eq in C2; exfalso; apply H; unfold is_channel; lia|].
  reflexivity.
Qed.

Lemma WORD_of_double_range (x : R) : 0 <= WORD_of_double x <= 65535.
Proof.
  unfold WORD_of_double.
  pose proof (Z.mod_pos_bound (Ztrunc x) 65536 ltac:(lia)). lia.
Qed.

End RampCells.

(** ** The default-state detector *)

Lemma In_indices (n : nat) (i : Z) : In i (indices n) <-> 0 <= i < Z.of_nat n.
Proof.
  unfold indices. rewrite in_map_iff. split.
  - intros [k [<- Hk]]. apply in_seq in Hk. lia.
  - intros H. exists (Z.to_nat i). split; [lia|]. apply in_seq. lia.
Qed.

Lemma is_channel_indices (c : Z) : In c (indices 3) <-> is_channel c.
Proof. rewrite In_indices. unfold is_channel. lia. Qed.

(** On 16-bit words the test of line 171 is the comparison it reads as:
    neither the subtraction nor [abs] leaves the [int] range. *)
Lemma ramp_differs_words (currentRamp defaultRamp : Ramp) (c i : Z) :
  0 <= currentRamp c i <= 65535 -> 0 <= defaultRamp c i <= 65535 ->
  ramp_differs currentRamp defaultRamp c i = false
  <-> Z.abs (currentRamp c i - defaultRamp c i) <= 256.
Proof.
  intros Hc Hd. unfold ramp_differs.
  rewrite Int_sub_exact by (int_range; lia).
  rewrite Int_abs_exact by (int_range; lia).
  destruct (Z.abs (currentRamp c i - defaultRamp c i) >? 256) eqn:E.
  - split; [discriminate|]. lia.
  - split; [|reflexivity]. lia.
Qed.

Section Detector.

Variable rnd : R -> R.
Variable pow : R -> R -> R.

(** C1: [HasDefaultGammaRamp] returns [true] when the current table
    cannot be read; otherwise it returns [true] exactly when, for every
    channel and every sample index in [0, 255], the current sample and
    the sample of the table built from the neutral adjustment
    (brightness 0.5, contrast 0.5, gamma 1.0, temperature 0) differ by
    at most 256. *)
Theorem HasDefaultGammaRamp_spec (GetDeviceGammaRamp : HDC -> option Ramp)
    (uninit : Ramp) (hdc : HDC) :
  (GetDeviceGammaRamp hdc = None ->
   HasDefaultGammaRamp rnd pow GetDeviceGammaRamp uninit hdc = true) /\
  (forall currentRamp : Ramp,
     GetDeviceGammaRamp hdc = Some currentRamp -> WORD_ramp currentRamp ->
     (HasDefaultGammaRamp rnd pow GetDeviceGammaRamp uninit hdc = true <->
      forall c i : Z, is_channel c -> 0 <= i < 256 ->
        Z.abs (currentRamp c i -
               BuildGammaRamp rnd pow uninit 0.5 0.5 1 0 c i) <= 256)).
Proof.
  split.
  - intros H. unfold HasDefaultGammaRamp. rewrite H. reflexivity.
  - intros currentRamp H Hw. unfold HasDefaultGammaRamp. rewrite H.
    unfold DEFAULT_BRIGHTNESS, DEFAULT_CONTRAST, DEFAULT_GAMMA.
    set (defaultRamp := BuildGammaRamp rnd pow uninit 0.5 0.5 1 0).
    assert (Hd : forall c i, is_channel c -> 0 <= i < 256 ->
                             0 <= defaultRamp c i <= 65535).
    { intros c i Hc Hi. unfold defaultRamp.
      rewrite BuildGammaRamp_cell by assumption.
      apply WORD_of_double_range. }
    rewrite forallb_forall. split.
    + intros Hall c i Hc Hi.
      specialize (Hall c (proj2 (is_channel_indices c) Hc)).
      rewrite forallb_forall in Hall.
      specialize (Hall i (proj2 (In_indices 256 i) Hi)).
      apply negb_true_iff in Hall.
      apply ramp_differs_words in Hall; auto.
    + intros Hall c Hc. apply is_channel_indices in Hc.
      rewrite forallb_forall. intros i Hi. apply In_indices in Hi.
      apply negb_true_iff. apply ramp_differs_words; auto.
Qed.

End Detector.

(** ** Comparisons and conversions of doubles *)

Local Open Scope R_scope.

Lemma flt_true (x y : R) : flt x y = true <-> x < y.
Proof. unfold flt. destruct (Rlt_dec x y); split; auto; discriminate. Qed.


Lemma fne_true (x y : R) : fne x y = true <-> x <> y.
Proof.
  unfold fne. destruct (Req_dec_T x y); split; auto; try discriminate;
    try contradiction.
Qed.

Lemma clamp01_range (x : R) : 0 <= clamp01 x <= 1.
Proof.
  unfold clamp01, fgt, flt.
  destruct (Rlt_dec x 0); destruct (Rlt_dec 1 _); lra.
Qed.

Lemma clamp01_mono (x y : R) : x <= y -> clamp01 x <= clamp01 y.
Proof.
  intros H. unfold clamp01, fgt, flt.
  destruct (Rlt_dec x 0); destruct (Rlt_dec y 0);
    repeat match goal with |- context [Rlt_dec ?a ?b] => destruct (Rlt_dec a b) end;
    lra.
Qed.

Lemma clamp01_id (x : R) : 0 <= x <= 1 -> clamp01 x = x.
Proof.
  intros H. unfold clamp01, fgt, flt.
  destruct (Rlt_dec x 0); [lra|]. destruct (Rlt_dec 1 x); lra.
Qed.

Lemma clamp1_mono (x y : R) : x <= y -> clamp1 x <= clamp1 y.
Proof.
  intros H. unfold clamp1, fgt, flt.
  destruct (Rlt_dec 1 x); destruct (Rlt_dec 1 y); lra.
Qed.

Lemma clamp1_range (x : R) : 0 <= x -> 0 <= clamp1 x <= 1.
Proof. intros H. unfold clamp1, fgt, flt. destruct (Rlt_dec 1 x); lra. Qed.

Lemma clamp1_id (x : R) : x <= 1 -> clamp1 x = x.
Proof. intros H. unfold clamp1, fgt, flt. destruct (Rlt_dec 1 x); lra. Qed.

Lemma Ztrunc_nonneg (x : R) : 0 <= x -> Ztrunc x = Zfloor x.
Proof. intros H. unfold Ztrunc. destruct (Rlt_dec x 0); [lra | reflexivity]. Qed.

Lemma Zfloor_range (x : R) (lo hi : Z) :
  IZR lo <= x -> x < IZR hi + 1 -> (lo <= Zfloor x <= hi)%Z.
Proof.
  intros Hlo Hhi. pose proof (Zfloor_bound x) as [Hb1 Hb2]. split.
  - apply Zfloor_lub. assumption.
  - apply Z.lt_succ_r. apply lt_IZR. rewrite succ_IZR. lra.
Qed.

(** A double in [0, 65536) converts to a [WORD] without wrapping. *)
Lemma WORD_of_double_exact (x : R) :
  0 <= x < 65536 ->
  WORD_of_double x = Zfloor x /\ (0 <= Zfloor x <= 65535)%Z.
Proof.
  intros [H0 H1].
  assert (Hr : (0 <= Zfloor x <= 65535)%Z) by (apply Zfloor_range; simpl; lra).
  split; [|assumption].
  unfold WORD_of_double. rewrite Ztrunc_nonneg by assumption.
  apply Z.mod_small. lia.
Qed.

Lemma WORD_of_double_mono (x y : R) :
  0 <= x -> x <= y -> y < 65536 -> (WORD_of_double x <= WORD_of_double y)%Z.
Proof.
  intros H0 Hxy Hy.
  destruct (WORD_of_double_exact x) as [-> _]; [lra|].
  destruct (WORD_of_double_exact y) as [-> _]; [lra|].
  apply Zfloor_le. assumption.
Qed.

Section Body.

Variable rnd : R -> R.
Variable pow : R -> R -> R.

(** The loop body in terms of the clamps. *)
Lemma base_value_clamp (brightness contrast gamma : R) (i : Z) :
  base_value rnd pow brightness contrast gamma i =
  clamp01
    (fadd rnd
       (fadd rnd
          (fmul rnd
             (fsub rnd
                (if fne gamma 1
                 then pow (fdiv rnd (double_of_int i) 255) (fdiv rnd 1 gamma)
                 else fdiv rnd (double_of_int i) 255)
                0.5)
             (fmul rnd contrast 2))
          0.5)
       (fsub rnd brightness 0.5)).
Proof. reflexivity. Qed.

Lemma channel_value_clamp (value adj : R) :
  channel_value rnd value adj = clamp1 (fmul rnd value adj).
Proof. reflexivity. Qed.

Lemma base_value_range (brightness contrast gamma : R) (i : Z) :
  0 <= base_value rnd pow brightness contrast gamma i <= 1.
Proof. rewrite base_value_clamp. apply clamp01_range. Qed.

End Body.

Local Close Scope R_scope.

(** ** Range and monotonicity of the table *)

Local Open Scope R_scope.

Section Rounding.

Variable rnd : R -> R.
Variable pow : R -> R -> R.

(** Rounding is monotone. *)
Hypothesis rnd_mono : forall x y : R, x <= y -> rnd x <= rnd y.
(** Integers and half-integers up to 65536 in magnitude are doubles. *)
Hypothesis rnd_half_int :
  forall n : Z, (Z.abs n <= 131072)%Z -> rnd (IZR n / 2) = IZR n / 2.

Lemma rnd_exact (n : Z) (x : R) :
  x = IZR n / 2 -> (Z.abs n <= 131072)%Z -> rnd x = x.
Proof. intros -> Hn. apply rnd_half_int. assumption. Qed.

Lemma rnd_0 : rnd 0 = 0.
Proof. apply (rnd_exact 0); [lra | lia]. Qed.

Lemma rnd_1 : rnd 1 = 1.
Proof. apply (rnd_exact 2); [lra | lia]. Qed.

Lemma rnd_m1 : rnd (-1) = -1.
Proof. apply (rnd_exact (-2)); [lra | lia]. Qed.

Lemma rnd_2 : rnd 2 = 2.
Proof. apply (rnd_exact 4); [lra | lia]. Qed.

Lemma rnd_half : rnd 0.5 = 0.5.
Proof. apply (rnd_exact 1); [lra | lia]. Qed.

Lemma rnd_65535 : rnd 65535 = 65535.
Proof. apply (rnd_exact 131070); [lra | lia]. Qed.

Lemma rnd_65535_half : rnd 65535.5 = 65535.5.
Proof. apply (rnd_exact 131071); [lra | lia]. Qed.

Lemma rnd_nonneg (x : R) : 0 <= x -> 0 <= rnd x.
Proof. intros H. rewrite <- rnd_0. apply rnd_mono. assumption. Qed.

Lemma rnd_between (lo hi x : R) :
  rnd lo = lo -> rnd hi = hi -> lo <= x <= hi -> lo <= rnd x <= hi.
Proof.
  intros Hlo Hhi [H1 H2]. split.
  - rewrite <- Hlo. apply rnd_mono. assumption.
  - rewrite <- Hhi. apply rnd_mono. assumption.
Qed.

(** The temperature factor of line 116 lies in [-1, 1]. *)
Lemma tempFactor_range (temperature : Z) :
  (-100 <= temperature <= 100)%Z ->
  -1 <= fdiv rnd (double_of_int temperature) 100 <= 1.
Proof.
  intros [H1 H2]. apply IZR_le in H1, H2.
  unfold fdiv, double_of_int.
  apply rnd_between; [apply rnd_m1 | apply rnd_1 | lra].
Qed.

Lemma literal_in_unit (x : R) : 0 <= x <= 1 -> 0 <= rnd x <= 1.
Proof. apply rnd_between; [apply rnd_0 | apply rnd_1]. Qed.

(** Every channel factor is non-negative (it lies in [0, 2]). *)
Lemma channel_adj_range (temperature c : Z) :
  (-100 <= temperature <= 100)%Z ->
  0 <= channel_adj rnd temperature c <= 2.
Proof.
  intros Ht. pose proof (tempFactor_range temperature Ht) as Htf.
  unfold channel_adj.
  set (tf := fdiv rnd (double_of_int temperature) 100) in *.
  pose proof (literal_in_unit 0.1 ltac:(lra)) as H01.
  pose proof (literal_in_unit 0.02 ltac:(lra)) as H002.
  assert (Hp1 : -1 <= fmul rnd tf (rnd 0.1) <= 1).
  { unfold fmul. apply rnd_between; [apply rnd_m1 | apply rnd_1 | nra]. }
  assert (Hp2 : -1 <= fmul rnd tf (rnd 0.02) <= 1).
  { unfold fmul. apply rnd_between; [apply rnd_m1 | apply rnd_1 | nra]. }
  destruct (c =? 0)%Z; [|destruct (c =? 1)%Z]; unfold fadd, fsub;
    (apply rnd_between; [apply rnd_0 | apply rnd_2 | lra]).
Qed.

Lemma channel_value_range (value adj : R) :
  0 <= value -> 0 <= adj -> 0 <= channel_value rnd value adj <= 1.
Proof.
  intros Hv Ha. rewrite channel_value_clamp. apply clamp1_range.
  unfold fmul. apply rnd_nonneg. nra.
Qed.

Lemma scale16_range (r : R) :
  0 <= r <= 1 -> 0.5 <= scale16 rnd r <= 65535.5.
Proof.
  intros Hr. unfold scale16, fadd, fmul.
  assert (H : 0 <= rnd (r * 65535) <= 65535)
    by (apply rnd_between; [apply rnd_0 | apply rnd_65535 | lra]).
  apply rnd_between; [apply rnd_half | apply rnd_65535_half | lra].
Qed.

Lemma sample_double_range (brightness contrast gamma : R)
    (temperature c i : Z) :
  (-100 <= temperature <= 100)%Z ->
  0.5 <= sample_double rnd pow brightness contrast gamma temperature c i
      <= 65535.5.
Proof.
  intros Ht. unfold sample_double. apply scale16_range.
  apply channel_value_range.
  - apply base_value_range.
  - apply channel_adj_range. assumption.
Qed.

(** C8: for brightness and contrast in [0, 1], gamma > 0 and temperature
    in [-100, 100], the double that is converted for a cell of the table
    lies in [0, 65536), so its truncation is in [0, 65535], the
    narrowing to a 16-bit word does not wrap, and the sample written is
    in [0, 65535]. *)
Theorem samples_in_range (uninit : Ramp) (brightness contrast gamma : R)
    (temperature c i : Z) :
  0 <= brightness <= 1 -> 0 <= contrast <= 1 -> 0 < gamma ->
  (-100 <= temperature <= 100)%Z ->
  is_channel c -> (0 <= i < 256)%Z ->
  0 <= sample_double rnd pow brightness contrast gamma temperature c i
    < 65536 /\
  (0 <= Ztrunc (sample_double rnd pow brightness contrast gamma
                              temperature c i) <= 65535)%Z /\
  BuildGammaRamp rnd pow uninit brightness contrast gamma temperature c i
  = Ztrunc (sample_double rnd pow brightness contrast gamma
                          temperature c i) /\
  (0 <= BuildGammaRamp rnd pow uninit brightness contrast gamma
                       temperature c i <= 65535)%Z.
Proof.
  intros _ _ _ Ht Hc Hi.
  pose proof (sample_double_range brightness contrast gamma temperature c i Ht)
    as Hx.
  set (x := sample_double rnd pow brightness contrast gamma temperature c i)
    in *.
  destruct (WORD_of_double_exact x) as [Hw Hf]; [lra|].
  rewrite BuildGammaRamp_cell by assumption. fold x.
  rewrite Hw, Ztrunc_nonneg by lra.
  repeat split; try lra; lia.
Qed.

(** The library's [pow] is monotone in its base on [0, 1] for a
    non-negative exponent. *)
Hypothesis pow_mono :
  forall x x' y : R, 0 <= x -> x <= x' -> x' <= 1 -> 0 <= y ->
                     pow x y <= pow x' y.




End Rounding.

Local Close Scope R_scope.

(** ** The neutral table *)

Local Open Scope R_scope.

Lemma clamp01_between (x lo hi : R) :
  0 <= lo <= 1 -> lo <= x <= hi -> lo <= clamp01 x <= hi.
Proof.
  intros Hlo Hx. unfold clamp01, fgt, flt.
  destruct (Rlt_dec x 0); [lra|]. destruct (Rlt_dec 1 x); lra.
Qed.

Lemma clamp1_between (x lo hi : R) :
  lo <= 1 -> lo <= x <= hi -> lo <= clamp1 x <= hi.
Proof.
  intros Hlo Hx. unfold clamp1, fgt, flt. destruct (Rlt_dec 1 x); lra.
Qed.

(** *** Bounds on the real power function *)

Lemma ln_le (x y : R) : 0 < x -> x <= y -> ln x <= ln y.
Proof.
  intros Hx [H| ->]; [left; apply ln_increasing; assumption | right; reflexivity].
Qed.

Lemma exp_1_ge_2 : 2 <= exp 1.
Proof. pose proof (exp_ineq1_le 1). lra. Qed.

Lemma ln_ge_m1 (x : R) : 1 / 2 <= x -> -1 <= ln x.
Proof.
  intros Hx.
  assert (H2 : ln 2 <= 1).
  { rewrite <- (ln_exp 1). apply ln_le; [lra | apply exp_1_ge_2]. }
  assert (Hh : ln (/ 2) <= ln x) by (apply ln_le; lra).
  rewrite ln_Rinv in Hh by lra. lra.
Qed.

Lemma exp_small (d : R) : 0 <= d <= 1 / 2 -> exp d <= 1 + 2 * d.
Proof.
  intros Hd. pose proof (exp_ineq1_le (- d)) as H.
  rewrite exp_Ropp in H. pose proof (exp_pos d) as Hp.
  assert (Hm : / exp d * exp d = 1) by (field; lra).
  nra.
Qed.

Lemma exp_le (a b : R) : a <= b -> exp a <= exp b.
Proof.
  intros [H| ->]; [left; apply exp_increasing; assumption | right; reflexivity].
Qed.

Lemma Rpower_rational_le (X B : R) (n m : nat) :
  0 < X -> 0 < B -> (0 < m)%nat -> X ^ n <= B ^ m ->
  Rpower X (INR n / INR m) <= B.
Proof.
  intros HX HB Hm H. unfold Rpower.
  apply Rle_trans with (exp (ln B)); [|right; apply exp_ln; assumption].
  assert (Hl : ln (X ^ n) <= ln (B ^ m)).
  { apply ln_le; [apply pow_lt|]; assumption. }
  rewrite !ln_pow in Hl by assumption.
  assert (HmR : 0 < INR m) by (apply lt_0_INR; assumption).
  apply exp_le. apply Rmult_le_reg_r with (INR m); [assumption|].
  replace (INR n / INR m * ln X * INR m) with (INR n * ln X) by (field; lra).
  lra.
Qed.

Lemma Rpower_rational_ge (X A : R) (n m : nat) :
  0 < X -> 0 < A -> (0 < m)%nat -> A ^ m <= X ^ n ->
  A <= Rpower X (INR n / INR m).
Proof.
  intros HX HA Hm H. unfold Rpower.
  apply Rle_trans with (exp (ln A)); [right; symmetry; apply exp_ln; assumption|].
  assert (Hl : ln (A ^ m) <= ln (X ^ n)).
  { apply ln_le; [apply pow_lt|]; assumption. }
  rewrite !ln_pow in Hl by assumption.
  assert (HmR : 0 < INR m) by (apply lt_0_INR; assumption).
  apply exp_le. apply Rmult_le_reg_r with (INR m); [assumption|].
  replace (INR n / INR m * ln X * INR m) with (INR n * ln X) by (field; lra).
  lra.
Qed.

Lemma Rpower_near_128_255 (x y : R) :
  0.5019607 <= x <= 0.5019608 ->
  100 / 143 - 1 / 1000000000 <= y <= 100 / 143 + 1 / 1000000000 ->
  0.6175579 <= Rpower x y <= 0.6175589.
Proof.
  intros Hx Hy.
  assert (HY : 100 / 143 = INR 100 / INR 143)
    by (rewrite !INR_IZR_INZ; simpl; lra).
  assert (Hup : Rpower 0.5019608 (100 / 143) <= 0.61755885).
  { rewrite HY. apply Rpower_rational_le; [lra | lra | lia | lra]. }
  assert (Hlo : 0.617558 <= Rpower 0.5019607 (100 / 143)).
  { rewrite HY. apply Rpower_rational_ge; [lra | lra | lia | lra]. }
  unfold Rpower in *.
  assert (L1 : ln 0.5019607 <= ln x) by (apply ln_le; lra).
  assert (L2 : ln x <= ln 0.5019608) by (apply ln_le; lra).
  assert (L0 : -1 <= ln 0.5019607) by (apply ln_ge_m1; lra).
  assert (L3 : ln 0.5019608 < 0).
  { rewrite <- ln_1. apply ln_increasing; lra. }
  set (l := ln x) in *. set (l1 := ln 0.5019607) in *.
  set (l2 := ln 0.5019608) in *.
  split.
  - apply Rle_trans with (exp (100 / 143 * l1 + - (1 / 1000000000))).
    + rewrite exp_plus.
      pose proof (exp_ineq1_le (- (1 / 1000000000))) as He.
      pose proof (exp_pos (100 / 143 * l1)). nra.
    + apply exp_le. nra.
  - apply Rle_trans with (exp (100 / 143 * l2 + 1 / 1000000000)).
    + apply exp_le. nra.
    + rewrite exp_plus.
      pose proof (exp_small (1 / 1000000000) ltac:(lra)) as He.
      pose proof (exp_pos (100 / 143 * l2)).
      pose proof (exp_pos (1 / 1000000000)). nra.
Qed.

(** *** Rounded arithmetic *)

Lemma Rabs_le_between (a b : R) : Rabs a <= b -> - b <= a <= b.
Proof. unfold Rabs. destruct (Rcase_abs a); lra. Qed.

Section Accuracy.

Variable rnd : R -> R.
Variable pow : R -> R -> R.

(** Integers and half-integers up to 65536 in magnitude are doubles. *)
Hypothesis rnd_half_int :
  forall n : Z, (Z.abs n <= 131072)%Z -> rnd (IZR n / 2) = IZR n / 2.
(** Between 1/1024 and 131072 in magnitude, rounding changes a number
    by at most the fraction 2^-52 of it. *)
Hypothesis rnd_err :
  forall x : R, 1 / 1024 <= Rabs x <= 131072 ->
                Rabs (rnd x - x) <= Rabs x / 4503599627370496.

Lemma rnd_near_pos (x : R) :
  1 / 1024 <= x <= 131072 ->
  x - x / 4503599627370496 <= rnd x <= x + x / 4503599627370496.
Proof.
  intros Hx. pose proof (rnd_err x) as H.
  rewrite (Rabs_pos_eq x) in H by lra. specialize (H Hx).
  apply Rabs_le_between in H. lra.
Qed.

Lemma rnd_near_neg (x : R) :
  -131072 <= x <= - (1 / 1024) ->
  x + x / 4503599627370496 <= rnd x <= x - x / 4503599627370496.
Proof.
  intros Hx. pose proof (rnd_err x) as H.
  rewrite (Rabs_left x) in H by lra. specialize (H ltac:(lra)).
  apply Rabs_le_between in H. lra.
Qed.

(** At temperature 0 every channel factor is 1. *)
Lemma channel_adj_neutral (c : Z) : channel_adj rnd 0 c = 1.
Proof.
  unfold channel_adj, fdiv, fmul, fadd, fsub, double_of_int.
  replace (0 / 100) with 0 by lra.
  rewrite (rnd_exact rnd rnd_half_int 0 0) by (lra || lia).
  rewrite !Rmult_0_l.
  rewrite (rnd_exact rnd rnd_half_int 0 0) by (lra || lia).
  replace (1 + 0) with 1 by lra. replace (1 - 0) with 1 by lra.
  rewrite (rnd_exact rnd rnd_half_int 2 1) by (lra || lia).
  destruct (c =? 0)%Z; [|destruct (c =? 1)%Z]; reflexivity.
Qed.

(** The neutral base value at sample 0 is exactly 0. *)
Lemma neutral_base_value_0 : base_value rnd pow 0.5 0.5 1 0 = 0.
Proof.
  rewrite base_value_clamp.
  replace (fne 1 1) with false
    by (symmetry; unfold fne; destruct (Req_dec_T 1 1); [reflexivity | lra]).
  unfold fdiv, fmul, fadd, fsub, double_of_int.
  replace (0 / 255) with 0 by lra.
  rewrite (rnd_exact rnd rnd_half_int 0 0) by (lra || lia).
  replace (0 - 0.5) with (-0.5) by lra.
  rewrite (rnd_exact rnd rnd_half_int (-1) (-0.5)) by (lra || lia).
  replace (0.5 * 2) with 1 by lra.
  rewrite (rnd_exact rnd rnd_half_int 2 1) by (lra || lia).
  replace (-0.5 * 1) with (-0.5) by lra.
  rewrite (rnd_exact rnd rnd_half_int (-1) (-0.5)) by (lra || lia).
  replace (-0.5 + 0.5) with 0 by lra.
  replace (0.5 - 0.5) with 0 by lra.
  rewrite (rnd_exact rnd rnd_half_int 0 0) by (lra || lia).
  replace (0 + 0) with 0 by lra.
  rewrite (rnd_exact rnd rnd_half_int 0 0) by (lra || lia).
  apply clamp01_id. lra.
Qed.

(** The neutral base value at sample [i] is [i / 255] up to 10^-14. *)
Lemma neutral_base_value (i : Z) :
  (1 <= i <= 255)%Z ->
  IZR i / 255 - 1 / 100000000000000
  <= base_value rnd pow 0.5 0.5 1 i
  <= IZR i / 255 + 1 / 100000000000000.
Proof.
  intros [Hi1 Hi2]. rewrite base_value_clamp.
  replace (fne 1 1) with false
    by (symmetry; unfold fne; destruct (Req_dec_T 1 1); [reflexivity | lra]).
  unfold fdiv, fmul, fadd, fsub, double_of_int.
  replace (0.5 * 2) with 1 by lra.
  rewrite (rnd_exact rnd rnd_half_int 2 1) by (lra || lia).
  replace (0.5 - 0.5) with 0 by lra.
  rewrite (rnd_exact rnd rnd_half_int 0 0) by (lra || lia).
  set (x0 := IZR i / 255).
  assert (Hx0 : 1 / 255 <= x0 <= 1).
  { unfold x0. apply IZR_le in Hi1, Hi2. lra. }
  pose proof (rnd_near_pos x0 ltac:(lra)) as Hv.
  set (v := rnd x0) in *.
  rewrite Rmult_1_r, Rplus_0_r.
  apply clamp01_between; [lra|].
  destruct (Z_le_gt_dec i 127) as [Hlow|Hhigh].
  - assert (Hx1 : x0 <= 127 / 255).
    { unfold x0. apply IZR_le in Hlow. lra. }
    pose proof (rnd_near_neg (v - 0.5) ltac:(lra)) as Ha.
    set (a := rnd (v - 0.5)) in *.
    pose proof (rnd_near_neg a ltac:(lra)) as Hm.
    set (m := rnd a) in *.
    pose proof (rnd_near_pos (m + 0.5) ltac:(lra)) as Hs.
    set (s := rnd (m + 0.5)) in *.
    pose proof (rnd_near_pos s ltac:(lra)) as Hw.
    lra.
  - assert (Hx1 : 128 / 255 <= x0).
    { unfold x0. assert (H : (128 <= i)%Z) by lia. apply IZR_le in H. lra. }
    pose proof (rnd_near_pos (v - 0.5) ltac:(lra)) as Ha.
    set (a := rnd (v - 0.5)) in *.
    pose proof (rnd_near_pos a ltac:(lra)) as Hm.
    set (m := rnd a) in *.
    pose proof (rnd_near_pos (m + 0.5) ltac:(lra)) as Hs.
    set (s := rnd (m + 0.5)) in *.
    pose proof (rnd_near_pos s ltac:(lra)) as Hw.
    lra.
Qed.

(** From the channel value on, at factor 1: a value in [lo, hi] within
    (0, 1] gives the word [n] when [lo * 65535 + 0.5] and
    [hi * 65535 + 0.5] lie between [n] and [n + 1] with a margin of
    10^-6. *)
Lemma scale16_between (value lo hi : R) (n : Z) :
  1 / 512 <= lo -> hi <= 1 -> lo <= value <= hi ->
  IZR n + 1 / 1000000 <= lo * 65535 + 0.5 ->
  hi * 65535 + 0.5 <= IZR n + 1 - 1 / 1000000 ->
  WORD_of_double (scale16 rnd (channel_value rnd value 1)) = n.
Proof.
  intros Hlo Hhi Hv Hn1 Hn2. rewrite channel_value_clamp.
  unfold fmul at 1. rewrite Rmult_1_r.
  pose proof (rnd_near_pos value ltac:(lra)) as Hr0.
  pose proof (clamp1_between (rnd value)
                (lo - 2 / 1000000000000000) (hi + 2 / 1000000000000000)
                ltac:(lra) ltac:(lra)) as Hr.
  assert (Hr1 : clamp1 (rnd value) <= 1).
  { apply clamp1_range. lra. }
  set (r := clamp1 (rnd value)) in *.
  unfold scale16, fadd, fmul.
  pose proof (rnd_near_pos (r * 65535) ltac:(lra)) as Hp.
  set (p := rnd (r * 65535)) in *.
  pose proof (rnd_near_pos (p + 0.5) ltac:(lra)) as Hq.
  set (q := rnd (p + 0.5)) in *.
  destruct (WORD_of_double_exact q) as [-> _]; [lra|].
  apply Zfloor_eq. lra.
Qed.

(** A value within 10^-14 of [x] in (0, 1] gives the word [x * 65535]
    when that is an integer. *)
Lemma scale16_near (value x : R) (n : Z) :
  1 / 255 <= x <= 1 -> x * 65535 = IZR n ->
  x - 1 / 100000000000000 <= value <= x + 1 / 100000000000000 ->
  WORD_of_double (scale16 rnd (channel_value rnd value 1)) = n.
Proof.
  intros Hx Hn Hv. rewrite channel_value_clamp.
  unfold fmul at 1. rewrite Rmult_1_r.
  pose proof (rnd_near_pos value ltac:(lra)) as Hr0.
  pose proof (clamp1_between (rnd value)
                (x - 2 / 100000000000000) (x + 2 / 100000000000000)
                ltac:(lra) ltac:(lra)) as Hr.
  assert (Hr1 : clamp1 (rnd value) <= 1).
  { apply clamp1_range. lra. }
  set (r := clamp1 (rnd value)) in *.
  unfold scale16, fadd, fmul.
  pose proof (rnd_near_pos (r * 65535) ltac:(lra)) as Hp.
  set (p := rnd (r * 65535)) in *.
  pose proof (rnd_near_pos (p + 0.5) ltac:(lra)) as Hq.
  set (q := rnd (p + 0.5)) in *.
  destruct (WORD_of_double_exact q) as [-> _]; [lra|].
  apply Zfloor_eq. lra.
Qed.

(** Every cell of the neutral table: [257 * i]. *)
Lemma neutral_cell (uninit : Ramp) (c i : Z) :
  is_channel c -> (0 <= i < 256)%Z ->
  BuildGammaRamp rnd pow uninit 0.5 0.5 1 0 c i = (257 * i)%Z.
Proof.
  intros Hc Hi. rewrite BuildGammaRamp_cell by assumption.
  unfold sample_double. rewrite channel_adj_neutral.
  destruct (Z.eq_dec i 0) as [->|Hne].
  - rewrite neutral_base_value_0.
    rewrite channel_value_clamp. unfold fmul at 1.
    rewrite Rmult_0_l, (rnd_exact rnd rnd_half_int 0 0) by (lra || lia).
    rewrite clamp1_id by lra. unfold scale16, fadd, fmul.
    rewrite Rmult_0_l, (rnd_exact rnd rnd_half_int 0 0) by (lra || lia).
    rewrite Rplus_0_l, (rnd_exact rnd rnd_half_int 1 0.5) by (lra || lia).
    destruct (WORD_of_double_exact 0.5) as [-> _]; [lra|].
    apply Zfloor_eq. simpl. lra.
  - assert (Hi' : (1 <= i <= 255)%Z) by lia.
    apply (scale16_near _ (IZR i / 255)).
    + destruct Hi' as [H1 H2]. apply IZR_le in H1, H2. lra.
    + rewrite mult_IZR. lra.
    + apply neutral_base_value. assumption.
Qed.

(** C2: for the neutral parameters (brightness 0.5, contrast 0.5, gamma
    1.0, temperature 0) the table is the identity ramp: on every channel
    the sample at index [i] in [0, 255] is [i / 255 * 65535] rounded
    half up, which is [257 * i]. *)
Theorem neutral_ramp_is_identity (uninit : Ramp) (c i : Z) :
  is_channel c -> (0 <= i < 256)%Z ->
  BuildGammaRamp rnd pow uninit 0.5 0.5 1 0 c i
  = round_half_up (IZR i / 255 * 65535) /\
  round_half_up (IZR i / 255 * 65535) = (257 * i)%Z.
Proof.
  intros Hc Hi.
  assert (Hspec : round_half_up (IZR i / 255 * 65535) = (257 * i)%Z).
  { unfold round_half_up. apply Zfloor_eq. rewrite mult_IZR.
    destruct Hi as [H0 H1]. apply IZR_le in H0. apply IZR_lt in H1. lra. }
  split; [|exact Hspec]. rewrite Hspec.
  apply neutral_cell; assumption.
Qed.

(** A display that reports the neutral table is at the default state. *)
Lemma HasDefaultGammaRamp_neutral (GetDeviceGammaRamp : HDC -> option Ramp)
    (uninit ramp : Ramp) (hdc : HDC) :
  GetDeviceGammaRamp hdc = Some (BuildGammaRamp rnd pow ramp 0.5 0.5 1 0) ->
  HasDefaultGammaRamp rnd pow GetDeviceGammaRamp uninit hdc = true.
Proof.
  intros H. unfold HasDefaultGammaRamp. rewrite H.
  unfold DEFAULT_BRIGHTNESS, DEFAULT_CONTRAST, DEFAULT_GAMMA.
  apply forallb_forall. intros c Hc. apply is_channel_indices in Hc.
  apply forallb_forall. intros i Hi. apply In_indices in Hi.
  apply negb_true_iff. unfold ramp_differs.
  rewrite !neutral_cell by (assumption || lia).
  unfold Int.sub. rewrite Z.sub_diag. reflexivity.
Qed.

(** For a base and an exponent in [1/2, 1], the library's [pow] is
    within 2^-40 of the real power. *)
Hypothesis pow_acc :
  forall x y : R, 1 / 2 <= x <= 1 -> 1 / 2 <= y <= 1 ->
                  Rabs (pow x y - Rpower x y) <= 1 / 1099511627776.

(** The base value at sample 128 for brightness 0.60, contrast 0.65 and
    gamma 1.43: about 0.752826. *)
Lemma custom_base_value_128 :
  0.752825
  <= base_value rnd pow (rnd 0.60) (rnd 0.65) (rnd 1.43) 128
  <= 0.7528266.
Proof.
  rewrite base_value_clamp.
  pose proof (rnd_near_pos 1.43 ltac:(lra)) as Hg.
  set (g := rnd 1.43) in *.
  replace (fne g 1) with true by (symmetry; apply fne_true; lra).
  unfold fdiv, fmul, fadd, fsub, double_of_int.
  pose proof (rnd_near_pos (128 / 255) ltac:(lra)) as Hx.
  set (x := rnd (128 / 255)) in *.
  assert (Hu : 100 / 143 - 1 / 100000000000000 <= 1 / g
               <= 100 / 143 + 1 / 100000000000000).
  { assert (Hgu : 1 / g * g = 1) by (field; lra).
    set (u := 1 / g) in *. split; nra. }
  pose proof (rnd_near_pos (1 / g) ltac:(lra)) as Hy.
  set (y := rnd (1 / g)) in *.
  pose proof (pow_acc x y ltac:(lra) ltac:(lra)) as HP.
  apply Rabs_le_between in HP.
  pose proof (Rpower_near_128_255 x y ltac:(lra) ltac:(lra)) as HR.
  set (P := pow x y) in *.
  pose proof (rnd_near_pos (P - 0.5) ltac:(lra)) as Ha.
  set (a := rnd (P - 0.5)) in *.
  pose proof (rnd_near_pos 0.65 ltac:(lra)) as Hc.
  set (c := rnd 0.65) in *.
  pose proof (rnd_near_pos (c * 2) ltac:(lra)) as Hk.
  set (k := rnd (c * 2)) in *.
  assert (Hak : 0.15282525 <= a * k <= 0.15282659) by nra.
  pose proof (rnd_near_pos (a * k) ltac:(lra)) as Hm.
  set (m := rnd (a * k)) in *.
  pose proof (rnd_near_pos (m + 0.5) ltac:(lra)) as Hs.
  set (s := rnd (m + 0.5)) in *.
  pose proof (rnd_near_pos 0.60 ltac:(lra)) as Hb0.
  set (b0 := rnd 0.60) in *.
  pose proof (rnd_near_pos (b0 - 0.5) ltac:(lra)) as Hb.
  set (b := rnd (b0 - 0.5)) in *.
  pose proof (rnd_near_pos (s + b) ltac:(lra)) as Hv.
  apply clamp01_between; lra.
Qed.

(** The word stored at sample 128 of every channel for these
    parameters. *)
Lemma custom_cell_128 (uninit : Ramp) (c : Z) :
  is_channel c ->
  BuildGammaRamp rnd pow uninit (rnd 0.60) (rnd 0.65) (rnd 1.43) 0 c 128%Z
  = 49336%Z.
Proof.
  intros Hc. rewrite BuildGammaRamp_cell by (assumption || lia).
  unfold sample_double. rewrite channel_adj_neutral.
  pose proof custom_base_value_128 as Hv.
  apply (scale16_between _ 0.752825 0.7528266); simpl; lra.
Qed.

(** A display that reports the table of the built-in custom settings is
    not at the default state: sample 128 is 49336, far from 32896. *)
Lemma HasDefaultGammaRamp_custom (GetDeviceGammaRamp : HDC -> option Ramp)
    (uninit ramp : Ramp) (hdc : HDC) :
  GetDeviceGammaRamp hdc
  = Some (BuildGammaRamp rnd pow ramp (rnd 0.60) (rnd 0.65) (rnd 1.43) 0) ->
  HasDefaultGammaRamp rnd pow GetDeviceGammaRamp uninit hdc = false.
Proof.
  intros H. unfold HasDefaultGammaRamp. rewrite H.
  unfold DEFAULT_BRIGHTNESS, DEFAULT_CONTRAST, DEFAULT_GAMMA.
  match goal with |- ?b = false => destruct b eqn:E; [exfalso|reflexivity] end.
  assert (Hc : is_channel 0) by (unfold is_channel; lia).
  rewrite forallb_forall in E.
  specialize (E 0%Z (proj2 (is_channel_indices 0) Hc)).
  rewrite forallb_forall in E.
  specialize (E 128%Z (proj2 (In_indices 256 128) ltac:(lia))).
  apply negb_true_iff in E. unfold ramp_differs in E.
  rewrite custom_cell_128, neutral_cell in E by (assumption || lia).
  vm_compute in E. discriminate.
Qed.

(** C7, amended: with brightness 0.60, contrast 0.65, gamma 1.43 and
    temperature 0 the sample at index 128 is 49336 on all three
    channels ((128/255)^(1/1.43) is about 0.61756, the base value about
    0.752826, and 0.752826 * 65535 + 0.5 about 49336.96). *)
Theorem custom_ramp_at_128 (uninit : Ramp) (c : Z) :
  is_channel c ->
  BuildGammaRamp rnd pow uninit (rnd 0.60) (rnd 0.65) (rnd 1.43) 0 c 128%Z
  = 49336%Z.
Proof.
  intros Hc. rewrite BuildGammaRamp_cell by (assumption || lia).
  unfold sample_double. rewrite channel_adj_neutral.
  pose proof custom_base_value_128 as Hv.
  apply (scale16_between _ 0.752825 0.7528266); simpl; lra.
Qed.

End Accuracy.

Local Close Scope R_scope.

(** ** Binary64 rounding meets the assumptions on rounding *)

Local Open Scope R_scope.

Lemma bpow_pos (e : Z) : 0 < bpow e.
Proof. apply powerRZ_lt. lra. Qed.

Lemma bpow_add (a b : Z) : bpow (a + b) = bpow a * bpow b.
Proof. apply powerRZ_add. lra. Qed.

Lemma bpow_nonneg (k : Z) : (0 <= k)%Z -> bpow k = IZR (2 ^ k).
Proof.
  intros Hk. unfold bpow.
  rewrite <- (Z2Nat.id k) at 1 by assumption.
  rewrite <- pow_powerRZ. rewrite <- (Z2Nat.id k) at 2 by assumption.
  rewrite <- pow_IZR. reflexivity.
Qed.

Lemma bpow_ge_1 (k : Z) : (0 <= k)%Z -> 1 <= bpow k.
Proof.
  intros Hk. rewrite bpow_nonneg by assumption.
  apply IZR_le. pose proof (Z.pow_pos_nonneg 2 k ltac:(lia) Hk). lia.
Qed.

Lemma bpow_le (a b : Z) : (a <= b)%Z -> bpow a <= bpow b.
Proof.
  intros H. replace b with (a + (b - a))%Z by lia. rewrite bpow_add.
  pose proof (bpow_pos a). pose proof (bpow_ge_1 (b - a) ltac:(lia)). nra.
Qed.

Lemma bpow_exp (e : Z) : bpow e = exp (IZR e * ln 2).
Proof. unfold bpow. rewrite powerRZ_Rpower by lra. reflexivity. Qed.

Lemma ln_2_pos : 0 < ln 2.
Proof. rewrite <- ln_1. apply ln_increasing; lra. Qed.

Lemma mag_bounds (x : R) : 0 < x -> bpow (mag x) <= x < bpow (mag x + 1).
Proof.
  intros Hx. pose proof (Zfloor_bound (ln x / ln 2)) as [H1 H2].
  fold (mag x) in H1, H2. pose proof ln_2_pos as Hl.
  rewrite !bpow_exp, plus_IZR. rewrite <- (exp_ln x) at 2 3 by assumption.
  assert (Hq : ln x / ln 2 * ln 2 = ln x) by (field; lra).
  split.
  - apply exp_le. nra.
  - apply exp_increasing. nra.
Qed.

Lemma mag_unique (x : R) (e : Z) : bpow e <= x < bpow (e + 1) -> mag x = e.
Proof.
  intros [H1 H2]. pose proof (bpow_pos e) as Hp.
  assert (Hx : 0 < x) by lra.
  unfold mag. apply Zfloor_eq. pose proof ln_2_pos as Hl.
  rewrite !bpow_exp, plus_IZR in *.
  assert (L1 : IZR e * ln 2 <= ln x).
  { rewrite <- (ln_exp (IZR e * ln 2)). apply ln_le; [apply exp_pos | assumption]. }
  assert (L2 : ln x < (IZR e + 1) * ln 2).
  { rewrite <- (ln_exp ((IZR e + 1) * ln 2)). apply ln_increasing; assumption. }
  assert (Hq : ln x / ln 2 * ln 2 = ln x) by (field; lra).
  split; nra.
Qed.

Lemma mag_mono (x y : R) : 0 < x -> x <= y -> (mag x <= mag y)%Z.
Proof.
  intros Hx Hxy. unfold mag. apply Zfloor_le. pose proof ln_2_pos.
  apply Rmult_le_compat_r; [left; apply Rinv_0_lt_compat; assumption|].
  apply ln_le; assumption.
Qed.

(** Properties of [rne]. *)
Lemma rne_bounds (y : R) : (Zfloor y <= rne y <= Zfloor y + 1)%Z.
Proof.
  unfold rne. destruct (Rlt_dec _ _); [lia|]. destruct (Rlt_dec _ _); [lia|].
  destruct (Z.even _); lia.
Qed.

Lemma rne_IZR (n : Z) : rne (IZR n) = n.
Proof.
  unfold rne. rewrite ZfloorZ. destruct (Rlt_dec _ _) as [|H]; [reflexivity|].
  exfalso. apply H. lra.
Qed.

Lemma rne_err (y : R) : Rabs (IZR (rne y) - y) <= 1 / 2.
Proof.
  pose proof (Zfloor_bound y) as [H1 H2]. unfold rne.
  destruct (Rlt_dec _ _); [apply Rabs_le; lra|].
  destruct (Rlt_dec _ _); [rewrite plus_IZR; apply Rabs_le; lra|].
  destruct (Z.even _); [|rewrite plus_IZR]; apply Rabs_le; lra.
Qed.

Lemma rne_mono (y1 y2 : R) : y1 <= y2 -> (rne y1 <= rne y2)%Z.
Proof.
  intros H. pose proof (Zfloor_le _ _ H) as Hf.
  destruct (Z.eq_dec (Zfloor y1) (Zfloor y2)) as [E|E].
  - unfold rne. rewrite E.
    repeat match goal with
           | |- context [Rlt_dec ?a ?b] => destruct (Rlt_dec a b)
           end; try lia; try (rewrite E in *; lra);
      destruct (Z.even (Zfloor y2)); lia.
  - pose proof (rne_bounds y1). pose proof (rne_bounds y2). lia.
Qed.

Lemma rne_le_int (y : R) (n : Z) : y <= IZR n -> (rne y <= n)%Z.
Proof. intros H. rewrite <- (rne_IZR n). apply rne_mono. assumption. Qed.

Lemma rne_ge_int (y : R) (n : Z) : IZR n <= y -> (n <= rne y)%Z.
Proof. intros H. rewrite <- (rne_IZR n). apply rne_mono. assumption. Qed.

Lemma bpow_div (a b : Z) : bpow a / bpow b = bpow (a - b).
Proof.
  pose proof (bpow_pos b). replace a with ((a - b) + b)%Z at 1 by lia.
  rewrite bpow_add. field. lra.
Qed.

Lemma cexp_ge (x : R) : (mag x - 52 <= cexp x)%Z /\ (-1074 <= cexp x)%Z.
Proof. unfold cexp. lia. Qed.

Lemma cexp_mono (x y : R) : 0 < x -> x <= y -> (cexp x <= cexp y)%Z.
Proof. intros Hx Hxy. pose proof (mag_mono x y Hx Hxy). unfold cexp. lia. Qed.

Lemma rnd_pos_eq (x : R) :
  0 < x -> rnd_pos x = IZR (rne (x / bpow (cexp x))) * bpow (cexp x).
Proof. intros H. unfold rnd_pos. destruct (Rle_dec x 0); [lra | reflexivity]. Qed.

Lemma rnd_pos_nonneg (x : R) : 0 <= rnd_pos x.
Proof.
  unfold rnd_pos. destruct (Rle_dec x 0); [lra|].
  pose proof (bpow_pos (cexp x)) as Hp.
  assert (H : (0 <= rne (x / bpow (cexp x)))%Z).
  { apply rne_ge_int. apply Rlt_le. apply Rdiv_lt_0_compat; lra. }
  apply IZR_le in H. nra.
Qed.

Lemma rnd_pos_le_bpow (x : R) (k : Z) :
  0 < x -> (cexp x <= k)%Z -> x <= bpow k -> rnd_pos x <= bpow k.
Proof.
  intros Hx Hk Hle. rewrite rnd_pos_eq by assumption.
  set (c := cexp x) in *. pose proof (bpow_pos c) as Hp.
  assert (H : (rne (x / bpow c) <= 2 ^ (k - c))%Z).
  { apply rne_le_int. rewrite <- bpow_nonneg by lia. rewrite <- bpow_div.
    apply Rmult_le_compat_r; [left; apply Rinv_0_lt_compat; assumption|assumption]. }
  apply IZR_le in H. rewrite <- bpow_nonneg in H by lia.
  replace (bpow k) with (bpow (k - c) * bpow c)
    by (rewrite <- bpow_add; f_equal; lia).
  nra.
Qed.

Lemma rnd_pos_ge_bpow (x : R) (k : Z) :
  0 < x -> (cexp x <= k)%Z -> bpow k <= x -> bpow k <= rnd_pos x.
Proof.
  intros Hx Hk Hle. rewrite rnd_pos_eq by assumption.
  set (c := cexp x) in *. pose proof (bpow_pos c) as Hp.
  assert (H : (2 ^ (k - c) <= rne (x / bpow c))%Z).
  { apply rne_ge_int. rewrite <- bpow_nonneg by lia. rewrite <- bpow_div.
    apply Rmult_le_compat_r; [left; apply Rinv_0_lt_compat; assumption|assumption]. }
  apply IZR_le in H. rewrite <- bpow_nonneg in H by lia.
  replace (bpow k) with (bpow (k - c) * bpow c)
    by (rewrite <- bpow_add; f_equal; lia).
  nra.
Qed.

Lemma rnd_pos_mono (x y : R) : x <= y -> rnd_pos x <= rnd_pos y.
Proof.
  intros Hxy. destruct (Rle_dec x 0) as [Hx|Hx].
  - unfold rnd_pos at 1. destruct (Rle_dec x 0); [|lra]. apply rnd_pos_nonneg.
  - assert (Hx' : 0 < x) by lra. assert (Hy : 0 < y) by lra.
    pose proof (cexp_mono x y Hx' Hxy) as Hc.
    destruct (Z.eq_dec (cexp x) (cexp y)) as [E|E].
    + rewrite !rnd_pos_eq by assumption. rewrite E.
      pose proof (bpow_pos (cexp y)) as Hp.
      assert (H : (rne (x / bpow (cexp y)) <= rne (y / bpow (cexp y)))%Z).
      { apply rne_mono.
        apply Rmult_le_compat_r; [left; apply Rinv_0_lt_compat; assumption|assumption]. }
      apply IZR_le in H. nra.
    + pose proof (cexp_ge x) as [Hx1 Hx2].
      assert (Hcy : cexp y = (mag y - 52)%Z) by (unfold cexp in *; lia).
      pose proof (mag_bounds x Hx') as [_ Hxb].
      pose proof (mag_bounds y Hy) as [Hyb _].
      assert (Hm : (mag x + 1 <= mag y)%Z) by lia.
      apply Rle_trans with (bpow (mag y)).
      * apply rnd_pos_le_bpow; [assumption | lia |].
        pose proof (bpow_le _ _ Hm). lra.
      * apply rnd_pos_ge_bpow; [assumption | lia | assumption].
Qed.

(** Binary64 rounding is monotone. *)
Lemma binary64_mono (x y : R) : x <= y -> binary64 x <= binary64 y.
Proof.
  intros Hxy. unfold binary64.
  destruct (Rlt_dec x 0); destruct (Rlt_dec y 0); try lra.
  - apply Ropp_le_contravar. apply rnd_pos_mono. lra.
  - pose proof (rnd_pos_nonneg (- x)). pose proof (rnd_pos_nonneg y). lra.
  - apply rnd_pos_mono. assumption.
Qed.

Lemma mag_lt (x : R) (k : Z) : 0 < x -> x < bpow k -> (mag x < k)%Z.
Proof.
  intros Hx Hk. destruct (Z_lt_ge_dec (mag x) k) as [|Hge]; [assumption|].
  exfalso. pose proof (mag_bounds x Hx) as [H _].
  pose proof (bpow_le k (mag x) ltac:(lia)). lra.
Qed.

Lemma mag_ge (x : R) (k : Z) : bpow k <= x -> (k <= mag x)%Z.
Proof.
  intros Hk. pose proof (bpow_pos k) as Hp. assert (Hx : 0 < x) by lra.
  destruct (Z_le_gt_dec k (mag x)) as [|Hgt]; [assumption|].
  exfalso. pose proof (mag_bounds x Hx) as [_ Hb].
  pose proof (bpow_le (mag x + 1) k ltac:(lia)). lra.
Qed.

(** Half-integers of moderate size are representable. *)
Lemma rnd_pos_half_int (n : Z) :
  (0 < n <= 131072)%Z -> rnd_pos (IZR n / 2) = IZR n / 2.
Proof.
  intros [Hn1 Hn2]. assert (Hx : 0 < IZR n / 2).
  { apply IZR_lt in Hn1. lra. }
  rewrite rnd_pos_eq by assumption. set (x := IZR n / 2) in *.
  assert (Hm : (mag x < 17)%Z).
  { apply mag_lt; [assumption|]. rewrite bpow_nonneg by lia.
    unfold x. apply IZR_le in Hn2. simpl. lra. }
  pose proof (cexp_ge x) as [Hc1 Hc2].
  assert (Hc3 : (cexp x <= -36)%Z) by (unfold cexp; lia).
  set (c := cexp x) in *. pose proof (bpow_pos c) as Hp.
  assert (Hs : x / bpow c = IZR (n * 2 ^ (- c - 1))).
  { rewrite mult_IZR, <- bpow_nonneg by lia.
    replace (- c - 1)%Z with (-1 - c)%Z by lia. rewrite <- bpow_div.
    unfold x. replace (bpow (-1)) with (/ 2) by (unfold bpow; simpl; lra).
    field. lra. }
  rewrite Hs, rne_IZR, <- Hs. field. lra.
Qed.

(** Relative error in the normal range. *)
Lemma rnd_pos_err (x : R) :
  1 / 1024 <= x -> Rabs (rnd_pos x - x) <= x / 4503599627370496.
Proof.
  intros Hx. assert (Hx' : 0 < x) by lra.
  rewrite rnd_pos_eq by assumption.
  assert (Hm : (-10 <= mag x)%Z).
  { apply mag_ge. unfold bpow. simpl. lra. }
  assert (Hc : cexp x = (mag x - 52)%Z) by (unfold cexp; lia).
  pose proof (mag_bounds x Hx') as [Hb _].
  set (c := cexp x) in *. pose proof (bpow_pos c) as Hp.
  pose proof (rne_err (x / bpow c)) as He.
  replace (IZR (rne (x / bpow c)) * bpow c - x)
    with ((IZR (rne (x / bpow c)) - x / bpow c) * bpow c) by (field; lra).
  rewrite Rabs_mult, (Rabs_pos_eq (bpow c)) by lra.
  assert (Hbc : bpow c * 4503599627370496 = bpow (mag x)).
  { replace (mag x) with (c + 52)%Z by lia. rewrite bpow_add.
    rewrite (bpow_nonneg 52) by lia. simpl. reflexivity. }
  pose proof (Rabs_pos (IZR (rne (x / bpow c)) - x / bpow c)).
  nra.
Qed.

(** Binary64 rounding is exact on the half-integers up to 65536. *)
Lemma binary64_half_int (n : Z) :
  (Z.abs n <= 131072)%Z -> binary64 (IZR n / 2) = IZR n / 2.
Proof.
  intros Hn. unfold binary64. destruct (Rlt_dec (IZR n / 2) 0) as [H|H].
  - assert (Hneg : (n < 0)%Z) by (apply lt_IZR; lra).
    replace (- (IZR n / 2)) with (IZR (- n) / 2) by (rewrite opp_IZR; lra).
    rewrite rnd_pos_half_int by lia. rewrite opp_IZR. lra.
  - destruct (Z.eq_dec n 0) as [->|Hne].
    + unfold rnd_pos. destruct (Rle_dec (0 / 2) 0); lra.
    + assert (Hpos : (0 < n)%Z).
      { assert (Hge : (0 <= n)%Z) by (apply le_IZR; lra). lia. }
      apply rnd_pos_half_int. lia.
Qed.

(** Between 1/1024 and 131072 in magnitude, binary64 rounding has a
    relative error of at most 2^-52 (in fact 2^-53). *)
Lemma binary64_err (x : R) :
  1 / 1024 <= Rabs x <= 131072 ->
  Rabs (binary64 x - x) <= Rabs x / 4503599627370496.
Proof.
  intros [Hx _]. unfold binary64. destruct (Rlt_dec x 0) as [H|H].
  - rewrite (Rabs_left x) in * by assumption.
    replace (- rnd_pos (- x) - x) with (- (rnd_pos (- x) - - x)) by lra.
    rewrite Rabs_Ropp. apply rnd_pos_err. assumption.
  - rewrite (Rabs_pos_eq x) in * by lra. apply rnd_pos_err. assumption.
Qed.

(** A tie is rounded to the even neighbour: the real halfway between 1
    and the next double is rounded to 1. *)
Lemma binary64_tie_to_even : binary64 (1 + / 9007199254740992) = 1.
Proof.
  set (x := 1 + / 9007199254740992).
  assert (Hx : 1 <= x < 2) by (unfold x; lra).
  unfold binary64. destruct (Rlt_dec x 0); [lra|].
  rewrite rnd_pos_eq by lra.
  assert (Hm : mag x = 0%Z).
  { apply mag_unique. unfold bpow. simpl. lra. }
  assert (Hc : cexp x = (-52)%Z) by (unfold cexp; rewrite Hm; reflexivity).
  rewrite Hc.
  assert (Hb : bpow (-52) = / 4503599627370496).
  { unfold bpow. simpl. lra. }
  rewrite Hb.
  assert (Hs : x / / 4503599627370496 = IZR 4503599627370496 + 1 / 2).
  { unfold x. field. }
  rewrite Hs.
  assert (Hr : rne (IZR 4503599627370496 + 1 / 2) = 4503599627370496%Z).
  { unfold rne.
    assert (Hf : Zfloor (IZR 4503599627370496 + 1 / 2) = 4503599627370496%Z)
      by (apply Zfloor_eq; lra).
    rewrite Hf.
    destruct (Rlt_dec _ _); [reflexivity|].
    destruct (Rlt_dec _ _); [lra|]. reflexivity. }
  rewrite Hr. lra.
Qed.



Lemma Rpower_unit_range (x y : R) :
  1 / 2 <= x <= 1 -> 0 <= y <= 1 -> x <= Rpower x y <= 1.
Proof.
  intros Hx Hy. unfold Rpower.
  assert (Hl : ln x <= 0) by (rewrite <- ln_1; apply ln_le; lra).
  split.
  - rewrite <- (exp_ln x) at 1 by lra. apply exp_le. nra.
  - rewrite <- exp_0. apply exp_le. nra.
Qed.

Lemma pow64_acc (x y : R) :
  1 / 2 <= x <= 1 -> 1 / 2 <= y <= 1 ->
  Rabs (pow64 x y - Rpower x y) <= 1 / 1099511627776.
Proof.
  intros Hx Hy. unfold pow64, real_pow. destruct (Rle_dec x 0); [lra|].
  pose proof (Rpower_unit_range x y Hx ltac:(lra)) as Hz.
  set (z := Rpower x y) in *.
  pose proof (binary64_err z) as He.
  rewrite (Rabs_pos_eq z) in He by lra. specialize (He ltac:(lra)). lra.
Qed.

Local Close Scope R_scope.

(** ** The statements at sample inputs *)

Local Open Scope R_scope.

(** The detector at a display whose table cannot be read, and at one that
    reports the identity ramp. *)
Lemma HasDefaultGammaRamp_spec_witness :
  HasDefaultGammaRamp binary64 pow64 (fun _ => None) (fun _ _ => 0%Z) 1%Z = true /\
  WORD_ramp (fun _ i => (257 * (i mod 256))%Z) /\
  (HasDefaultGammaRamp binary64 pow64
     (fun _ => Some (fun _ i => (257 * (i mod 256))%Z)) (fun _ _ => 0%Z) 1%Z
   = true <->
   forall c i : Z, is_channel c -> (0 <= i < 256)%Z ->
     (Z.abs (257 * (i mod 256) -
             BuildGammaRamp binary64 pow64 (fun _ _ => 0%Z) 0.5 0.5 1 0 c i)
      <= 256)%Z).
Proof.
  assert (Hw : WORD_ramp (fun _ i => (257 * (i mod 256))%Z)).
  { intros c i. pose proof (Z.mod_pos_bound i 256 ltac:(lia)). lia. }
  split; [|split].
  - exact (proj1 (HasDefaultGammaRamp_spec binary64 pow64 (fun _ => None)
                    (fun _ _ => 0%Z) 1%Z) eq_refl).
  - exact Hw.
  - exact (proj2 (HasDefaultGammaRamp_spec binary64 pow64
                    (fun _ => Some (fun _ i => (257 * (i mod 256))%Z))
                    (fun _ _ => 0%Z) 1%Z)
                 (fun _ i => (257 * (i mod 256))%Z) eq_refl Hw).
Defined.

(** The neutral table in binary64 arithmetic, green channel, sample 128. *)
Lemma neutral_ramp_is_identity_witness :
  is_channel 1 /\ (0 <= 128 < 256)%Z /\
  BuildGammaRamp binary64 pow64 (fun _ _ => 0%Z) 0.5 0.5 1 0 1%Z 128%Z
  = round_half_up (128 / 255 * 65535) /\
  round_half_up (128 / 255 * 65535) = (257 * 128)%Z.
Proof.
  assert (Hc : is_channel 1) by (unfold is_channel; lia).
  assert (Hi : (0 <= 128 < 256)%Z) by lia.
  split; [exact Hc|]. split; [exact Hi|].
  exact (neutral_ramp_is_identity binary64 pow64 binary64_half_int binary64_err
           (fun _ _ => 0%Z) 1%Z 128%Z Hc Hi).
Defined.


(** The last sample of the red channel at the warmest temperature. *)
Lemma samples_in_range_witness :
  0 <= 0.625 <= 1 /\ 0 <= 0.75 <= 1 /\ 0 < 1.5 /\
  (-100 <= 100 <= 100)%Z /\ is_channel 0 /\ (0 <= 255 < 256)%Z /\
  0 <= sample_double binary64 pow64 0.625 0.75 1.5 100 0 255 < 65536 /\
  (0 <= Ztrunc (sample_double binary64 pow64 0.625 0.75 1.5 100 0 255)
   <= 65535)%Z /\
  BuildGammaRamp binary64 pow64 (fun _ _ => 0%Z) 0.625 0.75 1.5 100 0%Z 255%Z
  = Ztrunc (sample_double binary64 pow64 0.625 0.75 1.5 100 0 255) /\
  (0 <= BuildGammaRamp binary64 pow64 (fun _ _ => 0%Z) 0.625 0.75 1.5 100
                       0%Z 255%Z <= 65535)%Z.
Proof.
  assert (Hb : 0 <= 0.625 <= 1) by lra.
  assert (Hc : 0 <= 0.75 <= 1) by lra.
  assert (Hg : 0 < 1.5) by lra.
  assert (Ht : (-100 <= 100 <= 100)%Z) by lia.
  assert (Hch : is_channel 0) by (unfold is_channel; lia).
  assert (Hi : (0 <= 255 < 256)%Z) by lia.
  repeat (split; [assumption|]).
  exact (samples_in_range binary64 pow64 binary64_mono binary64_half_int
           (fun _ _ => 0%Z) 0.625 0.75 1.5 100%Z 0%Z 255%Z
           Hb Hc Hg Ht Hch Hi).
Defined.

(** The red channel in binary64 arithmetic with a correctly rounded
    [pow]. *)
Lemma custom_ramp_at_128_witness :
  is_channel 0 /\
  BuildGammaRamp binary64 pow64 (fun _ _ => 0%Z) (binary64 0.60) (binary64 0.65)
                 (binary64 1.43) 0 0%Z 128%Z = 49336%Z.
Proof.
  assert (Hch : is_channel 0) by (unfold is_channel; lia).
  split; [exact Hch|].
  exact (custom_ramp_at_128 binary64 pow64 binary64_half_int binary64_err
           pow64_acc (fun _ _ => 0%Z) 0%Z Hch).
Defined.

(** C7, as stated, fails: in binary64 arithmetic with a correctly rounded
    [pow], the sample at index 128 for brightness 0.60, contrast 0.65,
    gamma 1.43 and temperature 0 is 49336 on the three channels, not
    51223. *)
Lemma sample_128_is_not_51223 :
  (BuildGammaRamp binary64 pow64 (fun _ _ => 0%Z) (binary64 0.60)
                  (binary64 0.65) (binary64 1.43) 0 0%Z 128%Z = 49336%Z /\
   BuildGammaRamp binary64 pow64 (fun _ _ => 0%Z) (binary64 0.60)
                  (binary64 0.65) (binary64 1.43) 0 1%Z 128%Z = 49336%Z /\
   BuildGammaRamp binary64 pow64 (fun _ _ => 0%Z) (binary64 0.60)
                  (binary64 0.65) (binary64 1.43) 0 2%Z 128%Z = 49336%Z) /\
  BuildGammaRamp binary64 pow64 (fun _ _ => 0%Z) (binary64 0.60)
                 (binary64 0.65) (binary64 1.43) 0 0%Z 128%Z <> 51223%Z.
Proof.
  assert (H : forall c : Z, is_channel c ->
            BuildGammaRamp binary64 pow64 (fun _ _ => 0%Z) (binary64 0.60)
                           (binary64 0.65) (binary64 1.43) 0 c 128%Z
            = 49336%Z).
  { intros c Hc.
    exact (custom_cell_128 binary64 pow64 binary64_half_int binary64_err
             pow64_acc (fun _ _ => 0%Z) c Hc). }
  assert (H0 := H 0%Z ltac:(unfold is_channel; lia)).
  assert (H1 := H 1%Z ltac:(unfold is_channel; lia)).
  assert (H2 := H 2%Z ltac:(unfold is_channel; lia)).
  split; [repeat split; assumption|]. rewrite H0. discriminate.
Qed.

(** ** A [pow] that is accurate but not monotone *)



















Local Close Scope R_scope.

(* ===================================================================== *)
(** * Part III: further properties of the program *)
(* ===================================================================== *)

(** ** Vibrance levels *)

(** Without overflow, the middle branch of [PercentToDVC] is the formula
    of its comment. *)
Lemma PercentToDVC_exact (percent dvcMax : Z) :
  0 <= dvcMax <= 43826196 -> 50 < percent < 100 ->
  PercentToDVC percent dvcMax = ((percent - 50) * dvcMax) / 50.
Proof.
  intros HM Hp. unfold PercentToDVC.
  destruct (percent <=? 50) eqn:E1; [lia|].
  destruct (percent >=? 100) eqn:E2; [lia|].
  rewrite Int_sub_exact by (int_range; lia).
  rewrite Int_mul_exact by (int_range; nia).
  assert (Hq : 0 <= ((percent - 50) * dvcMax) / 50 <= dvcMax).
  { split.
    - apply Z.div_pos; nia.
    - apply Z.div_le_upper_bound; nia. }
  rewrite Int_div_exact by (int_range; rewrite Z.quot_div_nonneg by nia; lia).
  apply Z.quot_div_nonneg; nia.
Qed.

(** The three branches without the 32-bit operations, and the bounds of
    the middle one. *)
Lemma PercentToDVC_formula (percent dvcMax : Z) :
  0 <= dvcMax <= 43826196 ->
  PercentToDVC percent dvcMax =
    (if percent <=? 50 then 0
     else if percent >=? 100 then dvcMax
     else ((percent - 50) * dvcMax) / 50) /\
  (50 < percent < 100 -> 0 <= ((percent - 50) * dvcMax) / 50 <= dvcMax).
Proof.
  intros HM. split.
  - destruct (percent <=? 50) eqn:E1.
    + unfold PercentToDVC. rewrite E1. reflexivity.
    + destruct (percent >=? 100) eqn:E2.
      * unfold PercentToDVC. rewrite E1, E2. reflexivity.
      * apply PercentToDVC_exact; lia.
  - intros Hp. split.
    + apply Z.div_pos; nia.
    + apply Z.div_le_upper_bound; nia.
Qed.

(** The raw level computed from any percentage lies in the driver's range
    [0, dvcMax], for every maximum up to 43826196 (beyond it the product
    of line 324 can leave the 32-bit range). *)
Theorem PercentToDVC_in_driver_range (percent dvcMax : Z) :
  0 <= dvcMax <= 43826196 ->
  0 <= PercentToDVC percent dvcMax <= dvcMax.
Proof.
  intros HM. destruct (PercentToDVC_formula percent dvcMax HM) as [-> Hmid].
  destruct (percent <=? 50) eqn:E1; [lia|].
  destruct (percent >=? 100) eqn:E2; [lia|].
  apply Hmid. lia.
Qed.

Lemma PercentToDVC_in_driver_range_witness :
  0 <= 63 <= 43826196 /\ 0 <= PercentToDVC 80 63 <= 63.
Proof.
  split; [lia | apply (PercentToDVC_in_driver_range 80 63); lia].
Defined.

(** A higher percentage never gives a lower raw level. *)
Theorem PercentToDVC_monotone (percent percent' dvcMax : Z) :
  0 <= dvcMax <= 43826196 -> percent <= percent' ->
  PercentToDVC percent dvcMax <= PercentToDVC percent' dvcMax.
Proof.
  intros HM Hpp.
  destruct (PercentToDVC_formula percent dvcMax HM) as [-> Hmid].
  destruct (PercentToDVC_formula percent' dvcMax HM) as [-> Hmid'].
  destruct (percent <=? 50) eqn:E1; destruct (percent' <=? 50) eqn:E1';
    destruct (percent >=? 100) eqn:E2; destruct (percent' >=? 100) eqn:E2';
    try lia;
    first [ apply Z.div_le_mono; nia
          | specialize (Hmid' ltac:(lia)); lia
          | specialize (Hmid ltac:(lia)); lia ].
Qed.

Lemma PercentToDVC_monotone_witness :
  0 <= 63 <= 43826196 /\ 60 <= 80 /\ PercentToDVC 60 63 <= PercentToDVC 80 63.
Proof.
  split; [lia|]. split; [lia|]. apply (PercentToDVC_monotone 60 80 63); lia.
Defined.

(** For a maximum of at least 50, converting a percentage of the scale to
    a raw level and back never gives more than the percentage and loses
    at most 1. *)
Theorem percent_round_trip (percent dvcMax : Z) :
  50 <= dvcMax <= 42949672 -> 50 <= percent <= 100 ->
  percent - 1 <= DVCToPercent (PercentToDVC percent dvcMax) dvcMax <= percent.
Proof.
  intros HM Hp.
  assert (Hr : 0 <= PercentToDVC percent dvcMax <= dvcMax).
  { destruct (PercentToDVC_formula percent dvcMax ltac:(lia)) as [-> Hmid].
    destruct (percent <=? 50) eqn:E1; [lia|].
    destruct (percent >=? 100) eqn:E2; [lia|]. apply Hmid. lia. }
  rewrite DVCToPercent_exact by lia.
  destruct (Z.eq_dec percent 50) as [->|Hne50].
  { replace (PercentToDVC 50 dvcMax) with 0 by reflexivity.
    rewrite Z.mul_0_l, Z.div_0_l by lia. lia. }
  destruct (Z.eq_dec percent 100) as [->|Hne100].
  { replace (PercentToDVC 100 dvcMax) with dvcMax by reflexivity.
    rewrite Z.mul_comm, Z.div_mul by lia. lia. }
  rewrite PercentToDVC_exact by lia.
  set (a := percent - 50). assert (Ha : 1 <= a <= 49) by (unfold a; lia).
  pose proof (Z.div_mod (a * dvcMax) 50 ltac:(lia)) as Hdm.
  pose proof (Z.mod_pos_bound (a * dvcMax) 50 ltac:(lia)) as Hmod.
  set (raw := a * dvcMax / 50) in *.
  assert (Hup : raw * 50 / dvcMax <= a).
  { apply Z.div_le_upper_bound; nia. }
  assert (Hlo : a - 1 <= raw * 50 / dvcMax).
  { apply Z.div_le_lower_bound; nia. }
  unfold a in *. lia.
Qed.

Lemma percent_round_trip_witness :
  50 <= 100 <= 42949672 /\ 50 <= 73 <= 100 /\
  73 - 1 <= DVCToPercent (PercentToDVC 73 100) 100 <= 73.
Proof.
  split; [lia|]. split; [lia|]. apply (percent_round_trip 73 100); lia.
Defined.

(** A higher raw level never gives a lower percentage. *)
Theorem DVCToPercent_monotone (dvcValue dvcValue' dvcMax : Z) :
  0 < dvcMax <= 42949672 -> 0 <= dvcValue -> dvcValue <= dvcValue' ->
  dvcValue' <= dvcMax ->
  DVCToPercent dvcValue dvcMax <= DVCToPercent dvcValue' dvcMax.
Proof.
  intros HM H0 Hvv Hv'. rewrite !DVCToPercent_exact by lia.
  apply Z.add_le_mono_l. apply Z.div_le_mono; lia.
Qed.

Lemma DVCToPercent_monotone_witness :
  0 < 63 <= 42949672 /\ 0 <= 10 /\ 10 <= 40 /\ 40 <= 63 /\
  DVCToPercent 10 63 <= DVCToPercent 40 63.
Proof.
  repeat (split; [lia|]). apply (DVCToPercent_monotone 10 40 63); lia.
Defined.

(** ** What [BuildGammaRamp] writes *)

(** For parameters in their ranges, [BuildGammaRamp] assigns every cell
    of the three channels and the 256 samples, whatever the array held
    before, and writes no other cell. *)
Theorem BuildGammaRamp_overwrites_table (rnd : R -> R) (pow : R -> R -> R)
    (ramp ramp' : Ramp) (brightness contrast gamma : R)
    (temperature c i : Z) :
  (0 <= brightness <= 1)%R -> (0 <= contrast <= 1)%R -> (0 < gamma)%R ->
  -100 <= temperature <= 100 ->
  (is_channel c /\ 0 <= i < 256 ->
   BuildGammaRamp rnd pow ramp brightness contrast gamma temperature c i
   = BuildGammaRamp rnd pow ramp' brightness contrast gamma temperature c i)
  /\
  (~ (is_channel c /\ 0 <= i < 256) ->
   BuildGammaRamp rnd pow ramp brightness contrast gamma temperature c i
   = ramp c i).
Proof.
  intros _ _ _ _. split.
  - intros [Hc Hi]. rewrite !BuildGammaRamp_cell by assumption. reflexivity.
  - apply BuildGammaRamp_frame.
Qed.

Lemma forallb_ext_in {A : Type} (f g : A -> bool) (l : list A) :
  (forall x, In x l -> f x = g x) -> forallb f l = forallb g l.
Proof.
  induction l as [|a l IH]; intros H; [reflexivity|]. simpl.
  rewrite (H a (or_introl eq_refl)), IH; [reflexivity|].
  intros x Hx. apply H. right. assumption.
Qed.

(** The answer of the detector does not depend on what the local array
    [defaultRamp] held before it was built. *)
Theorem HasDefaultGammaRamp_ignores_stack (rnd : R -> R) (pow : R -> R -> R)
    (GetDeviceGammaRamp : HDC -> option Ramp) (uninit uninit' : Ramp)
    (hdc : HDC) :
  HasDefaultGammaRamp rnd pow GetDeviceGammaRamp uninit hdc
  = HasDefaultGammaRamp rnd pow GetDeviceGammaRamp uninit' hdc.
Proof.
  unfold HasDefaultGammaRamp.
  destruct (GetDeviceGammaRamp hdc) as [currentRamp|]; [|reflexivity].
  apply forallb_ext_in. intros c Hc. apply is_channel_indices in Hc.
  apply forallb_ext_in. intros i Hi. apply In_indices in Hi.
  unfold ramp_differs.
  rewrite !BuildGammaRamp_cell by (assumption || lia). reflexivity.
Qed.

(** The detector accepts the table that [BuildGammaRamp] builds from the
    neutral parameters, in any arithmetic. *)
Lemma HasDefaultGammaRamp_rebuilt (rnd : R -> R) (pow : R -> R -> R)
    (GetDeviceGammaRamp : HDC -> option Ramp) (uninit ramp : Ramp) (hdc : HDC) :
  GetDeviceGammaRamp hdc
  = Some (BuildGammaRamp rnd pow ramp DEFAULT_BRIGHTNESS DEFAULT_CONTRAST
                         DEFAULT_GAMMA 0) ->
  HasDefaultGammaRamp rnd pow GetDeviceGammaRamp uninit hdc = true.
Proof.
  intros H. unfold HasDefaultGammaRamp. rewrite H.
  apply forallb_forall. intros c Hc. apply is_channel_indices in Hc.
  apply forallb_forall. intros i Hi. apply In_indices in Hi.
  apply negb_true_iff. unfold ramp_differs.
  rewrite !BuildGammaRamp_cell by (assumption || lia).
  unfold Int.sub. rewrite Z.sub_diag. reflexivity.
Qed.

Local Open Scope R_scope.

Section Channels.

Variable rnd : R -> R.
Variable pow : R -> R -> R.
Hypothesis rnd_mono : forall x y : R, x <= y -> rnd x <= rnd y.
Hypothesis rnd_half_int :
  forall n : Z, (Z.abs n <= 131072)%Z -> rnd (IZR n / 2) = IZR n / 2.

(** A larger channel value gives a larger word. *)
Lemma cell_mono_value (v v' : R) :
  0 <= v <= 1 -> v <= v' -> v' <= 1 ->
  (WORD_of_double (scale16 rnd v) <= WORD_of_double (scale16 rnd v'))%Z.
Proof.
  intros Hv Hvv Hv'.
  pose proof (scale16_range rnd rnd_mono rnd_half_int v Hv).
  pose proof (scale16_range rnd rnd_mono rnd_half_int v' ltac:(lra)).
  apply WORD_of_double_mono; try lra.
  unfold scale16, fadd, fmul. apply rnd_mono. apply Rplus_le_compat_r.
  apply rnd_mono. lra.
Qed.

(** A larger factor gives a larger word, for the same base value. *)
Lemma cell_mono_adj (value adj adj' : R) :
  0 <= value -> 0 <= adj -> adj <= adj' ->
  (WORD_of_double (scale16 rnd (channel_value rnd value adj))
   <= WORD_of_double (scale16 rnd (channel_value rnd value adj')))%Z.
Proof.
  intros Hv Ha Haa.
  pose proof (channel_value_range rnd rnd_mono rnd_half_int value adj Hv Ha).
  pose proof (channel_value_range rnd rnd_mono rnd_half_int value adj' Hv
                ltac:(lra)).
  apply cell_mono_value; try lra.
  rewrite !channel_value_clamp. apply clamp1_mono. unfold fmul.
  apply rnd_mono. nra.
Qed.

(** The order of the three factors for a warm and for a cool
    temperature. *)
Lemma channel_adj_order (temperature : Z) :
  (-100 <= temperature <= 100)%Z ->
  ((0 <= temperature)%Z ->
   channel_adj rnd temperature 2 <= channel_adj rnd temperature 1
   /\ channel_adj rnd temperature 1 <= channel_adj rnd temperature 0) /\
  ((temperature <= 0)%Z ->
   channel_adj rnd temperature 0 <= channel_adj rnd temperature 1
   /\ channel_adj rnd temperature 1 <= channel_adj rnd temperature 2).
Proof.
  intros Ht. pose proof (tempFactor_range rnd rnd_mono rnd_half_int temperature Ht)
    as Htf.
  unfold channel_adj. simpl Z.eqb. cbv iota.
  set (tf := fdiv rnd (double_of_int temperature) 100) in *.
  assert (H002 : 0 <= rnd 0.02).
  { apply (rnd_nonneg rnd rnd_mono rnd_half_int). lra. }
  assert (H01 : rnd 0.02 <= rnd 0.1) by (apply rnd_mono; lra).
  pose proof (rnd_0 rnd rnd_half_int) as R0.
  pose proof (rnd_1 rnd rnd_half_int) as R1.
  unfold fadd, fsub, fmul. split; intros Hs.
  - assert (Htf0 : 0 <= tf).
    { unfold tf, fdiv, double_of_int. rewrite <- R0. apply rnd_mono.
      apply IZR_le in Hs. lra. }
    assert (Ha : 0 <= rnd (tf * rnd 0.02)) by (rewrite <- R0; apply rnd_mono; nra).
    assert (Hb : rnd (tf * rnd 0.02) <= rnd (tf * rnd 0.1))
      by (apply rnd_mono; nra).
    split.
    + apply Rle_trans with (rnd 1); apply rnd_mono; lra.
    + apply rnd_mono. lra.
  - assert (Htf0 : tf <= 0).
    { unfold tf, fdiv, double_of_int. rewrite <- R0. apply rnd_mono.
      apply IZR_le in Hs. lra. }
    assert (Ha : rnd (tf * rnd 0.02) <= 0) by (rewrite <- R0; apply rnd_mono; nra).
    assert (Hb : rnd (tf * rnd 0.1) <= rnd (tf * rnd 0.02))
      by (apply rnd_mono; nra).
    split.
    + apply rnd_mono. lra.
    + apply Rle_trans with (rnd 1); apply rnd_mono; lra.
Qed.

(** For parameters in their ranges, a warm temperature orders every
    sample red >= green >= blue, a cool one blue >= green >= red. *)
Theorem temperature_shifts_channels (uninit : Ramp)
    (brightness contrast gamma : R) (temperature i : Z) :
  0 <= brightness <= 1 -> 0 <= contrast <= 1 -> 0 < gamma ->
  (-100 <= temperature <= 100)%Z -> (0 <= i < 256)%Z ->
  ((0 <= temperature)%Z ->
   (BuildGammaRamp rnd pow uninit brightness contrast gamma temperature 2 i
    <= BuildGammaRamp rnd pow uninit brightness contrast gamma temperature 1 i
    <= BuildGammaRamp rnd pow uninit brightness contrast gamma temperature 0 i)%Z)
  /\
  ((temperature <= 0)%Z ->
   (BuildGammaRamp rnd pow uninit brightness contrast gamma temperature 0 i
    <= BuildGammaRamp rnd pow uninit brightness contrast gamma temperature 1 i
    <= BuildGammaRamp rnd pow uninit brightness contrast gamma temperature 2 i)%Z).
Proof.
  intros _ _ _ Ht Hi.
  rewrite !BuildGammaRamp_cell by (assumption || unfold is_channel; lia).
  unfold sample_double.
  pose proof (base_value_range rnd pow brightness contrast gamma i) as [Hv _].
  pose proof (channel_adj_range rnd rnd_mono rnd_half_int temperature 0 Ht).
  pose proof (channel_adj_range rnd rnd_mono rnd_half_int temperature 1 Ht).
  pose proof (channel_adj_range rnd rnd_mono rnd_half_int temperature 2 Ht).
  destruct (channel_adj_order temperature Ht) as [Hwarm Hcool].
  split; intros Hs.
  - destruct (Hwarm Hs). split; apply cell_mono_adj; lra.
  - destruct (Hcool Hs). split; apply cell_mono_adj; lra.
Qed.

(** For parameters in their ranges, raising the brightness never darkens
    a sample. *)
Theorem brightness_monotone (uninit : Ramp)
    (brightness brightness' contrast gamma : R) (temperature c i : Z) :
  0 <= brightness -> brightness <= brightness' -> brightness' <= 1 ->
  0 <= contrast <= 1 -> 0 < gamma -> (-100 <= temperature <= 100)%Z ->
  is_channel c -> (0 <= i < 256)%Z ->
  (BuildGammaRamp rnd pow uninit brightness contrast gamma temperature c i
   <= BuildGammaRamp rnd pow uninit brightness' contrast gamma temperature c i)%Z.
Proof.
  intros _ Hb _ _ _ Ht Hc Hi. rewrite !BuildGammaRamp_cell by assumption.
  unfold sample_double.
  pose proof (channel_adj_range rnd rnd_mono rnd_half_int temperature c Ht) as Ha.
  pose proof (base_value_range rnd pow brightness contrast gamma i) as Hv.
  pose proof (base_value_range rnd pow brightness' contrast gamma i) as Hv'.
  pose proof (channel_value_range rnd rnd_mono rnd_half_int _ _ (proj1 Hv)
                (proj1 Ha)) as Hr.
  pose proof (channel_value_range rnd rnd_mono rnd_half_int _ _ (proj1 Hv')
                (proj1 Ha)) as Hr'.
  apply cell_mono_value; try lra.
  rewrite !channel_value_clamp. apply clamp1_mono. unfold fmul.
  apply rnd_mono. apply Rmult_le_compat_r; [lra|].
  rewrite !base_value_clamp. apply clamp01_mono. unfold fadd, fsub.
  apply rnd_mono. apply Rplus_le_compat_l. apply rnd_mono. lra.
Qed.

(** At temperature 0, for the other parameters in their ranges, the three
    channels hold the same samples. *)
Theorem neutral_temperature_is_gray (uninit : Ramp)
    (brightness contrast gamma : R) (c c' i : Z) :
  0 <= brightness <= 1 -> 0 <= contrast <= 1 -> 0 < gamma ->
  is_channel c -> is_channel c' -> (0 <= i < 256)%Z ->
  BuildGammaRamp rnd pow uninit brightness contrast gamma 0 c i
  = BuildGammaRamp rnd pow uninit brightness contrast gamma 0 c' i.
Proof.
  intros _ _ _ Hc Hc' Hi. rewrite !BuildGammaRamp_cell by assumption.
  unfold sample_double. rewrite !(channel_adj_neutral rnd rnd_half_int).
  reflexivity.
Qed.

(** With contrast 0, and the other parameters in their ranges, every
    channel is flat: all its samples are equal, whatever the gamma. *)
Theorem zero_contrast_is_flat (uninit : Ramp) (brightness gamma : R)
    (temperature c i j : Z) :
  0 <= brightness <= 1 -> 0 < gamma -> (-100 <= temperature <= 100)%Z ->
  is_channel c -> (0 <= i < 256)%Z -> (0 <= j < 256)%Z ->
  BuildGammaRamp rnd pow uninit brightness 0 gamma temperature c i
  = BuildGammaRamp rnd pow uninit brightness 0 gamma temperature c j.
Proof.
  intros _ _ _ Hc Hi Hj. rewrite !BuildGammaRamp_cell by assumption.
  unfold sample_double. f_equal. f_equal. f_equal.
  rewrite !base_value_clamp. f_equal. unfold fadd, fmul at 1 3.
  f_equal. f_equal. f_equal.
  unfold fmul. rewrite Rmult_0_l, (rnd_0 rnd rnd_half_int), !Rmult_0_r.
  reflexivity.
Qed.

End Channels.

Local Close Scope R_scope.

(** ** One display *)

Section Toggle.

Variable rnd : R -> R.
Variable pow : R -> R -> R.

(** [ToggleDisplay] writes the gamma ramp of the given device context
    exactly once, after at most one vibrance call and one hue call for the
    given display; a call whose function pointer is unresolved is left
    out. *)
Theorem ToggleDisplay_driver_calls (w : World) (fns : NvFuncs)
    (hNvDisplay : NvDisplayHandle) (hdc : HDC) (config : Config)
    (displayName : string) :
  exists (level angle : Z) (ramp : Ramp),
    driver_calls
      (ToggleDisplay rnd pow w fns hNvDisplay hdc config displayName)
    = (match pfnNvAPI_GPU_SetDVCLevel fns with
       | Some _ => [SetDVCLevel hNvDisplay level]
       | None => []
       end)
      ++ (match pfnNvAPI_GPU_SetHUEAngle fns with
          | Some _ => [SetHUEAngle hNvDisplay angle]
          | None => []
          end)
      ++ [SetDeviceGammaRamp hdc ramp].
Proof.
  unfold ToggleDisplay, SetVibrance, SetHue.
  match goal with
  | |- context [if ?b then _ else _] => destruct b
  end.
  - exists (PercentToDVC (vibrance config)
                         (dvcMax (ToggleDisplay_locals fns hNvDisplay))),
           (hue config),
           (BuildGammaRamp rnd pow (uninitRamp w) (brightness config)
              (contrast config) (gamma config) (temperature config)).
    destruct (pfnNvAPI_GPU_SetDVCLevel fns);
      destruct (pfnNvAPI_GPU_SetHUEAngle fns); reflexivity.
  - exists (defaultVibranceRaw (ToggleDisplay_locals fns hNvDisplay)),
           DEFAULT_HUE,
           (BuildGammaRamp rnd pow (uninitRamp w) DEFAULT_BRIGHTNESS
              DEFAULT_CONTRAST DEFAULT_GAMMA 0).
    destruct (pfnNvAPI_GPU_SetDVCLevel fns);
      destruct (pfnNvAPI_GPU_SetHUEAngle fns); reflexivity.
Qed.

(** When both queries fail and the gamma table cannot be read, every
    reading falls back to the default, so [ToggleDisplay] applies the
    custom settings, with the level computed for the range 0 to 63. *)
Theorem ToggleDisplay_all_queries_fail (w : World) (fns : NvFuncs)
    (hNvDisplay : NvDisplayHandle) (hdc : HDC) (config : Config)
    (displayName : string) :
  DVC_query_fails fns hNvDisplay -> HUE_query_fails fns hNvDisplay ->
  GetDeviceGammaRamp w hdc = None ->
  ToggleDisplay rnd pow w fns hNvDisplay hdc config displayName
  = [Printf (MsgDisplay displayName);
     Printf (MsgText "Toggling Custom Settings:");
     Printf (MsgCustomInts (vibrance config) (hue config)
                           (temperature config));
     Printf (MsgCustomReals (brightness config) (contrast config)
                            (gamma config))]
    ++ snd (SetVibrance fns hNvDisplay (PercentToDVC (vibrance config) 63))
    ++ snd (SetHue fns hNvDisplay (hue config))
    ++ [SetDeviceGammaRamp hdc
          (BuildGammaRamp rnd pow (uninitRamp w) (brightness config)
             (contrast config) (gamma config) (temperature config))].
Proof.
  intros Hdvc Hhue Hgamma.
  assert (Hl : ToggleDisplay_locals fns hNvDisplay
               = {| dvcMin := 0; dvcMax := 63; currentVibranceRaw := 0;
                    currentHue := 0; defaultVibranceRaw := 0 |}).
  { unfold ToggleDisplay_locals, GetVibrance, GetHue,
      DVC_query_fails, HUE_query_fails in *.
    destruct (pfnNvAPI_GPU_GetDVCInfo fns) as [getDVC|];
      destruct (pfnNvAPI_GPU_GetHUEInfo fns) as [getHUE|];
      repeat match goal with
             | |- context [getDVC ?a ?b ?c] =>
                 destruct (getDVC a b c) as [st1 i1] eqn:E1
             | |- context [getHUE ?a ?b ?c] =>
                 destruct (getHUE a b c) as [st2 i2] eqn:E2
             end;
      simpl in *;
      repeat match goal with
             | H : ?s <> NVAPI_OK |- context [?s =? NVAPI_OK] =>
                 destruct (s =? NVAPI_OK) eqn:?;
                 [exfalso; apply H; apply Z.eqb_eq; assumption|]
             end;
      reflexivity. }
  unfold ToggleDisplay. rewrite Hl. unfold HasDefaultGammaRamp.
  rewrite Hgamma. reflexivity.
Qed.

(** With a driver that reports what the display shows, a run on a display
    at the defaults applies the settings of [config], for every [config];
    and, when the hue of [config] is not the default, a run on the display
    with those settings restores the defaults. *)
Theorem toggle_twice_restores_defaults (w : World) (dvcMax : Z)
    (hNvDisplay : NvDisplayHandle) (hdc : HDC) (config : Config)
    (displayName : string) (ramp : Ramp) :
  toggle_state rnd pow w dvcMax hNvDisplay hdc config displayName
    (default_state rnd pow ramp)
  = custom_state rnd pow (uninitRamp w) dvcMax config
  /\
  (hue config <> DEFAULT_HUE ->
   toggle_state rnd pow w dvcMax hNvDisplay hdc config displayName
     (custom_state rnd pow (uninitRamp w) dvcMax config)
   = default_state rnd pow (uninitRamp w)).
Proof.
  split.
  - unfold toggle_state, ToggleDisplay.
    rewrite (HasDefaultGammaRamp_rebuilt rnd pow _ _ ramp) by reflexivity.
    reflexivity.
  - intros Hhue. unfold toggle_state, ToggleDisplay.
    assert (Hh : currentHue
                   (ToggleDisplay_locals
                      (readback_funcs dvcMax
                         (custom_state rnd pow (uninitRamp w) dvcMax config))
                      hNvDisplay) = hue config) by reflexivity.
    rewrite Hh.
    destruct (hue config =? DEFAULT_HUE) eqn:E;
      [apply Z.eqb_eq in E; contradiction|].
    rewrite andb_false_r. reflexivity.
Qed.

End Toggle.

(** ** The configuration file *)

Lemma scan_not_equals_no_equals (n : nat) (s : string) :
  string_forall (fun c => negb (Ascii.eqb c "=")) s = true ->
  match snd (scan_not_equals n s) with
  | EmptyString => True
  | String c _ => Ascii.eqb c "=" = false
  end.
Proof.
  revert s. induction n as [|n IH]; intros s Hs.
  - destruct s as [|c s]; simpl in *; [exact I|].
    apply andb_prop in Hs. destruct Hs as [Hc _].
    apply negb_true_iff in Hc. assumption.
  - destruct s as [|c s]; simpl in *; [exact I|].
    apply andb_prop in Hs. destruct Hs as [Hc Hs].
    apply negb_true_iff in Hc. rewrite Hc.
    specialize (IH s Hs). destruct (scan_not_equals n s) as [k rest].
    simpl in *. assumption.
Qed.

Section ConfigFile.

Variable rnd : R -> R.
Variable atoi : string -> Z.
Variable atof : string -> R.

(** A line without an equals sign changes nothing. *)
Theorem LoadConfig_line_without_equals (config : Config) (line : string) :
  string_forall (fun c => negb (Ascii.eqb c "=")) line = true ->
  LoadConfig_line atoi atof config line = config.
Proof.
  intros H. unfold LoadConfig_line.
  destruct (is_comment_or_empty line); [reflexivity|].
  unfold sscanf_key_value.
  pose proof (scan_not_equals_no_equals 63 line H) as Hr.
  destruct (scan_not_equals 63 line) as [key rest]. simpl in Hr.
  destruct key as [|k key]; [reflexivity|].
  destruct rest as [|c rest]; [reflexivity|]. rewrite Hr. reflexivity.
Qed.

(** One line keeps the temperature within [-100, 100]. *)
Lemma LoadConfig_line_temperature (config : Config) (line : string) :
  -100 <= temperature config <= 100 ->
  -100 <= temperature (LoadConfig_line atoi atof config line) <= 100.
Proof.
  intros H. unfold LoadConfig_line.
  destruct (is_comment_or_empty line); [assumption|].
  destruct (sscanf_key_value line) as [[key value]|]; [|assumption].
  repeat match goal with
         | |- context [if String.eqb ?a ?b then _ else _] =>
             destruct (String.eqb a b); [try assumption|]
         end; try assumption.
  simpl.
  destruct (atoi (skip_blank value) <? -100) eqn:E1.
  - simpl. lia.
  - destruct (atoi (skip_blank value) >? 100) eqn:E2; lia.
Qed.

(** Whatever the file holds, the temperature that [LoadConfig] delivers
    from it lies in [-100, 100]. *)
Theorem LoadConfig_temperature_range (w : World) (filename : string)
    (config : Config) :
  fst (fst (LoadConfig rnd atoi atof w filename config)) = true ->
  -100 <= temperature (snd (fst (LoadConfig rnd atoi atof w filename config)))
       <= 100.
Proof.
  unfold LoadConfig. destruct (fopen w filename) as [lines|];
    [intros _ | discriminate]. simpl.
  assert (H0 : -100 <= temperature (builtin_defaults rnd) <= 100)
    by (simpl; lia).
  revert H0. generalize (builtin_defaults rnd).
  induction lines as [|line lines IH]; intros c Hc; [assumption|].
  simpl. apply IH. apply LoadConfig_line_temperature. assumption.
Qed.

End ConfigFile.

(** *** Scanning a well-formed line *)

Lemma scan_not_equals_key (n : nat) (key rest : string) :
  string_forall (fun c => negb (Ascii.eqb c "=")) key = true ->
  (String.length key <= n)%nat ->
  scan_not_equals n (key ++ String "=" rest) = (key, String "=" rest).
Proof.
  revert n. induction key as [|c key IH]; intros n Hk Hn.
  - destruct n; reflexivity.
  - simpl in Hk, Hn. apply andb_prop in Hk. destruct Hk as [Hc Hk].
    apply negb_true_iff in Hc. destruct n as [|n]; [lia|].
    simpl. rewrite Hc. rewrite IH by (assumption || lia). reflexivity.
Qed.

Lemma scan_word_value (n : nat) (value rest : string) :
  string_forall (fun c => negb (isspace c)) value = true ->
  (String.length value <= n)%nat -> ends_word rest = true ->
  scan_word n (value ++ rest) = value.
Proof.
  revert n. induction value as [|c value IH]; intros n Hv Hn Hr.
  - simpl. destruct n; [destruct rest; reflexivity|].
    destruct rest as [|c rest]; [reflexivity|]. simpl in *. rewrite Hr.
    reflexivity.
  - simpl in Hv, Hn. apply andb_prop in Hv. destruct Hv as [Hc Hv].
    apply negb_true_iff in Hc. destruct n as [|n]; [lia|].
    simpl. rewrite Hc. rewrite IH by (assumption || lia). reflexivity.
Qed.

(** A line made of a key, an equals sign and a value, followed by nothing
    or by white space, is scanned into that key and that value. *)
Lemma sscanf_key_value_well_formed (key value rest : string) :
  scannable_key key = true -> scannable_value value = true ->
  ends_word rest = true ->
  sscanf_key_value (key ++ String "=" (value ++ rest)) = Some (key, value).
Proof.
  unfold scannable_key, scannable_value. intros Hk Hv Hr.
  apply andb_prop in Hk. destruct Hk as [Hk Hk3].
  apply andb_prop in Hk. destruct Hk as [Hk1 Hk2].
  apply andb_prop in Hv. destruct Hv as [Hv Hv3].
  apply andb_prop in Hv. destruct Hv as [Hv1 Hv2].
  apply Nat.leb_le in Hk3, Hv3.
  unfold sscanf_key_value. rewrite scan_not_equals_key by assumption.
  destruct key as [|k key]; [discriminate|].
  destruct value as [|v value]; [discriminate|].
  rewrite Ascii.eqb_refl.
  assert (Hs : skip_space (String v value ++ rest)
               = (String v value ++ rest)%string).
  { simpl in Hv2. apply andb_prop in Hv2. destruct Hv2 as [Hv2 _].
    apply negb_true_iff in Hv2. simpl. rewrite Hv2. reflexivity. }
  rewrite Hs. rewrite scan_word_value by assumption. reflexivity.
Qed.

(** *** Where the configuration file is looked up *)

Lemma before_last_no_occurrence (c : ascii) (s : string) :
  string_forall (fun a => negb (Ascii.eqb a c)) s = true ->
  before_last c s = None.
Proof.
  induction s as [|a s IH]; intros H; [reflexivity|].
  simpl in *. apply andb_prop in H. destruct H as [Ha Hs].
  apply negb_true_iff in Ha. rewrite IH by assumption. rewrite Ha.
  reflexivity.
Qed.

Lemma before_last_split (c : ascii) (dir file : string) :
  string_forall (fun a => negb (Ascii.eqb a c)) file = true ->
  before_last c (dir ++ String c file) = Some dir.
Proof.
  intros H. induction dir as [|a dir IH].
  - simpl. rewrite before_last_no_occurrence by assumption.
    rewrite Ascii.eqb_refl. reflexivity.
  - simpl. rewrite IH. reflexivity.
Qed.

Lemma substring_whole (n : nat) (s : string) :
  (String.length s <= n)%nat -> substring 0 n s = s.
Proof.
  revert n. induction s as [|a s IH]; intros n H.
  - destruct n; reflexivity.
  - destruct n as [|n]; [simpl in H; lia|]. simpl. f_equal. apply IH.
    simpl in H. lia.
Qed.

Lemma length_append (s t : string) :
  String.length (s ++ t) = (String.length s + String.length t)%nat.
Proof. induction s as [|a s IH]; simpl; [reflexivity | rewrite IH; reflexivity]. Qed.

(** The configuration file is looked up in the directory of the
    executable: the path of the executable up to its last backslash,
    followed by the file's name, when that fits [MAX_PATH]. *)
Theorem configPath_in_executable_directory (w : World) (dir file : string) :
  exePath w = (dir ++ String "\" file)%string ->
  string_forall (fun a => negb (Ascii.eqb a "\")) file = true ->
  (String.length dir + 23 <= 259)%nat ->
  configPath w = (dir ++ "\native_nvcp_config.ini")%string.
Proof.
  intros Hp Hf Hl. unfold configPath. rewrite Hp.
  rewrite before_last_split by assumption.
  unfold snprintf, MAX_PATH. apply substring_whole.
  rewrite length_append. simpl. lia.
Qed.

(** Without a backslash in the path of the executable, the file is looked
    up by its bare name. *)
Lemma configPath_without_directory (w : World) :
  string_forall (fun a => negb (Ascii.eqb a "\")) (exePath w) = true ->
  configPath w = "native_nvcp_config.ini"%string.
Proof.
  intros H. unfold configPath.
  rewrite before_last_no_occurrence by assumption. reflexivity.
Qed.

(** ** The device context of the primary display *)

(** [GetGammaRampDC] returns the context of the first primary device for
    which one can be created; when there is none, it returns the context
    of the whole screen. *)
Theorem GetGammaRampDC_first_primary (w : World) :
  (exists (before after : list (bool * string)) (name : string),
     displayDevices w = before ++ (true, name) :: after /\
     (forall name', In (true, name') before -> CreateDCA w (Some name') = 0) /\
     CreateDCA w (Some name) <> 0 /\
     GetGammaRampDC w = CreateDCA w (Some name))
  \/
  ((forall name, In (true, name) (displayDevices w) ->
                 CreateDCA w (Some name) = 0) /\
   GetGammaRampDC w = CreateDCA w None).
Proof.
  unfold GetGammaRampDC. induction (displayDevices w) as [|[primary name] l IH].
  - right. split; [intros name []|reflexivity].
  - destruct primary.
    + destruct (CreateDCA w (Some name) =? 0) eqn:E.
      * apply Z.eqb_eq in E.
        destruct IH as [(before & after & name0 & Hl & Hb & Hn & Hr)|[Hall Hr]].
        -- left. exists ((true, name) :: before), after, name0.
           split; [rewrite Hl; reflexivity|]. split.
           ++ intros name' [Heq|Hin]; [inversion Heq; subst; assumption|].
              apply Hb. assumption.
           ++ split; [assumption|]. rewrite E. simpl. assumption.
        -- right. split.
           ++ intros name' [Heq|Hin]; [inversion Heq; subst; assumption|].
              apply Hall. assumption.
           ++ rewrite E. simpl. assumption.
      * apply Z.eqb_neq in E. left. exists [], l, name.
        split; [reflexivity|]. split; [intros name' []|].
        split; [assumption|].
        destruct (CreateDCA w (Some name) =? 0) eqn:E'.
        -- apply Z.eqb_eq in E'. contradiction.
        -- reflexivity.
    + destruct IH as [(before & after & name0 & Hl & Hb & Hn & Hr)|[Hall Hr]].
      * left. exists ((false, name) :: before), after, name0.
        split; [rewrite Hl; reflexivity|]. split.
        -- intros name' [Heq|Hin]; [inversion Heq|]. apply Hb. assumption.
        -- split; assumption.
      * right. split.
        -- intros name' [Heq|Hin]; [inversion Heq|]. apply Hall. assumption.
        -- assumption.
Qed.

(** ** Lines of the configuration file *)

Lemma skip_blank_value (value : string) :
  scannable_value value = true -> skip_blank value = value.
Proof.
  unfold scannable_value. intros H.
  apply andb_prop in H. destruct H as [H _].
  apply andb_prop in H. destruct H as [_ H].
  destruct value as [|c value]; [reflexivity|].
  simpl in H. apply andb_prop in H. destruct H as [Hc _].
  apply negb_true_iff in Hc. unfold isspace in Hc.
  repeat (apply orb_false_elim in Hc; destruct Hc as [Hc ?]).
  simpl. rewrite Hc. simpl.
  match goal with H : Ascii.eqb c char_tab = false |- _ => rewrite H end.
  reflexivity.
Qed.

Section ConfigLines.

Variable atoi : string -> Z.
Variable atof : string -> R.

(** A line [key=value], followed by nothing or by white space, with one of
    the eight known keys sets the field of that key from the value and
    leaves the other fields as they are; the temperature is clamped to
    [-100, 100]. *)
Theorem LoadConfig_line_known_key (config : Config) (value rest : string) :
  scannable_value value = true -> ends_word rest = true ->
  LoadConfig_line atoi atof config ("toggleAllDisplays=" ++ value ++ rest)
  = set_toggleAllDisplays config (is_true value) /\
  LoadConfig_line atoi atof config ("keyPressToExit=" ++ value ++ rest)
  = set_keyPressToExit config (is_true value) /\
  LoadConfig_line atoi atof config ("vibrance=" ++ value ++ rest)
  = set_vibrance config (atoi value) /\
  LoadConfig_line atoi atof config ("hue=" ++ value ++ rest)
  = set_hue config (atoi value) /\
  LoadConfig_line atoi atof config ("brightness=" ++ value ++ rest)
  = set_brightness config (atof value) /\
  LoadConfig_line atoi atof config ("contrast=" ++ value ++ rest)
  = set_contrast config (atof value) /\
  LoadConfig_line atoi atof config ("gamma=" ++ value ++ rest)
  = set_gamma config (atof value) /\
  LoadConfig_line atoi atof config ("temperature=" ++ value ++ rest)
  = set_temperature config (Z.min 100 (Z.max (-100) (atoi value))).
Proof.
  intros Hv Hr.
  pose proof (skip_blank_value value Hv) as Hb.
  assert (Hline : forall key : string,
            scannable_key key = true ->
            is_comment_or_empty (key ++ String "=" (value ++ rest)) = false ->
            LoadConfig_line atoi atof config
              (key ++ String "=" (value ++ rest))
            = (let k := skip_blank key in
               let v := value in
               if String.eqb k "toggleAllDisplays" then
                 set_toggleAllDisplays config (is_true v)
               else if String.eqb k "keyPressToExit" then
                 set_keyPressToExit config (is_true v)
               else if String.eqb k "vibrance" then set_vibrance config (atoi v)
               else if String.eqb k "hue" then set_hue config (atoi v)
               else if String.eqb k "brightness" then
                 set_brightness config (atof v)
               else if String.eqb k "contrast" then set_contrast config (atof v)
               else if String.eqb k "gamma" then set_gamma config (atof v)
               else if String.eqb k "temperature" then
                 let t := atoi v in
                 let t := if t <? -100 then -100 else t in
                 let t := if t >? 100 then 100 else t in
                 set_temperature config t
               else config)).
  { intros key Hk Hc. unfold LoadConfig_line. rewrite Hc.
    rewrite sscanf_key_value_well_formed by assumption.
    rewrite Hb. reflexivity. }
  repeat split;
    try (match goal with
         | |- LoadConfig_line _ _ _ (?k ++ _)%string = _ =>
             change (k ++ value ++ rest)%string
               with (substring 0 (String.length k - 1) k
                     ++ String "=" (value ++ rest))%string
         end;
         rewrite Hline by reflexivity; reflexivity).
  change ("temperature=" ++ value ++ rest)%string
    with ("temperature" ++ String "=" (value ++ rest))%string.
  rewrite Hline by reflexivity. cbv zeta. simpl String.eqb. cbv iota.
  f_equal.
  destruct (atoi value <? -100) eqn:E1.
  - apply Z.ltb_lt in E1. simpl. lia.
  - apply Z.ltb_ge in E1. destruct (atoi value >? 100) eqn:E2; lia.
Qed.

(** A line [key=value] whose key, after leading blanks, is not one of the
    eight known keys changes nothing. *)
Theorem LoadConfig_line_unknown_key (config : Config) (key value rest : string) :
  scannable_key key = true -> scannable_value value = true ->
  ends_word rest = true ->
  string_in (skip_blank key) known_keys = false ->
  LoadConfig_line atoi atof config (key ++ String "=" (value ++ rest))
  = config.
Proof.
  intros Hk Hv Hr Hin. unfold LoadConfig_line.
  destruct (is_comment_or_empty _); [reflexivity|].
  rewrite sscanf_key_value_well_formed by assumption.
  unfold string_in, known_keys in Hin. simpl in Hin.
  repeat (apply orb_false_elim in Hin; destruct Hin as [? Hin]).
  repeat match goal with
         | H : String.eqb ?a ?b = false |- _ => rewrite H; clear H
         end.
  reflexivity.
Qed.

End ConfigLines.

(** ** The whole run *)

Lemma gamma_writes_app (l l' : list Event) :
  gamma_writes (l ++ l') = gamma_writes l ++ gamma_writes l'.
Proof. unfold gamma_writes. apply flat_map_app. Qed.

Lemma deleted_DCs_app (l l' : list Event) :
  deleted_DCs (l ++ l') = deleted_DCs l ++ deleted_DCs l'.
Proof. unfold deleted_DCs. apply flat_map_app. Qed.

Lemma vibrance_targets_app (l l' : list Event) :
  vibrance_targets (l ++ l') = vibrance_targets l ++ vibrance_targets l'.
Proof. unfold vibrance_targets. apply flat_map_app. Qed.

Lemma hue_targets_app (l l' : list Event) :
  hue_targets (l ++ l') = hue_targets l ++ hue_targets l'.
Proof. unfold hue_targets. apply flat_map_app. Qed.

(** A trace of console events addresses no display. *)
Lemma console_targets (l : list Event) :
  driver_calls l = [] -> vibrance_targets l = [] /\ hue_targets l = [].
Proof.
  induction l as [|e l IH]; intros H; [split; reflexivity|].
  unfold driver_calls in H. simpl in H.
  destruct e; simpl in H; try discriminate;
    destruct (IH H) as [IH1 IH2]; split; assumption.
Qed.

Lemma driver_calls_app (l l' : list Event) :
  driver_calls (l ++ l') = driver_calls l ++ driver_calls l'.
Proof. unfold driver_calls. apply filter_app. Qed.

Section Run.

Variable rnd : R -> R.
Variable pow : R -> R -> R.
Variable atoi : string -> Z.
Variable atof : string -> R.

Lemma ToggleDisplay_gamma_writes (w : World) (fns : NvFuncs)
    (hNvDisplay : NvDisplayHandle) (hdc : HDC) (config : Config)
    (displayName : string) :
  gamma_writes (ToggleDisplay rnd pow w fns hNvDisplay hdc config displayName)
  = [hdc] /\
  deleted_DCs (ToggleDisplay rnd pow w fns hNvDisplay hdc config displayName)
  = [].
Proof.
  unfold ToggleDisplay, SetVibrance, SetHue.
  match goal with
  | |- context [if ?b then _ else _] => destruct b
  end;
    destruct (pfnNvAPI_GPU_SetDVCLevel fns);
    destruct (pfnNvAPI_GPU_SetHUEAngle fns); split; reflexivity.
Qed.

Lemma wait_for_key_console (config : Config) :
  gamma_writes (wait_for_key config) = [] /\
  deleted_DCs (wait_for_key config) = [] /\
  driver_calls (wait_for_key config) = [].
Proof. unfold wait_for_key. destruct (keyPressToExit config); repeat split. Qed.

Lemma LoadConfig_console (w : World) (filename : string) (config : Config) :
  gamma_writes (snd (LoadConfig rnd atoi atof w filename config)) = [] /\
  deleted_DCs (snd (LoadConfig rnd atoi atof w filename config)) = [] /\
  driver_calls (snd (LoadConfig rnd atoi atof w filename config)) = [].
Proof. unfold LoadConfig. destruct (fopen w filename); repeat split. Qed.

Lemma InitUndocumentedNvAPI_console (w : World) :
  gamma_writes (snd (InitUndocumentedNvAPI w)) = [] /\
  deleted_DCs (snd (InitUndocumentedNvAPI w)) = [].
Proof.
  unfold InitUndocumentedNvAPI. destruct (LoadLibraryA_nvapi w);
    [destruct (nvapi_QueryInterface w)|]; split; reflexivity.
Qed.

Lemma ToggleDisplay_targets (w : World) (fns : NvFuncs)
    (hNvDisplay : NvDisplayHandle) (hdc : HDC) (config : Config)
    (displayName : string) :
  vibrance_targets
    (ToggleDisplay rnd pow w fns hNvDisplay hdc config displayName)
  = match pfnNvAPI_GPU_SetDVCLevel fns with
    | Some _ => [hNvDisplay]
    | None => []
    end /\
  hue_targets
    (ToggleDisplay rnd pow w fns hNvDisplay hdc config displayName)
  = match pfnNvAPI_GPU_SetHUEAngle fns with
    | Some _ => [hNvDisplay]
    | None => []
    end.
Proof.
  unfold ToggleDisplay, SetVibrance, SetHue.
  match goal with
  | |- context [if ?b then _ else _] => destruct b
  end;
    destruct (pfnNvAPI_GPU_SetDVCLevel fns);
    destruct (pfnNvAPI_GPU_SetHUEAngle fns); split; reflexivity.
Qed.

Lemma InitUndocumentedNvAPI_driver_calls (w : World) :
  driver_calls (snd (InitUndocumentedNvAPI w)) = [].
Proof.
  unfold InitUndocumentedNvAPI. destruct (LoadLibraryA_nvapi w);
    [destruct (nvapi_QueryInterface w)|]; reflexivity.
Qed.

Lemma toggle_all_effects (w : World) (fns : NvFuncs) (config : Config)
    (i : nat) (displays : list NvDisplayHandle) :
  gamma_writes (toggle_all rnd pow w fns config i displays)
  = loop_DCs w i displays /\
  vibrance_targets (toggle_all rnd pow w fns config i displays)
  = match pfnNvAPI_GPU_SetDVCLevel fns with
    | Some _ => displays
    | None => []
    end /\
  hue_targets (toggle_all rnd pow w fns config i displays)
  = match pfnNvAPI_GPU_SetHUEAngle fns with
    | Some _ => displays
    | None => []
    end.
Proof.
  revert i. induction displays as [|h displays IH]; intros i.
  - destruct (pfnNvAPI_GPU_SetDVCLevel fns);
      destruct (pfnNvAPI_GPU_SetHUEAngle fns); repeat split.
  - cbn [toggle_all loop_DCs]. cbv zeta. unfold loop_DC. cbv zeta.
    rewrite !gamma_writes_app, !vibrance_targets_app, !hue_targets_app.
    match goal with
    | |- context [ToggleDisplay rnd pow w fns h ?hdc config ?name] =>
        destruct (ToggleDisplay_gamma_writes w fns h hdc config name)
          as [-> _];
        destruct (ToggleDisplay_targets w fns h hdc config name)
          as [-> ->];
        set (dc := hdc)
    end.
    destruct (IH (S i)) as (-> & -> & ->).
    destruct (negb (dc =? GetDC_NULL w));
      destruct (pfnNvAPI_GPU_SetDVCLevel fns);
      destruct (pfnNvAPI_GPU_SetHUEAngle fns); repeat split.
Qed.

(** The exit code of [main] is 1 exactly when the driver does not
    initialise or, with a single display to toggle, no display is found;
    otherwise it is 0, also when all displays are to be toggled and there
    is none. *)
Theorem main_exit_code (w : World) (config : Config) :
  (fst (main rnd pow atoi atof w config) = 1 <->
   NvAPI_Initialize w <> NVAPI_OK \/
   (toggleAllDisplays
      (snd (fst (LoadConfig rnd atoi atof w (configPath w) config))) = false
    /\ nvidiaDisplays w = [])) /\
  (fst (main rnd pow atoi atof w config) = 0 \/
   fst (main rnd pow atoi atof w config) = 1).
Proof.
  unfold main.
  destruct (LoadConfig rnd atoi atof w (configPath w) config)
    as [[loaded cfg] out1]. simpl.
  destruct (NvAPI_Initialize w =? NVAPI_OK) eqn:E; simpl.
  - apply Z.eqb_eq in E.
    destruct (InitUndocumentedNvAPI w) as [[ok fns] out3].
    destruct (toggleAllDisplays cfg) eqn:Et.
    + simpl. split; [|left; reflexivity]. split; [discriminate|].
      intros [H|[H _]]; [contradiction | discriminate].
    + destruct (nvidiaDisplays w) as [|h l]; simpl.
      * split; [|right; reflexivity]. split; auto.
      * split; [|left; reflexivity]. split; [discriminate|].
        intros [H|[_ H]]; [contradiction | discriminate].
  - apply Z.eqb_neq in E. split; [|right; reflexivity]. split; auto.
Qed.

(** When the driver does not initialise, [main] calls neither the driver
    nor the display system and exits with 1. *)
Theorem main_without_driver (w : World) (config : Config) :
  NvAPI_Initialize w <> NVAPI_OK ->
  driver_calls (snd (main rnd pow atoi atof w config)) = [] /\
  fst (main rnd pow atoi atof w config) = 1.
Proof.
  intros H. unfold main.
  pose proof (LoadConfig_console w (configPath w) config) as (_ & _ & Hc).
  destruct (LoadConfig rnd atoi atof w (configPath w) config)
    as [[loaded cfg] out1]. simpl in Hc.
  destruct (NvAPI_Initialize w =? NVAPI_OK) eqn:E;
    [apply Z.eqb_eq in E; contradiction|].
  cbn [negb fst snd]. split; [|reflexivity].
  rewrite !driver_calls_app, Hc.
  destruct (wait_for_key_console cfg) as (_ & _ & ->).
  destruct loaded; reflexivity.
Qed.

(** With all displays to toggle, [main] writes the gamma ramps of exactly
    the device contexts of the enumerated displays, in the order of the
    enumeration, and each of the two set functions that is resolved is
    called once for each enumerated display, in the same order. *)
Theorem main_all_displays (w : World) (config : Config) :
  NvAPI_Initialize w = NVAPI_OK ->
  toggleAllDisplays
    (snd (fst (LoadConfig rnd atoi atof w (configPath w) config))) = true ->
  gamma_writes (snd (main rnd pow atoi atof w config))
  = loop_DCs w 0 (nvidiaDisplays w) /\
  vibrance_targets (snd (main rnd pow atoi atof w config))
  = match pfnNvAPI_GPU_SetDVCLevel (snd (fst (InitUndocumentedNvAPI w))) with
    | Some _ => nvidiaDisplays w
    | None => []
    end /\
  hue_targets (snd (main rnd pow atoi atof w config))
  = match pfnNvAPI_GPU_SetHUEAngle (snd (fst (InitUndocumentedNvAPI w))) with
    | Some _ => nvidiaDisplays w
    | None => []
    end.
Proof.
  intros Hinit Hall. unfold main.
  pose proof (LoadConfig_console w (configPath w) config) as (Hg1 & _ & Hc1).
  destruct (LoadConfig rnd atoi atof w (configPath w) config)
    as [[loaded cfg] out1]. simpl in Hall, Hg1, Hc1.
  destruct (console_targets out1 Hc1) as [Hv1 Hh1].
  rewrite Hinit, Z.eqb_refl. cbn [negb].
  pose proof (InitUndocumentedNvAPI_console w) as (Hg3 & _).
  pose proof (InitUndocumentedNvAPI_driver_calls w) as Hc3.
  destruct (InitUndocumentedNvAPI w) as [[ok fns] out3]. simpl in Hg3, Hc3.
  destruct (console_targets out3 Hc3) as [Hv3 Hh3].
  rewrite Hall. cbn [snd fst].
  destruct (wait_for_key_console cfg) as (Hgw & _ & Hcw).
  destruct (console_targets _ Hcw) as [Hvw Hhw].
  destruct (toggle_all_effects w fns cfg 0 (nvidiaDisplays w))
    as (Hg & Hv & Hh).
  rewrite !gamma_writes_app, !vibrance_targets_app, !hue_targets_app.
  rewrite Hg1, Hg3, Hgw, Hv1, Hv3, Hvw, Hh1, Hh3, Hhw, Hg, Hv, Hh.
  destruct loaded; destruct ok;
    cbn [negb gamma_writes vibrance_targets hue_targets flat_map app];
    rewrite ?app_nil_r; repeat split.
Qed.

(** With a single display to toggle and a display found, [main] writes
    the gamma ramp of the context that [GetGammaRampDC] returns, once, and
    then deletes that context. *)
Theorem main_primary_display (w : World) (config : Config) :
  NvAPI_Initialize w = NVAPI_OK ->
  toggleAllDisplays
    (snd (fst (LoadConfig rnd atoi atof w (configPath w) config))) = false ->
  nvidiaDisplays w <> [] ->
  gamma_writes (snd (main rnd pow atoi atof w config)) = [GetGammaRampDC w] /\
  deleted_DCs (snd (main rnd pow atoi atof w config)) = [GetGammaRampDC w].
Proof.
  intros Hinit Hall Hd. unfold main.
  pose proof (LoadConfig_console w (configPath w) config) as (Hg1 & Hd1 & _).
  destruct (LoadConfig rnd atoi atof w (configPath w) config)
    as [[loaded cfg] out1]. simpl in Hall, Hg1, Hd1.
  rewrite Hinit, Z.eqb_refl. cbn [negb].
  pose proof (InitUndocumentedNvAPI_console w) as (Hg3 & Hd3).
  destruct (InitUndocumentedNvAPI w) as [[ok fns] out3]. simpl in Hg3, Hd3.
  rewrite Hall.
  destruct (nvidiaDisplays w) as [|h l]; [contradiction|]. cbn [snd].
  destruct (wait_for_key_console cfg) as (Hgw & Hdw & _).
  rewrite !gamma_writes_app, !deleted_DCs_app, Hg1, Hd1, Hg3, Hd3.
  match goal with
  | |- context [ToggleDisplay rnd pow w fns h ?hdc cfg ?name] =>
      destruct (ToggleDisplay_gamma_writes w fns h hdc cfg name) as [-> ->]
  end.
  change (gamma_writes [DeleteDC (GetGammaRampDC w); NvAPI_Unload])
    with (@nil HDC).
  change (deleted_DCs [DeleteDC (GetGammaRampDC w); NvAPI_Unload])
    with [GetGammaRampDC w].
  rewrite Hgw, Hdw.
  destruct loaded; destruct ok; split; reflexivity.
Qed.

End Run.

Section RunWithoutVibrance.

Variable rnd : R -> R.
Variable pow : R -> R -> R.
Variable atoi : string -> Z.
Variable atof : string -> R.

(** When none of the four undocumented driver functions is resolved (the
    library or [nvapi_QueryInterface] is missing, or it resolves nothing),
    a run on the primary display makes no vibrance or hue call: vibrance
    and hue read as the defaults, so the gamma table alone decides the
    direction of the toggle, and the only calls are the gamma write, the
    deletion of the context and the unloading of the driver. *)
Theorem main_without_undocumented_functions (w : World) (config : Config) :
  NvAPI_Initialize w = NVAPI_OK ->
  snd (fst (InitUndocumentedNvAPI w)) = null_funcs ->
  toggleAllDisplays
    (snd (fst (LoadConfig rnd atoi atof w (configPath w) config))) = false ->
  nvidiaDisplays w <> [] ->
  driver_calls (snd (main rnd pow atoi atof w config))
  = (let cfg := snd (fst (LoadConfig rnd atoi atof w (configPath w) config)) in
     let hdc := GetGammaRampDC w in
     [SetDeviceGammaRamp hdc
        (if HasDefaultGammaRamp rnd pow (GetDeviceGammaRamp w) (uninitRamp w)
              hdc
         then BuildGammaRamp rnd pow (uninitRamp w) (brightness cfg)
                (contrast cfg) (gamma cfg) (temperature cfg)
         else BuildGammaRamp rnd pow (uninitRamp w) DEFAULT_BRIGHTNESS
                DEFAULT_CONTRAST DEFAULT_GAMMA 0);
      DeleteDC hdc; NvAPI_Unload]).
Proof.
  intros Hinit Hundoc Hall Hd. unfold main.
  pose proof (LoadConfig_console rnd atoi atof w (configPath w) config)
    as (_ & _ & Hc1).
  destruct (LoadConfig rnd atoi atof w (configPath w) config)
    as [[loaded cfg] out1]. simpl in Hall, Hc1.
  rewrite Hinit, Z.eqb_refl. cbn [negb].
  pose proof (InitUndocumentedNvAPI_driver_calls w) as Hc3.
  destruct (InitUndocumentedNvAPI w) as [[ok fns] out3].
  simpl in Hundoc, Hc3. subst fns.
  rewrite Hall.
  destruct (nvidiaDisplays w) as [|h l]; [contradiction|]. cbn [snd fst].
  destruct (wait_for_key_console cfg) as (_ & _ & Hcw).
  rewrite !driver_calls_app, Hc1, Hc3, Hcw.
  unfold ToggleDisplay.
  change (ToggleDisplay_locals null_funcs h)
    with {| dvcMin := 0; dvcMax := 63; currentVibranceRaw := 0;
            currentHue := 0; defaultVibranceRaw := 0 |}.
  cbn [currentVibranceRaw defaultVibranceRaw currentHue dvcMax].
  change (Int.abs (Int.sub 0 0) <=? 1) with true.
  change (0 =? DEFAULT_HUE) with true. cbn [andb].
  destruct (HasDefaultGammaRamp rnd pow (GetDeviceGammaRamp w) (uninitRamp w)
              (GetGammaRampDC w));
    destruct loaded; destruct ok; reflexivity.
Qed.

End RunWithoutVibrance.

(** ** Instances *)

Local Open Scope R_scope.

(** A cell of the green channel and a cell outside the table. *)
Lemma BuildGammaRamp_overwrites_table_witness :
  BuildGammaRamp binary64 pow64 (fun _ _ => 0%Z) 0.625 0.75 1.5 40 1%Z 7%Z
  = BuildGammaRamp binary64 pow64 (fun _ _ => 9%Z) 0.625 0.75 1.5 40 1%Z 7%Z
  /\
  BuildGammaRamp binary64 pow64 (fun _ _ => 9%Z) 0.625 0.75 1.5 40 3%Z 7%Z
  = 9%Z.
Proof.
  assert (Hb : 0 <= 0.625 <= 1) by lra.
  assert (Hc : 0 <= 0.75 <= 1) by lra.
  assert (Hg : 0 < 1.5) by lra.
  assert (Ht : (-100 <= 40 <= 100)%Z) by lia.
  split.
  - apply (BuildGammaRamp_overwrites_table binary64 pow64 (fun _ _ => 0%Z)
             (fun _ _ => 9%Z) 0.625 0.75 1.5 40%Z 1%Z 7%Z Hb Hc Hg Ht).
    unfold is_channel. lia.
  - apply (BuildGammaRamp_overwrites_table binary64 pow64 (fun _ _ => 9%Z)
             (fun _ _ => 9%Z) 0.625 0.75 1.5 40%Z 3%Z 7%Z Hb Hc Hg Ht).
    unfold is_channel. lia.
Defined.

(** A warm temperature at sample 100 in binary64 arithmetic. *)
Lemma temperature_shifts_channels_witness :
  0 <= 0.625 <= 1 /\ 0 <= 0.75 <= 1 /\ 0 < 1.5 /\
  (-100 <= 40 <= 100)%Z /\ (0 <= 100 < 256)%Z /\ (0 <= 40)%Z /\
  (BuildGammaRamp binary64 pow64 (fun _ _ => 0%Z) 0.625 0.75 1.5 40 2%Z 100%Z
   <= BuildGammaRamp binary64 pow64 (fun _ _ => 0%Z) 0.625 0.75 1.5 40
        1%Z 100%Z
   <= BuildGammaRamp binary64 pow64 (fun _ _ => 0%Z) 0.625 0.75 1.5 40
        0%Z 100%Z)%Z.
Proof.
  assert (Hb : 0 <= 0.625 <= 1) by lra.
  assert (Hc : 0 <= 0.75 <= 1) by lra.
  assert (Hg : 0 < 1.5) by lra.
  assert (Ht : (-100 <= 40 <= 100)%Z) by lia.
  assert (Hi : (0 <= 100 < 256)%Z) by lia.
  assert (Hw : (0 <= 40)%Z) by lia.
  repeat (split; [assumption|]).
  exact (proj1 (temperature_shifts_channels binary64 pow64 binary64_mono
                  binary64_half_int (fun _ _ => 0%Z) 0.625 0.75 1.5 40%Z
                  100%Z Hb Hc Hg Ht Hi) Hw).
Defined.

(** Two brightness values at sample 100 of the green channel. *)
Lemma brightness_monotone_witness :
  0 <= 0.25 /\ 0.25 <= 0.625 /\ 0.625 <= 1 /\ 0 <= 0.75 <= 1 /\ 0 < 1.5 /\
  (-100 <= 40 <= 100)%Z /\ is_channel 1 /\ (0 <= 100 < 256)%Z /\
  (BuildGammaRamp binary64 pow64 (fun _ _ => 0%Z) 0.25 0.75 1.5 40 1%Z 100%Z
   <= BuildGammaRamp binary64 pow64 (fun _ _ => 0%Z) 0.625 0.75 1.5 40
        1%Z 100%Z)%Z.
Proof.
  assert (Hb0 : 0 <= 0.25) by lra.
  assert (Hb : 0.25 <= 0.625) by lra.
  assert (Hb1 : 0.625 <= 1) by lra.
  assert (Hc : 0 <= 0.75 <= 1) by lra.
  assert (Hg : 0 < 1.5) by lra.
  assert (Ht : (-100 <= 40 <= 100)%Z) by lia.
  assert (Hch : is_channel 1) by (unfold is_channel; lia).
  assert (Hi : (0 <= 100 < 256)%Z) by lia.
  repeat (split; [assumption|]).
  exact (brightness_monotone binary64 pow64 binary64_mono binary64_half_int
           (fun _ _ => 0%Z) 0.25 0.625 0.75 1.5 40%Z 1%Z 100%Z
           Hb0 Hb Hb1 Hc Hg Ht Hch Hi).
Defined.

(** Red and blue at sample 100. *)
Lemma neutral_temperature_is_gray_witness :
  0 <= 0.625 <= 1 /\ 0 <= 0.75 <= 1 /\ 0 < 1.5 /\
  is_channel 0 /\ is_channel 2 /\ (0 <= 100 < 256)%Z /\
  BuildGammaRamp binary64 pow64 (fun _ _ => 0%Z) 0.625 0.75 1.5 0 0%Z 100%Z
  = BuildGammaRamp binary64 pow64 (fun _ _ => 0%Z) 0.625 0.75 1.5 0 2%Z 100%Z.
Proof.
  assert (Hb : 0 <= 0.625 <= 1) by lra.
  assert (Hc : 0 <= 0.75 <= 1) by lra.
  assert (Hg : 0 < 1.5) by lra.
  assert (Hc0 : is_channel 0) by (unfold is_channel; lia).
  assert (Hc2 : is_channel 2) by (unfold is_channel; lia).
  assert (Hi : (0 <= 100 < 256)%Z) by lia.
  repeat (split; [assumption|]).
  exact (neutral_temperature_is_gray binary64 pow64 binary64_half_int
           (fun _ _ => 0%Z) 0.625 0.75 1.5 0%Z 2%Z 100%Z
           Hb Hc Hg Hc0 Hc2 Hi).
Defined.

(** The first and the last sample of the red channel. *)
Lemma zero_contrast_is_flat_witness :
  0 <= 0.625 <= 1 /\ 0 < 1.5 /\ (-100 <= 40 <= 100)%Z /\
  is_channel 0 /\ (0 <= 0 < 256)%Z /\ (0 <= 255 < 256)%Z /\
  BuildGammaRamp binary64 pow64 (fun _ _ => 0%Z) 0.625 0 1.5 40 0%Z 0%Z
  = BuildGammaRamp binary64 pow64 (fun _ _ => 0%Z) 0.625 0 1.5 40 0%Z 255%Z.
Proof.
  assert (Hb : 0 <= 0.625 <= 1) by lra.
  assert (Hg : 0 < 1.5) by lra.
  assert (Ht : (-100 <= 40 <= 100)%Z) by lia.
  assert (Hc0 : is_channel 0) by (unfold is_channel; lia).
  assert (Hi : (0 <= 0 < 256)%Z) by lia.
  assert (Hj : (0 <= 255 < 256)%Z) by lia.
  repeat (split; [assumption|]).
  exact (zero_contrast_is_flat binary64 pow64 binary64_half_int
           (fun _ _ => 0%Z) 0.625 1.5 40%Z 0%Z 0%Z 255%Z
           Hb Hg Ht Hc0 Hi Hj).
Defined.

(** A display system that reports the table of the built-in custom
    settings, in binary64 arithmetic with a correctly rounded [pow]. *)
Lemma HasDefaultGammaRamp_custom_witness :
  HasDefaultGammaRamp binary64 pow64
    (fun _ => Some (BuildGammaRamp binary64 pow64 (fun _ _ => 0%Z)
                      (binary64 0.60) (binary64 0.65) (binary64 1.43) 0))
    (fun _ _ => 0%Z) 1%Z
  = false.
Proof.
  exact (HasDefaultGammaRamp_custom binary64 pow64 binary64_half_int
           binary64_err pow64_acc
           (fun _ => Some (BuildGammaRamp binary64 pow64 (fun _ _ => 0%Z)
                             (binary64 0.60) (binary64 0.65) (binary64 1.43)
                             0))
           (fun _ _ => 0%Z) (fun _ _ => 0%Z) 1%Z eq_refl).
Defined.

Local Close Scope R_scope.

(** No function resolved and no readable gamma table. *)
Lemma ToggleDisplay_all_queries_fail_witness :
  DVC_query_fails null_funcs 1 /\ HUE_query_fails null_funcs 1 /\
  GetDeviceGammaRamp world_without_config 2%Z = None /\
  ToggleDisplay binary64 pow64 world_without_config null_funcs 1 2%Z
    (builtin_defaults binary64) "DISPLAY1"
  = [Printf (MsgDisplay "DISPLAY1");
     Printf (MsgText "Toggling Custom Settings:");
     Printf (MsgCustomInts 80 7 0);
     Printf (MsgCustomReals (binary64 0.60) (binary64 0.65) (binary64 1.43));
     SetDeviceGammaRamp 2%Z
       (BuildGammaRamp binary64 pow64 (fun _ _ => 0%Z) (binary64 0.60)
          (binary64 0.65) (binary64 1.43) 0)].
Proof.
  split; [exact I|]. split; [exact I|]. split; [reflexivity|].
  exact (ToggleDisplay_all_queries_fail binary64 pow64 world_without_config
           null_funcs 1%Z 2%Z (builtin_defaults binary64) "DISPLAY1"%string
           I I eq_refl).
Defined.

Lemma builtin_hue_not_default (rnd : R -> R) :
  hue (builtin_defaults rnd) <> DEFAULT_HUE.
Proof. discriminate. Qed.

(** The built-in settings on a driver with levels 0 to 63: both runs; and
    settings with the default hue: the first run. *)
Lemma toggle_twice_restores_defaults_witness :
  (toggle_state binary64 pow64 world_without_config 63 1 2%Z
     (builtin_defaults binary64) "DISPLAY1"
     (default_state binary64 pow64 (fun _ _ => 0%Z))
   = custom_state binary64 pow64 (fun _ _ => 0%Z) 63
       (builtin_defaults binary64)
   /\
   toggle_state binary64 pow64 world_without_config 63 1 2%Z
     (builtin_defaults binary64) "DISPLAY1"
     (custom_state binary64 pow64 (fun _ _ => 0%Z) 63
        (builtin_defaults binary64))
   = default_state binary64 pow64 (fun _ _ => 0%Z))
  /\
  toggle_state binary64 pow64 world_without_config 63 1 2%Z
    (set_hue (builtin_defaults binary64) 0) "DISPLAY1"
    (default_state binary64 pow64 (fun _ _ => 0%Z))
  = custom_state binary64 pow64 (fun _ _ => 0%Z) 63
      (set_hue (builtin_defaults binary64) 0).
Proof.
  split.
  - destruct (toggle_twice_restores_defaults binary64 pow64
                world_without_config 63%Z 1%Z 2%Z (builtin_defaults binary64)
                "DISPLAY1"%string (fun _ _ => 0%Z)) as [H1 H2].
    split; [exact H1 | exact (H2 (builtin_hue_not_default binary64))].
  - exact (proj1 (toggle_twice_restores_defaults binary64 pow64
                    world_without_config 63%Z 1%Z 2%Z
                    (set_hue (builtin_defaults binary64) 0)
                    "DISPLAY1"%string (fun _ _ => 0%Z))).
Defined.

(** A line with a space in place of the equals sign. *)
Lemma LoadConfig_line_without_equals_witness :
  string_forall (fun c => negb (Ascii.eqb c "=")) "vibrance 90" = true /\
  LoadConfig_line atoi_500 atof_0 zeroed_config "vibrance 90" = zeroed_config.
Proof.
  split; [reflexivity|].
  exact (LoadConfig_line_without_equals atoi_500 atof_0 zeroed_config
           "vibrance 90"%string eq_refl).
Defined.

(** A file that asks for temperature 500. *)
Lemma LoadConfig_temperature_range_witness :
  fst (fst (LoadConfig binary64 atoi_500 atof_0
              (world_with_config world_without_config hot_lines)
              "native_nvcp_config.ini" zeroed_config)) = true /\
  (-100 <= temperature
             (snd (fst (LoadConfig binary64 atoi_500 atof_0
                          (world_with_config world_without_config hot_lines)
                          "native_nvcp_config.ini" zeroed_config)))
        <= 100)%Z.
Proof.
  split; [reflexivity|].
  exact (LoadConfig_temperature_range binary64 atoi_500 atof_0
           (world_with_config world_without_config hot_lines)
           "native_nvcp_config.ini"%string zeroed_config eq_refl).
Defined.

(** The value [90] followed by a line feed. *)
Lemma LoadConfig_line_known_key_witness :
  scannable_value "90" = true /\
  ends_word (String char_lf EmptyString) = true /\
  LoadConfig_line atoi_500 atof_0 zeroed_config
    ("vibrance=" ++ "90" ++ String char_lf EmptyString)
  = set_vibrance zeroed_config (atoi_500 "90").
Proof.
  split; [reflexivity|]. split; [reflexivity|].
  exact (proj1 (proj2 (proj2
           (LoadConfig_line_known_key atoi_500 atof_0 zeroed_config
              "90"%string (String char_lf EmptyString) eq_refl eq_refl)))).
Defined.

(** A key the program does not know. *)
Lemma LoadConfig_line_unknown_key_witness :
  scannable_key "saturation" = true /\ scannable_value "90" = true /\
  ends_word (String char_lf EmptyString) = true /\
  string_in (skip_blank "saturation") known_keys = false /\
  LoadConfig_line atoi_500 atof_0 zeroed_config
    ("saturation" ++ String "=" ("90" ++ String char_lf EmptyString))
  = zeroed_config.
Proof.
  split; [reflexivity|]. split; [reflexivity|]. split; [reflexivity|].
  split; [reflexivity|].
  exact (LoadConfig_line_unknown_key atoi_500 atof_0 zeroed_config
           "saturation"%string "90"%string (String char_lf EmptyString)
           eq_refl eq_refl eq_refl eq_refl).
Defined.

(** The executable [C:\tools\native_nvcp_toggle.exe]. *)
Lemma configPath_in_executable_directory_witness :
  exePath world_without_config
  = ("C:\tools" ++ String "\" "native_nvcp_toggle.exe")%string /\
  string_forall (fun a => negb (Ascii.eqb a "\")) "native_nvcp_toggle.exe"
  = true /\
  (String.length "C:\tools" + 23 <= 259)%nat /\
  configPath world_without_config
  = ("C:\tools" ++ "\native_nvcp_config.ini")%string.
Proof.
  assert (Hlen : (String.length "C:\tools" + 23 <= 259)%nat) by (simpl; lia).
  split; [reflexivity|]. split; [reflexivity|]. split; [exact Hlen|].
  exact (configPath_in_executable_directory world_without_config
           "C:\tools"%string "native_nvcp_toggle.exe"%string
           eq_refl eq_refl Hlen).
Defined.

Lemma status_not_OK : (-6 <> NVAPI_OK)%Z.
Proof. discriminate. Qed.

(** A driver that answers [NVAPI_NVIDIA_DEVICE_NOT_FOUND]. *)
Lemma main_without_driver_witness :
  driver_calls
    (snd (main binary64 pow64 atoi_500 atof_0
            (world_without_driver world_without_config) zeroed_config)) = []
  /\
  fst (main binary64 pow64 atoi_500 atof_0
         (world_without_driver world_without_config) zeroed_config) = 1%Z.
Proof.
  exact (main_without_driver binary64 pow64 atoi_500 atof_0
           (world_without_driver world_without_config) zeroed_config
           status_not_OK).
Defined.

(** Two displays, the second without a name and without a context of its
    own, and a file that asks for all displays. *)
Lemma main_all_displays_witness :
  NvAPI_Initialize
    (world_two_displays
       (world_with_config world_without_config all_displays_lines))
  = NVAPI_OK /\
  toggleAllDisplays
    (snd (fst (LoadConfig binary64 atoi_500 atof_0
                 (world_two_displays
                    (world_with_config world_without_config
                       all_displays_lines))
                 (configPath
                    (world_two_displays
                       (world_with_config world_without_config
                          all_displays_lines)))
                 zeroed_config))) = true /\
  gamma_writes
    (snd (main binary64 pow64 atoi_500 atof_0
            (world_two_displays
               (world_with_config world_without_config all_displays_lines))
            zeroed_config))
  = [5; 3] /\
  vibrance_targets
    (snd (main binary64 pow64 atoi_500 atof_0
            (world_two_displays
               (world_with_config world_without_config all_displays_lines))
            zeroed_config))
  = [1; 2] /\
  hue_targets
    (snd (main binary64 pow64 atoi_500 atof_0
            (world_two_displays
               (world_with_config world_without_config all_displays_lines))
            zeroed_config))
  = [1; 2].
Proof.
  split; [reflexivity|]. split; [reflexivity|].
  exact (main_all_displays binary64 pow64 atoi_500 atof_0
           (world_two_displays
              (world_with_config world_without_config all_displays_lines))
           zeroed_config eq_refl eq_refl).
Defined.

Lemma one_display : nvidiaDisplays world_without_config <> [].
Proof. discriminate. Qed.

(** One display and no configuration file. *)
Lemma main_primary_display_witness :
  gamma_writes
    (snd (main binary64 pow64 atoi_500 atof_0 world_without_config
            zeroed_config)) = [2%Z] /\
  deleted_DCs
    (snd (main binary64 pow64 atoi_500 atof_0 world_without_config
            zeroed_config)) = [2%Z].
Proof.
  exact (main_primary_display binary64 pow64 atoi_500 atof_0
           world_without_config zeroed_config eq_refl eq_refl one_display).
Defined.

(** One display, an empty configuration file, and a driver library that
    resolves none of the four functions, so that [InitUndocumentedNvAPI]
    returns [true]. *)
Lemma main_without_undocumented_functions_witness :
  fst (fst (InitUndocumentedNvAPI
              (world_unresolved (world_with_config world_without_config []))))
  = true /\
  driver_calls
    (snd (main binary64 pow64 atoi_500 atof_0
            (world_unresolved (world_with_config world_without_config []))
            zeroed_config))
  = [SetDeviceGammaRamp 2%Z
       (BuildGammaRamp binary64 pow64 (fun _ _ => 0%Z) (binary64 0.60)
          (binary64 0.65) (binary64 1.43) 0);
     DeleteDC 2%Z; NvAPI_Unload].
Proof.
  split; [reflexivity|].
  exact (main_without_undocumented_functions binary64 pow64 atoi_500 atof_0
           (world_unresolved (world_with_config world_without_config []))
           zeroed_config eq_refl eq_refl eq_refl one_display).
Defined.
